(** * reddit_analysis: a shallow embedding of the fetch / analyse / report pipeline

    The development follows the three source files:
    - [reddit_fetcher.py]  (module [RedditFetcher]),
    - [openai_analyzer.py] (module [OpenAIAnalyzer]),
    - [main.py]            (module [Main]).

    Python values are modelled as follows.  A [str] is a [string] (one
    [ascii] per character), an [int] is a [Z], a timestamp (a finite
    [float] number of seconds) is a [Q], a [list] is a [list], a [dict]
    with a fixed set of keys (a post, a comment) is a record, and a value
    whose shape is only known at run time (anything that went through
    [json.loads]) is a [json] tree.  The files on disk are a finite map
    from paths to texts.  Exceptions are values of type [exn]; code that
    may raise returns a [result].

    The external collaborators are section variables: the forum client,
    the completion client, the calendar of the standard library and the
    JSON text codec.  The state of the two clients is threaded
    explicitly; the session of the analyzer also records the requests
    that were sent.  The fetcher is read twice: with collaborators that
    return, and with collaborators that can raise.  The JSON text codec
    is also given as a definition (module [Json]), to state what is read
    back from a file that was written.

    Not modelled: console output ([print], [tqdm]), other than the lines
    of the check of the environment; exceptions raised by the file
    system; the constructors of the two clients, which are taken to
    return once the credentials are set. *)

From Stdlib Require Import ZArith QArith Lqa String Ascii List Bool Lia DecimalString.
From Stdlib Require Import DecimalFacts DecimalPos DecimalZ.
From stdpp Require Import base gmap strings list.
Import ListNotations.

Local Set Warnings "-register-all".

Local Open Scope list_scope.

(** ** Python strings *)

Module PyStr.

(** [s[:n]] for a non-negative [n]: the first [n] characters. *)
Fixpoint take (n : nat) (s : string) : string :=
  match n, s with
  | O, _ => EmptyString
  | S _, EmptyString => EmptyString
  | S k, String c rest => String c (take k rest)
  end.

(** [s[:n]] with [n] a Python integer that is not negative. *)
Definition upto (n : Z) (s : string) : string := take (Z.to_nat n) s.

(** [needle in s]: [needle] occurs in [s]. *)
Fixpoint contains (needle s : string) : bool :=
  String.prefix needle s ||
  match s with
  | EmptyString => false
  | String _ rest => contains needle rest
  end.

(** [sep.join(parts)]. *)
Fixpoint join (sep : string) (parts : list string) : string :=
  match parts with
  | [] => EmptyString
  | [p] => p
  | p :: rest => p +:+ sep +:+ join sep rest
  end.

(** Truth value of a string: non-empty. *)
Definition truthy (s : string) : bool :=
  match s with EmptyString => false | String _ _ => true end.

End PyStr.

(** ** Exceptions and results *)

Inductive exn_class : Set :=
| APIError            (* raised by the completion or forum client *)
| JSONDecodeError
| TypeError
| AttributeError
| IndexError
| KeyError
| ValueError
| FileNotFoundError
| OverflowError.

(** An exception: its class and [str(e)]. *)
Record exn : Set := Exn { exn_kind : exn_class; exn_str : string }.

Inductive result (A : Type) : Type :=
| Ok (a : A)
| Raise (e : exn).
Arguments Ok {A} a.
Arguments Raise {A} e.

Definition rbind {A B} (r : result A) (k : A -> result B) : result B :=
  match r with
  | Ok a => k a
  | Raise e => Raise e
  end.

Notation "x <-! r ;; k" := (rbind r (fun x => k))
  (at level 100, r at next level, right associativity).

(** [try: body  except Exception as e: handler e]. *)
Definition try_except {A} (body : result A) (handler : exn -> result A) : result A :=
  match body with
  | Ok a => Ok a
  | Raise e => handler e
  end.

(** ** Values of run-time shape *)

(** A Python [float]: a finite value, or one of the three special values
    that [json.loads] also accepts. *)
Inductive pyfloat : Set :=
| FFinite (q : Q)
| FNan
| FInf (negative : bool).

(** What [json.loads] returns and [json.dumps] accepts.  An object keeps
    its fields in insertion order, as a [dict] does. *)
Inductive json : Set :=
| JNull
| JBool (b : bool)
| JInt (z : Z)
| JFloat (f : pyfloat)
| JStr (s : string)
| JArr (items : list json)
| JObj (fields : list (string * json)).

Module Py.

Definition type_error (msg : string) : exn := Exn TypeError msg.

(** Truth value of a value, as used by [if v:]. *)
Definition truthy (v : json) : bool :=
  match v with
  | JNull => false
  | JBool b => b
  | JInt z => negb (z =? 0)%Z
  | JFloat (FFinite q) => negb (Qeq_bool q 0)
  | JFloat _ => true
  | JStr s => PyStr.truthy s
  | JArr items => match items with [] => false | _ :: _ => true end
  | JObj fields => match fields with [] => false | _ :: _ => true end
  end.

(** Lookup of a key among the fields of a [dict]. *)
Fixpoint assoc (k : string) (fields : list (string * json)) : option json :=
  match fields with
  | [] => None
  | (k', v) :: rest => if String.eqb k k' then Some v else assoc k rest
  end.

(** The characters of a string, each as a one-character string. *)
Fixpoint chars (s : string) : list json :=
  match s with
  | EmptyString => []
  | String c rest => JStr (String c EmptyString) :: chars rest
  end.

(** The items produced by iterating over a value ([list.extend(v)],
    [for x in v]): the elements of a list, the keys of a dict, the
    characters of a string; anything else is not iterable. *)
Definition iter (v : json) : result (list json) :=
  match v with
  | JArr items => Ok items
  | JObj fields => Ok (map (fun kv => JStr (fst kv)) fields)
  | JStr s => Ok (chars s)
  | _ => Raise (type_error "object is not iterable")
  end.

(** [v.get(k, default)]: only a [dict] has the method. *)
Definition get (v : json) (k : string) (default : json) : result json :=
  match v with
  | JObj fields => Ok (match assoc k fields with Some x => x | None => default end)
  | _ => Raise (Exn AttributeError "object has no attribute 'get'")
  end.

(** [needle in v], for a string [needle]: a key of a dict, an element
    of a list, a substring of a string. *)
Definition contains (needle : string) (v : json) : result bool :=
  match v with
  | JObj fields => Ok (match assoc needle fields with Some _ => true | None => false end)
  | JArr items =>
      Ok (existsb (fun x => match x with
                            | JStr s => String.eqb s needle
                            | _ => false
                            end) items)
  | JStr s => Ok (PyStr.contains needle s)
  | _ => Raise (type_error "argument is not iterable")
  end.

(** [v[k]], for a string [k]. *)
Definition getitem (v : json) (k : string) : result json :=
  match v with
  | JObj fields =>
      match assoc k fields with
      | Some x => Ok x
      | None => Raise (Exn KeyError k)
      end
  | _ => Raise (type_error "indices must be integers or slices, not str")
  end.

(** [v[:n]], for [n] not negative: lists and strings can be sliced. *)
Definition upto (n : Z) (v : json) : result json :=
  match v with
  | JArr items => Ok (JArr (take (Z.to_nat n) items))
  | JStr s => Ok (JStr (PyStr.upto n s))
  | _ => Raise (type_error "object cannot be sliced")
  end.

(** [len(v)]. *)
Definition len (v : json) : result Z :=
  match v with
  | JArr items => Ok (Z.of_nat (length items))
  | JObj fields => Ok (Z.of_nat (length fields))
  | JStr s => Ok (Z.of_nat (String.length s))
  | _ => Raise (type_error "object has no len()")
  end.

End Py.

(** ** reddit_fetcher.py *)

(** What the forum client hands out: a submission, and the entries of a
    flattened comment forest. *)
Record submission : Set := Submission {
  s_id : string;
  s_title : string;
  s_author : option string;      (* [None] once the account is gone *)
  s_created_utc : Q;
  s_score : Z;
  s_num_comments : Z;
  s_selftext : string;
  s_url : string;
  s_permalink : string;
  s_is_self : bool
}.

Record forum_comment : Set := ForumComment {
  fc_id : string;
  fc_author : option string;
  fc_body : string;
  fc_score : Z;
  fc_created_utc : Q;
  fc_parent_id : string;
  fc_is_submitter : bool
}.

(** An entry of [submission.comments.list()]: a comment, or a "load more"
    placeholder, which has no [body] attribute. *)
Inductive thing : Set :=
| TComment (c : forum_comment)
| TMoreComments.

(** The dictionaries built by the fetcher. *)
Record comment : Set := Comment {
  c_id : string;
  c_author : string;
  c_body : string;
  c_score : Z;
  c_created_utc : Q;
  c_created_date : string;
  c_parent_id : string;
  c_is_submitter : bool
}.

Record post : Set := Post {
  p_id : string;
  p_title : string;
  p_author : string;
  p_created_utc : Q;
  p_created_date : string;
  p_score : Z;
  p_num_comments : Z;
  p_selftext : string;
  p_url : string;
  p_permalink : string;
  p_is_self : bool;
  p_comments : list comment
}.

Definition set_comments (p : post) (cs : list comment) : post :=
  Post (p_id p) (p_title p) (p_author p) (p_created_utc p) (p_created_date p)
       (p_score p) (p_num_comments p) (p_selftext p) (p_url p) (p_permalink p)
       (p_is_self p) cs.

Definition removed_sentinel : string := "[deleted]".

Module RedditFetcher.
Section Fetcher.

(** The calendar of the standard library: local date-times, with
    [dt - timedelta(days=d)], [dt.timestamp()] and
    [datetime.fromtimestamp(t).isoformat()]. *)
Variable Datetime : Type.
Variable minus_days : Datetime -> Z -> Datetime.
Variable timestamp : Datetime -> Q.
Variable isoformat : Q -> string.

(** The forum client: its state, the listing of new submissions
    ([subreddit.new(limit=None)], newest first) and the flattened
    comment forest of a submission
    ([reddit.submission(id).comments] after [replace_more(limit=0)]). *)
Variable Forum : Type.
Variable subreddit_new : Forum -> list submission * Forum.
Variable submission_comments : Forum -> string -> list thing * Forum.

Definition author_name (a : option string) : string :=
  match a with
  | Some name => name
  | None => removed_sentinel
  end.

Definition _extract_post_data (s : submission) : post :=
  {| p_id := s_id s;
     p_title := s_title s;
     p_author := author_name (s_author s);
     p_created_utc := s_created_utc s;
     p_created_date := isoformat (s_created_utc s);
     p_score := s_score s;
     p_num_comments := s_num_comments s;
     p_selftext := s_selftext s;
     p_url := s_url s;
     p_permalink := "https://reddit.com" +:+ s_permalink s;
     p_is_self := s_is_self s;
     p_comments := [] |}.

(** [(datetime.now() - timedelta(days=lookback_days)).timestamp()],
    with [now] the value of [datetime.now()]. *)
Definition cutoff_timestamp (now : Datetime) (lookback_days : Z) : Q :=
  timestamp (minus_days now lookback_days).

Definition Qltb (x y : Q) : bool := negb (Qle_bool y x).

(** [limit and len(posts) >= limit]. *)
Definition limit_reached (limit : option Z) (posts : list post) : bool :=
  match limit with
  | None => false
  | Some n => negb (n =? 0)%Z && (n <=? Z.of_nat (length posts))%Z
  end.

(** The [for submission in submission_generator] loop, [posts] being
    the list built so far. *)
Fixpoint fetch_posts_loop (cutoff : Q) (limit : option Z)
         (posts : list post) (stream : list submission) : list post :=
  match stream with
  | [] => posts
  | s :: rest =>
      if Qltb (s_created_utc s) cutoff then posts            (* break *)
      else if limit_reached limit posts then posts           (* break *)
      else fetch_posts_loop cutoff limit (posts ++ [_extract_post_data s]) rest
  end.

Definition fetch_posts_from (now : Datetime) (lookback_days : Z) (limit : option Z)
           (stream : list submission) : list post :=
  fetch_posts_loop (cutoff_timestamp now lookback_days) limit [] stream.

Definition fetch_posts (now : Datetime) (f : Forum) (lookback_days : Z)
           (limit : option Z) : list post * Forum :=
  let '(stream, f') := subreddit_new f in
  (fetch_posts_from now lookback_days limit stream, f').

Definition extract_comment (c : forum_comment) : comment :=
  {| c_id := fc_id c;
     c_author := author_name (fc_author c);
     c_body := fc_body c;
     c_score := fc_score c;
     c_created_utc := fc_created_utc c;
     c_created_date := isoformat (fc_created_utc c);
     c_parent_id := fc_parent_id c;
     c_is_submitter := fc_is_submitter c |}.

(** The [for comment in submission.comments.list()] loop. *)
Fixpoint collect_comments (max_comments_per_post : Z)
         (comments : list comment) (comment_count : Z)
         (things : list thing) : list comment :=
  match things with
  | [] => comments
  | t :: rest =>
      if (max_comments_per_post <=? comment_count)%Z then comments   (* break *)
      else
        match t with
        | TComment c =>
            if negb (String.eqb (fc_body c) removed_sentinel)
            then collect_comments max_comments_per_post
                   (comments ++ [extract_comment c]) (comment_count + 1) rest
            else collect_comments max_comments_per_post comments comment_count rest
        | TMoreComments =>
            collect_comments max_comments_per_post comments comment_count rest
        end
  end.

(** [fetch_comments]: every post of the list gets its [comments] field
    overwritten, in list order. *)
Fixpoint fetch_comments (f : Forum) (posts : list post)
         (max_comments_per_post : Z) : list post * Forum :=
  match posts with
  | [] => ([], f)
  | p :: rest =>
      let '(things, f1) := submission_comments f (p_id p) in
      let comments := collect_comments max_comments_per_post [] 0 things in
      let '(rest', f2) := fetch_comments f1 rest max_comments_per_post in
      (set_comments p comments :: rest', f2)
  end.

Definition fetch_all_content (now : Datetime) (f : Forum) (lookback_days : Z)
           (post_limit : option Z) (max_comments_per_post : Z)
  : list post * Forum :=
  let '(posts, f1) := fetch_posts now f lookback_days post_limit in
  match posts with
  | [] => (posts, f1)
  | _ :: _ => fetch_comments f1 posts max_comments_per_post
  end.

(** The longest prefix of the listing made of submissions that are not
    older than the cutoff: what the time window alone lets through. *)
Fixpoint within_window (cutoff : Q) (stream : list submission) : list submission :=
  match stream with
  | [] => []
  | s :: rest =>
      if Qltb (s_created_utc s) cutoff then [] else s :: within_window cutoff rest
  end.

(** The comment that an entry of the forest stands for, when the loop
    keeps it: a comment whose body is not the removed-sentinel. *)
Definition live_comment (t : thing) : option forum_comment :=
  match t with
  | TComment c => if String.eqb (fc_body c) removed_sentinel then None else Some c
  | TMoreComments => None
  end.

Definition live_comments (things : list thing) : list forum_comment :=
  omap live_comment things.

(** A post with its comments taken away. *)
Definition without_comments (p : post) : post := set_comments p [].

(** The listing is newest first: no submission is newer than one that
    comes before it. *)
Fixpoint newest_first (stream : list submission) : Prop :=
  match stream with
  | [] => True
  | s :: rest =>
      Forall (fun s' => (s_created_utc s' <= s_created_utc s)%Q) rest
      /\ newest_first rest
  end.

(** The submissions of the listing that are not older than the cutoff. *)
Definition in_window (cutoff : Q) (stream : list submission) : list submission :=
  List.filter (fun s => negb (Qltb (s_created_utc s) cutoff)) stream.

End Fetcher.

(** *** The fetcher when its collaborators raise

    The same methods, read with the exceptions that the calendar and
    the forum client can raise: [timedelta(days=d)], the subtraction and
    [timestamp()] raise [OverflowError] out of their range, and so does
    [fromtimestamp]; the listing can fail at any of its items, and so
    can the request for the comments of a submission.  The fetcher
    catches nothing: an exception leaves the method in which it is
    raised, and then [fetch_all_content]. *)
Section Faults.

Variable Datetime : Type.
Variable minus_days : Datetime -> Z -> result Datetime.
Variable timestamp : Datetime -> result Q.
Variable isoformat : Q -> result string.

(** The forum client.  An item of the listing is a submission, or the
    exception that the generator raises in its place. *)
Variable Forum : Type.
Variable subreddit_new : Forum -> list (result submission) * Forum.
Variable submission_comments : Forum -> string -> result (list thing) * Forum.

Definition try_extract_post_data (s : submission) : result post :=
  created_date <-! isoformat (s_created_utc s) ;;
  Ok {| p_id := s_id s;
        p_title := s_title s;
        p_author := author_name (s_author s);
        p_created_utc := s_created_utc s;
        p_created_date := created_date;
        p_score := s_score s;
        p_num_comments := s_num_comments s;
        p_selftext := s_selftext s;
        p_url := s_url s;
        p_permalink := "https://reddit.com" +:+ s_permalink s;
        p_is_self := s_is_self s;
        p_comments := [] |}.

Definition try_cutoff_timestamp (now : Datetime) (lookback_days : Z) : result Q :=
  start <-! minus_days now lookback_days ;;
  timestamp start.

(** The [for submission in submission_generator] loop. *)
Fixpoint try_fetch_posts_loop (cutoff : Q) (limit : option Z)
         (posts : list post) (stream : list (result submission))
  : result (list post) :=
  match stream with
  | [] => Ok posts
  | item :: rest =>
      s <-! item ;;
      if Qltb (s_created_utc s) cutoff then Ok posts            (* break *)
      else if limit_reached limit posts then Ok posts           (* break *)
      else
        p <-! try_extract_post_data s ;;
        try_fetch_posts_loop cutoff limit (posts ++ [p]) rest
  end.

Definition try_fetch_posts (now : Datetime) (f : Forum) (lookback_days : Z)
           (limit : option Z) : result (list post) * Forum :=
  match try_cutoff_timestamp now lookback_days with
  | Raise e => (Raise e, f)
  | Ok cutoff =>
      let '(stream, f') := subreddit_new f in
      (try_fetch_posts_loop cutoff limit [] stream, f')
  end.

Definition try_extract_comment (c : forum_comment) : result comment :=
  created_date <-! isoformat (fc_created_utc c) ;;
  Ok {| c_id := fc_id c;
        c_author := author_name (fc_author c);
        c_body := fc_body c;
        c_score := fc_score c;
        c_created_utc := fc_created_utc c;
        c_created_date := created_date;
        c_parent_id := fc_parent_id c;
        c_is_submitter := fc_is_submitter c |}.

(** The [for comment in submission.comments.list()] loop. *)
Fixpoint try_collect_comments (max_comments_per_post : Z)
         (comments : list comment) (comment_count : Z)
         (things : list thing) : result (list comment) :=
  match things with
  | [] => Ok comments
  | t :: rest =>
      if (max_comments_per_post <=? comment_count)%Z then Ok comments   (* break *)
      else
        match t with
        | TComment c =>
            if negb (String.eqb (fc_body c) removed_sentinel)
            then
              extracted <-! try_extract_comment c ;;
              try_collect_comments max_comments_per_post
                (comments ++ [extracted]) (comment_count + 1) rest
            else try_collect_comments max_comments_per_post comments comment_count rest
        | TMoreComments =>
            try_collect_comments max_comments_per_post comments comment_count rest
        end
  end.

Fixpoint try_fetch_comments (f : Forum) (posts : list post)
         (max_comments_per_post : Z) : result (list post) * Forum :=
  match posts with
  | [] => (Ok [], f)
  | p :: rest =>
      match submission_comments f (p_id p) with
      | (Raise e, f1) => (Raise e, f1)
      | (Ok things, f1) =>
          match try_collect_comments max_comments_per_post [] 0 things with
          | Raise e => (Raise e, f1)
          | Ok comments =>
              match try_fetch_comments f1 rest max_comments_per_post with
              | (Raise e, f2) => (Raise e, f2)
              | (Ok rest', f2) => (Ok (set_comments p comments :: rest'), f2)
              end
          end
      end
  end.

Definition try_fetch_all_content (now : Datetime) (f : Forum) (lookback_days : Z)
           (post_limit : option Z) (max_comments_per_post : Z)
  : result (list post) * Forum :=
  match try_fetch_posts now f lookback_days post_limit with
  | (Raise e, f1) => (Raise e, f1)
  | (Ok [], f1) => (Ok [], f1)
  | (Ok posts, f1) => try_fetch_comments f1 posts max_comments_per_post
  end.

End Faults.

(** Collaborators that never raise, as collaborators that can. *)
Definition never_raises {A B} (g : A -> B) : A -> result B := fun a => Ok (g a).

Definition listing_never_raises {Forum}
           (subreddit_new : Forum -> list submission * Forum)
  : Forum -> list (result submission) * Forum :=
  fun f => let '(stream, f') := subreddit_new f in (map Ok stream, f').

Definition comments_never_raise {Forum}
           (submission_comments : Forum -> string -> list thing * Forum)
  : Forum -> string -> result (list thing) * Forum :=
  fun f id => let '(things, f') := submission_comments f id in (Ok things, f').

End RedditFetcher.

(** ** openai_analyzer.py *)

Module OpenAIAnalyzer.

(** The arguments of [client.chat.completions.create]. *)
Record request : Set := Request {
  req_model : string;
  req_system : string;          (* content of the system message *)
  req_user : string;            (* content of the user message *)
  req_temperature : Q;
  req_json_object : bool        (* response_format = json_object *)
}.

(** The part of a completion that the analyzer reads:
    [response.choices[i].message.content]. *)
Record choice : Set := Choice { message_content : option string }.
Record response : Set := Response { choices : list choice }.

(** The text around [{content}] in the batch prompt. *)
Definition batch_prompt_head : string :=
"Analyze these Reddit posts from r/recruitinghell and identify the main recruitment problems people are complaining about.

For each problem identified, provide:
1. Problem title (short, descriptive)
2. Description (2-3 sentences)
3. Frequency (how often it appears)
4. Example quotes or situations

Focus on concrete, specific problems rather than general complaints.

Content to analyze:
".

Definition batch_prompt_tail : string :=
"

Return your analysis as a JSON array of problems.".

(** The text around [{problems}] in the summary prompt. *)
Definition summary_prompt_head : string :=
"Given this list of recruitment problems identified from Reddit posts, create a comprehensive summary.

Group similar problems together and rank them by frequency/severity.

Provide:
1. Top 10 most common recruitment problems (ranked)
2. Key themes and patterns
3. Specific examples for each problem
4. Brief recommendations for job seekers

Problems list:
".

Definition summary_prompt_tail : string :=
"

Format as a structured JSON response with clear categories.".

Definition batch_system : string :=
  "You are an expert at analyzing recruitment and hiring practices. Extract specific, actionable problems from Reddit posts.".

Definition summary_system : string :=
  "You are an expert at synthesizing and summarizing recruitment industry problems.".

Definition newline : string := String (ascii_of_nat 10) EmptyString.

(** The line added for one comment: [f"- {comment['body'][:200]}...\n"]. *)
Definition comment_line (c : comment) : string :=
  "- " +:+ PyStr.upto 200 (c_body c) +:+ "..." +:+ newline.

(** The comments quoted for a post: [post['comments'][:5]]. *)
Definition top_comments (p : post) : list comment := take 5 (p_comments p).

(** The body of the [for post in posts] loop: the text of one post. *)
Definition post_content (p : post) : string :=
  let post_content := "POST: " +:+ p_title p +:+ newline in
  let post_content :=
    if PyStr.truthy (p_selftext p)
    then post_content +:+ "BODY: " +:+ p_selftext p +:+ newline
    else post_content in
  match p_comments p with
  | [] => post_content
  | _ :: _ =>
      fold_left (fun acc c => acc +:+ comment_line c) (top_comments p)
                (post_content +:+ "TOP COMMENTS:" +:+ newline)
  end.

Definition separator : string := newline +:+ "---" +:+ newline.

(** The text of one post, written out: the title, the body when there
    is one, and the quoted comments when there are any. *)
Definition excerpt_of_post (p : post) : string :=
  ("POST: " +:+ p_title p +:+ newline)
  +:+ (if PyStr.truthy (p_selftext p)
       then "BODY: " +:+ p_selftext p +:+ newline
       else "")
  +:+ (match p_comments p with
       | [] => ""
       | _ :: _ => ("TOP COMMENTS:" +:+ newline)
                   +:+ PyStr.join "" (map comment_line (top_comments p))
       end).

Definition _prepare_content_for_analysis (posts : list post) : string :=
  PyStr.join separator (map post_content posts).

(** [content[:8000]], the text put in place of [{content}]. *)
Definition batch_excerpt (posts : list post) : string :=
  PyStr.upto 8000 (_prepare_content_for_analysis posts).

Definition batch_request (posts : list post) : request :=
  {| req_model := "gpt-4o-mini";
     req_system := batch_system;
     req_user := batch_prompt_head +:+ batch_excerpt posts +:+ batch_prompt_tail;
     req_temperature := 3 # 10;
     req_json_object := true |}.

(** [range(start, stop, step)], by counting: the fuel is the distance
    to cover, which is enough since each step covers at least one. *)
Fixpoint range_up (fuel : nat) (i stop step : Z) : list Z :=
  match fuel with
  | O => []
  | S fuel' =>
      if (i <? stop)%Z then i :: range_up fuel' (i + step) stop step else []
  end.

Fixpoint range_down (fuel : nat) (i stop step : Z) : list Z :=
  match fuel with
  | O => []
  | S fuel' =>
      if (stop <? i)%Z then i :: range_down fuel' (i + step) stop step else []
  end.

Definition py_range (start stop step : Z) : result (list Z) :=
  if (step =? 0)%Z then Raise (Exn ValueError "range() arg 3 must not be zero")
  else if (0 <? step)%Z
       then Ok (range_up (Z.to_nat (stop - start)) start stop step)
       else Ok (range_down (Z.to_nat (start - stop)) start stop step).

(** [l[lo:hi]] for indices that are not negative. *)
Definition slice {A} (l : list A) (lo hi : Z) : list A :=
  take (Z.to_nat hi - Z.to_nat lo) (drop (Z.to_nat lo) l).

Definition no_problems_report : json :=
  JObj [("error", JStr "No problems identified")].

Definition error_report (e : exn) : json :=
  JObj [("error", JStr (exn_str e))].

Section Analyzer.

(** The completion client: its state and its one operation. *)
Variable Client : Type.
Variable create : Client -> request -> result response * Client.

(** The JSON text codec: [json.loads], and [json.dumps(_, indent=2)]
    with the given [ensure_ascii]. *)
Variable json_loads : string -> result json.
Variable json_dumps : bool -> json -> string.

(** An analyzer at work: the client, and the requests sent so far. *)
Record session : Type := Session {
  client : Client;
  sent : list request
}.

Definition chat_create (s : session) (r : request) : result response * session :=
  let '(out, c) := create (client s) r in
  (out, {| client := c; sent := sent s ++ [r] |}).

(** [response.choices[0].message.content]. *)
Definition first_content (r : response) : result (option string) :=
  match choices r with
  | [] => Raise (Exn IndexError "list index out of range")
  | c :: _ => Ok (message_content c)
  end.

(** [json.loads] applied to a message content, which may be [None]. *)
Definition loads_content (c : option string) : result json :=
  match c with
  | None => Raise (Exn TypeError
              "the JSON object must be str, bytes or bytearray, not NoneType")
  | Some text => json_loads text
  end.

(** What the [try] block of [_analyze_batch] does with the outcome of
    the call: [json.loads(...)] and [result.get('problems', [])]. *)
Definition batch_problems (out : result response) : result json :=
  response <-! out ;;
  content <-! first_content response ;;
  result <-! loads_content content ;;
  Py.get result "problems" (JArr []).

Definition _analyze_batch (s : session) (posts : list post) : result json * session :=
  let '(out, s') := chat_create s (batch_request posts) in
  (try_except (batch_problems out) (fun e => Ok (JArr [])), s').

(** [if batch_analysis: all_problems.extend(batch_analysis)]. *)
Definition extend_if_truthy (all_problems : list json) (batch_analysis : json)
  : result (list json) :=
  if Py.truthy batch_analysis
  then items <-! Py.iter batch_analysis ;; Ok (all_problems ++ items)
  else Ok all_problems.

(** The loop [for i in range(0, len(posts), batch_size)], over the
    indices still to visit. *)
Fixpoint analyze_loop (s : session) (all_problems : list json)
         (posts : list post) (batch_size : Z) (indices : list Z)
  : result (list json) * session :=
  match indices with
  | [] => (Ok all_problems, s)
  | i :: rest =>
      let batch := slice posts i (i + batch_size) in
      match _analyze_batch s batch with
      | (Raise e, s1) => (Raise e, s1)
      | (Ok batch_analysis, s1) =>
          match extend_if_truthy all_problems batch_analysis with
          | Raise e => (Raise e, s1)
          | Ok all_problems' => analyze_loop s1 all_problems' posts batch_size rest
          end
      end
  end.

Definition summary_excerpt (all_problems : list json) : string :=
  PyStr.upto 10000 (json_dumps true (JArr all_problems)).

Definition summary_request (all_problems : list json) : request :=
  {| req_model := "gpt-4o-mini";
     req_system := summary_system;
     req_user := summary_prompt_head +:+ summary_excerpt all_problems
                   +:+ summary_prompt_tail;
     req_temperature := 3 # 10;
     req_json_object := true |}.

(** What the [try] block of [_summarize_problems] does with the outcome
    of the call. *)
Definition summary_of (out : result response) : result json :=
  response <-! out ;;
  content <-! first_content response ;;
  loads_content content.

Definition _summarize_problems (s : session) (all_problems : list json)
  : result json * session :=
  match all_problems with
  | [] => (Ok no_problems_report, s)
  | _ :: _ =>
      let '(out, s') := chat_create s (summary_request all_problems) in
      (try_except (summary_of out) (fun e => Ok (error_report e)), s')
  end.

Definition analyze_recruitment_problems (s : session) (posts : list post)
           (batch_size : Z) : result json * session :=
  match py_range 0 (Z.of_nat (length posts)) batch_size with
  | Raise e => (Raise e, s)
  | Ok indices =>
      match analyze_loop s [] posts batch_size indices with
      | (Raise e, s1) => (Raise e, s1)
      | (Ok all_problems, s1) => _summarize_problems s1 all_problems
      end
  end.

(** [generate_report]: the file at [output_file] is replaced by the
    text of [json.dump(analysis, f, indent=2, ensure_ascii=False)]. *)
Definition generate_report (fs : gmap string string) (analysis : json)
           (output_file : string) : gmap string string :=
  <[output_file := json_dumps false analysis]> fs.

(** *** Notions used to state the properties of the batch loop *)

(** The batches that the loop builds, in the order of the indices. *)
Definition batches_of (posts : list post) (batch_size : Z) (indices : list Z)
  : list (list post) :=
  map (fun i => slice posts i (i + batch_size)) indices.

(** The per-batch results: what [_analyze_batch] returns for each
    batch in turn, the session going from one call to the next. *)
Fixpoint batch_results (s : session) (batches : list (list post))
  : result (list json) * session :=
  match batches with
  | [] => (Ok [], s)
  | b :: rest =>
      match _analyze_batch s b with
      | (Raise e, s1) => (Raise e, s1)
      | (Ok r, s1) =>
          match batch_results s1 rest with
          | (Raise e, s2) => (Raise e, s2)
          | (Ok rs, s2) => (Ok (r :: rs), s2)
          end
      end
  end.

(** The session after a request, whatever its outcome. *)
Definition after_call (s : session) (r : request) : session :=
  snd (chat_create s r).

(** The completion call for a batch fails: the call raises, or it
    returns a message whose text [json.loads] rejects. *)
Definition call_raises (c : Client) (r : request) (c' : Client) : Prop :=
  exists e, create c r = (Raise e, c').

Definition response_unparsable (c : Client) (r : request) (c' : Client) : Prop :=
  exists resp text e,
    create c r = (Ok resp, c')
    /\ first_content resp = Ok (Some text)
    /\ json_loads text = Raise e.

End Analyzer.

(** The items that a per-batch result brings: those of a value that
    counts as true, by iteration; nothing for one that counts as
    false. *)
Definition contribution (r : json) : result (list json) :=
  if Py.truthy r then Py.iter r else Ok [].

(** Flattening of a sequence of per-batch results, in order. *)
Fixpoint flatten (results : list json) : result (list json) :=
  match results with
  | [] => Ok []
  | r :: rest =>
      items <-! contribution r ;;
      more <-! flatten rest ;;
      Ok (items ++ more)
  end.

(** Number of values of [range(i, stop, step)] for a positive step:
    the quotient of the distance by the step, rounded up. *)
Definition range_count (i stop step : Z) : nat :=
  Z.to_nat ((stop - i + step - 1) / step).

Definition is_array (v : json) : Prop :=
  match v with JArr _ => True | _ => False end.

(** A per-batch result on which [extend] raises: a value that counts as
    true and cannot be iterated (a number other than zero, [True]). *)
Definition breaks_extend (r : json) : Prop :=
  Py.truthy r = true
  /\ match r with
     | JArr _ | JObj _ | JStr _ => False
     | _ => True
     end.

(** What [post_content] reads of a post: the title, the body text, and
    the first 200 characters of each of the first five comment bodies. *)
Definition prompt_view (p : post) : string * string * list string :=
  (p_title p, p_selftext p, map (fun c => PyStr.upto 200 (c_body c)) (top_comments p)).

Definition array_items (v : json) : list json :=
  match v with JArr items => items | _ => [] end.

End OpenAIAnalyzer.

(** ** The json library *)

Module Json.

(** The text codec of the standard library, as [main] uses it:
    [json.dump(_, indent=2, ensure_ascii=_)] and [json.load].  A text is
    handled as the list of its characters.

    Limits of the model: a character is one [ascii] (code points above
    255 are out of reach, in a string and as a [\uXXXX] escape); integers
    have no bound on their number of digits; the nesting depth has no
    bound; the text of the message of a [JSONDecodeError] is a parameter;
    the text and the value of a float literal are parameters
    ([float.__repr__] and [float]). *)

Definition chars (s : string) : list ascii := list_ascii_of_string s.
Definition text (l : list ascii) : string := string_of_list_ascii l.

Definition quote : ascii := ascii_of_nat 34.
Definition backslash : ascii := ascii_of_nat 92.
Definition newline : ascii := ascii_of_nat 10.
Definition space : ascii := ascii_of_nat 32.

Definition code (c : ascii) : nat := nat_of_ascii c.

(** *** Writing *)

Definition hex_digit (n : nat) : ascii :=
  nth n (chars "0123456789abcdef") "0"%char.

(** ['\\u{0:04x}'.format(n)] for a code below 256. *)
Definition unicode_escape (c : ascii) : list ascii :=
  [backslash; "u"; "0"; "0"; hex_digit (code c / 16); hex_digit (code c mod 16)]%char.

(** The replacement of one character in a string literal: the quote,
    the backslash and the control characters are escaped; with
    [ensure_ascii], so is every character outside the range from the
    space to the tilde. *)
Definition escape_char (ensure_ascii : bool) (c : ascii) : list ascii :=
  if Ascii.eqb c quote then [backslash; quote]
  else if Ascii.eqb c backslash then [backslash; backslash]
  else if Ascii.eqb c newline then [backslash; "n"%char]
  else if Ascii.eqb c (ascii_of_nat 13) then [backslash; "r"%char]
  else if Ascii.eqb c (ascii_of_nat 9) then [backslash; "t"%char]
  else if Ascii.eqb c (ascii_of_nat 8) then [backslash; "b"%char]
  else if Ascii.eqb c (ascii_of_nat 12) then [backslash; "f"%char]
  else if Nat.ltb (code c) 32 then unicode_escape c
  else if ensure_ascii && Nat.ltb 126 (code c) then unicode_escape c
  else [c].

Definition escape (ensure_ascii : bool) (s : list ascii) : list ascii :=
  concat (map (escape_char ensure_ascii) s).

Definition dump_string (ensure_ascii : bool) (s : string) : list ascii :=
  quote :: escape ensure_ascii (chars s) ++ [quote].

(** The digits of a decimal number, most significant first. *)
Fixpoint digits (d : Decimal.uint) : list ascii :=
  match d with
  | Decimal.Nil => []
  | Decimal.D0 d => "0"%char :: digits d
  | Decimal.D1 d => "1"%char :: digits d
  | Decimal.D2 d => "2"%char :: digits d
  | Decimal.D3 d => "3"%char :: digits d
  | Decimal.D4 d => "4"%char :: digits d
  | Decimal.D5 d => "5"%char :: digits d
  | Decimal.D6 d => "6"%char :: digits d
  | Decimal.D7 d => "7"%char :: digits d
  | Decimal.D8 d => "8"%char :: digits d
  | Decimal.D9 d => "9"%char :: digits d
  end.

(** [int.__repr__]. *)
Definition dump_int (z : Z) : list ascii :=
  match Z.to_int z with
  | Decimal.Pos d => digits d
  | Decimal.Neg d => "-"%char :: digits d
  end.

(** [sep.join(parts)] on lists of characters. *)
Fixpoint join (sep : list ascii) (parts : list (list ascii)) : list ascii :=
  match parts with
  | [] => []
  | [p] => p
  | p :: rest => p ++ sep ++ join sep rest
  end.

(** The line break before an item at a nesting level, with [indent=2]. *)
Definition newline_indent (level : nat) : list ascii :=
  newline :: repeat space (2 * level).

Section Codec.

(** [float.__repr__] of a finite float, and [float] of a literal. *)
Variable float_repr : Q -> string.
Variable float_of_literal : string -> pyfloat.

(** The text of the message of a [JSONDecodeError], from the text that
    does not parse. *)
Variable describe : string -> string.

Definition dump_float (f : pyfloat) : list ascii :=
  match f with
  | FFinite q => chars (float_repr q)
  | FNan => chars "NaN"
  | FInf false => chars "Infinity"
  | FInf true => chars "-Infinity"
  end.

(** The encoder, at a nesting level: an empty list is [[]], an empty
    dict is [{}]; the items of the others are on lines of their own,
    separated by a comma, and a key is separated from its value by a
    colon and a space. *)
Fixpoint dump (ensure_ascii : bool) (level : nat) (v : json) : list ascii :=
  match v with
  | JNull => chars "null"
  | JBool true => chars "true"
  | JBool false => chars "false"
  | JInt z => dump_int z
  | JFloat f => dump_float f
  | JStr s => dump_string ensure_ascii s
  | JArr [] => chars "[]"
  | JArr items =>
      "["%char :: newline_indent (S level)
        ++ join (","%char :: newline_indent (S level))
                (map (dump ensure_ascii (S level)) items)
        ++ newline_indent level ++ ["]"%char]
  | JObj [] => chars "{}"
  | JObj fields =>
      "{"%char :: newline_indent (S level)
        ++ join (","%char :: newline_indent (S level))
                (map (fun kv => dump_string ensure_ascii (fst kv)
                                  ++ chars ": "
                                  ++ dump ensure_ascii (S level) (snd kv))
                     fields)
        ++ newline_indent level ++ ["}"%char]
  end.

(** [json.dumps(v, indent=2, ensure_ascii=b)]. *)
Definition dumps (ensure_ascii : bool) (v : json) : string :=
  text (dump ensure_ascii 0 v).

(** *** Reading *)

(** The characters that the decoder skips between tokens. *)
Definition is_space (c : ascii) : bool :=
  Ascii.eqb c space || Ascii.eqb c (ascii_of_nat 9) || Ascii.eqb c newline
  || Ascii.eqb c (ascii_of_nat 13).

Fixpoint skip_spaces (s : list ascii) : list ascii :=
  match s with
  | c :: rest => if is_space c then skip_spaces rest else s
  | [] => []
  end.

(** [strip p s]: what follows [p] in [s], when [s] starts with [p]. *)
Fixpoint strip (p s : list ascii) : option (list ascii) :=
  match p, s with
  | [], _ => Some s
  | a :: p', b :: s' => if Ascii.eqb a b then strip p' s' else None
  | _ :: _, [] => None
  end.

Definition hex_value (c : ascii) : option nat :=
  let n := code c in
  if Nat.leb 48 n && Nat.leb n 57 then Some (n - 48)
  else if Nat.leb 97 n && Nat.leb n 102 then Some (n - 87)
  else if Nat.leb 65 n && Nat.leb n 70 then Some (n - 55)
  else None.

(** The character that follows a backslash, [u] apart. *)
Definition unescape (c : ascii) : option ascii :=
  if Ascii.eqb c quote then Some quote
  else if Ascii.eqb c backslash then Some backslash
  else if Ascii.eqb c "/" then Some "/"%char
  else if Ascii.eqb c "b" then Some (ascii_of_nat 8)
  else if Ascii.eqb c "f" then Some (ascii_of_nat 12)
  else if Ascii.eqb c "n" then Some newline
  else if Ascii.eqb c "r" then Some (ascii_of_nat 13)
  else if Ascii.eqb c "t" then Some (ascii_of_nat 9)
  else None.

Definition push (c : ascii) (r : option (list ascii * list ascii))
  : option (list ascii * list ascii) :=
  match r with
  | Some (body, after) => Some (c :: body, after)
  | None => None
  end.

(** The body of a string literal, after its opening quote, and what
    follows the closing quote.  A control character that is not escaped
    is an error; [\u] takes four hexadecimal digits. *)
Fixpoint scan_string (s : list ascii) : option (list ascii * list ascii) :=
  match s with
  | [] => None
  | c :: rest =>
      if Ascii.eqb c quote then Some ([], rest)
      else if Ascii.eqb c backslash then
        match rest with
        | [] => None
        | e :: rest1 =>
            if Ascii.eqb e "u" then
              match rest1 with
              | h1 :: h2 :: h3 :: h4 :: rest2 =>
                  match hex_value h1, hex_value h2, hex_value h3, hex_value h4 with
                  | Some 0, Some 0, Some high, Some low =>
                      push (ascii_of_nat (16 * high + low)) (scan_string rest2)
                  | _, _, _, _ => None
                  end
              | _ => None
              end
            else
              match unescape e with
              | Some c' => push c' (scan_string rest1)
              | None => None
              end
        end
      else if Nat.ltb (code c) 32 then None
      else push c (scan_string rest)
  end.

Definition is_digit (c : ascii) : bool :=
  Nat.leb 48 (code c) && Nat.leb (code c) 57.

(** The longest run of digits at the start of a text. *)
Fixpoint span_digits (s : list ascii) : list ascii * list ascii :=
  match s with
  | c :: rest =>
      if is_digit c
      then let '(ds, after) := span_digits rest in (c :: ds, after)
      else ([], s)
  | [] => ([], [])
  end.

(** The integer part of a number: [0], or a run of digits that does not
    start with [0]. *)
Definition lex_integer (s : list ascii) : option (list ascii * list ascii) :=
  match s with
  | c :: rest =>
      if Ascii.eqb c "0" then Some ([c], rest)
      else if is_digit c then Some (span_digits s)
      else None
  | [] => None
  end.

(** The fraction: a point and at least one digit. *)
Definition lex_fraction (s : list ascii) : list ascii * list ascii :=
  match s with
  | p :: d :: rest =>
      if Ascii.eqb p "." && is_digit d
      then let '(ds, after) := span_digits (d :: rest) in (p :: ds, after)
      else ([], s)
  | _ => ([], s)
  end.

Definition is_sign (c : ascii) : bool := Ascii.eqb c "+" || Ascii.eqb c "-".

(** The exponent: [e] or [E], a sign or none, and at least one digit. *)
Definition lex_exponent (s : list ascii) : list ascii * list ascii :=
  match s with
  | e :: rest =>
      if Ascii.eqb e "e" || Ascii.eqb e "E" then
        match rest with
        | c :: rest1 =>
            if is_sign c then
              match rest1 with
              | d :: _ =>
                  if is_digit d
                  then let '(ds, after) := span_digits rest1 in (e :: c :: ds, after)
                  else ([], s)
              | [] => ([], s)
              end
            else if is_digit c
                 then let '(ds, after) := span_digits rest in (e :: ds, after)
                 else ([], s)
        | [] => ([], s)
        end
      else ([], s)
  | [] => ([], s)
  end.

(** A number token: the integer part with its sign, the fraction, the
    exponent, and what follows. *)
Definition lex_number (s : list ascii)
  : option (list ascii * list ascii * list ascii * list ascii) :=
  let '(sign, s1) :=
    match s with
    | c :: rest => if Ascii.eqb c "-" then ([c], rest) else ([], s)
    | [] => ([], s)
    end in
  match lex_integer s1 with
  | None => None
  | Some (integer, s2) =>
      let '(fraction, s3) := lex_fraction s2 in
      let '(exponent, s4) := lex_exponent s3 in
      Some (sign ++ integer, fraction, exponent, s4)
  end.

(** The decimal number that a run of digits writes. *)
Fixpoint uint_of_digits (ds : list ascii) : Decimal.uint :=
  match ds with
  | [] => Decimal.Nil
  | c :: rest =>
      let d := uint_of_digits rest in
      match code c - 48 with
      | 0 => Decimal.D0 d
      | 1 => Decimal.D1 d
      | 2 => Decimal.D2 d
      | 3 => Decimal.D3 d
      | 4 => Decimal.D4 d
      | 5 => Decimal.D5 d
      | 6 => Decimal.D6 d
      | 7 => Decimal.D7 d
      | 8 => Decimal.D8 d
      | _ => Decimal.D9 d
      end
  end.

(** [int] of the integer part of a number token. *)
Definition int_of_literal (integer : list ascii) : Z :=
  match integer with
  | c :: ds =>
      if Ascii.eqb c "-" then Z.of_int (Decimal.Neg (uint_of_digits ds))
      else Z.of_int (Decimal.Pos (uint_of_digits integer))
  | [] => 0
  end.

(** A number, or one of the three names of the floats that are not
    numbers. *)
Definition scan_number (s : list ascii) : option (json * list ascii) :=
  match lex_number s with
  | Some (integer, [], [], after) => Some (JInt (int_of_literal integer), after)
  | Some (integer, fraction, exponent, after) =>
      Some (JFloat (float_of_literal (text (integer ++ fraction ++ exponent))), after)
  | None =>
      match strip (chars "NaN") s, strip (chars "Infinity") s,
            strip (chars "-Infinity") s with
      | Some after, _, _ => Some (JFloat FNan, after)
      | _, Some after, _ => Some (JFloat (FInf false), after)
      | _, _, Some after => Some (JFloat (FInf true), after)
      | _, _, _ => None
      end
  end.

Definition scan_word (s : list ascii) : option (json * list ascii) :=
  match strip (chars "null") s, strip (chars "true") s, strip (chars "false") s with
  | Some after, _, _ => Some (JNull, after)
  | _, Some after, _ => Some (JBool true, after)
  | _, _, Some after => Some (JBool false, after)
  | _, _, _ => scan_number s
  end.

(** [dict(pairs)]: a key that comes again keeps its place and takes the
    later value. *)
Fixpoint update (key : string) (v : json) (fields : list (string * json))
  : list (string * json) :=
  match fields with
  | [] => [(key, v)]
  | (k, w) :: rest =>
      if String.eqb k key then (k, v) :: rest else (k, w) :: update key v rest
  end.

Definition dict_of_pairs (pairs : list (string * json)) : list (string * json) :=
  fold_left (fun fields kv => update (fst kv) (snd kv) fields) pairs [].

(** The decoder at a value.  The fuel bounds the number of nested
    calls. *)
Fixpoint parse (fuel : nat) (s : list ascii) : option (json * list ascii) :=
  match fuel with
  | O => None
  | S fuel' =>
      match s with
      | [] => None
      | c :: rest =>
          if Ascii.eqb c quote then
            match scan_string rest with
            | Some (body, after) => Some (JStr (text body), after)
            | None => None
            end
          else if Ascii.eqb c "{" then
            match skip_spaces rest with
            | [] => None
            | c1 :: rest1 =>
                if Ascii.eqb c1 "}" then Some (JObj [], rest1)
                else
                  match parse_fields fuel' (c1 :: rest1) with
                  | Some (pairs, after) => Some (JObj (dict_of_pairs pairs), after)
                  | None => None
                  end
            end
          else if Ascii.eqb c "[" then
            match skip_spaces rest with
            | [] => None
            | c1 :: rest1 =>
                if Ascii.eqb c1 "]" then Some (JArr [], rest1)
                else
                  match parse_items fuel' (c1 :: rest1) with
                  | Some (items, after) => Some (JArr items, after)
                  | None => None
                  end
            end
          else scan_word s
      end
  end
with parse_items (fuel : nat) (s : list ascii) : option (list json * list ascii) :=
  match fuel with
  | O => None
  | S fuel' =>
      match parse fuel' s with
      | None => None
      | Some (v, after) =>
          match skip_spaces after with
          | [] => None
          | c :: rest =>
              if Ascii.eqb c "]" then Some ([v], rest)
              else if Ascii.eqb c "," then
                match parse_items fuel' (skip_spaces rest) with
                | Some (vs, after') => Some (v :: vs, after')
                | None => None
                end
              else None
          end
      end
  end
with parse_fields (fuel : nat) (s : list ascii)
  : option (list (string * json) * list ascii) :=
  match fuel with
  | O => None
  | S fuel' =>
      match s with
      | [] => None
      | c :: rest =>
          if Ascii.eqb c quote then
            match scan_string rest with
            | None => None
            | Some (key, s1) =>
                match skip_spaces s1 with
                | [] => None
                | c1 :: s2 =>
                    if Ascii.eqb c1 ":" then
                      match parse fuel' (skip_spaces s2) with
                      | None => None
                      | Some (v, after) =>
                          match skip_spaces after with
                          | [] => None
                          | c2 :: rest2 =>
                              if Ascii.eqb c2 "}" then Some ([(text key, v)], rest2)
                              else if Ascii.eqb c2 "," then
                                match parse_fields fuel' (skip_spaces rest2) with
                                | Some (kvs, after') =>
                                    Some ((text key, v) :: kvs, after')
                                | None => None
                                end
                              else None
                          end
                      end
                    else None
                end
            end
          else None
      end
  end.

(** The value that a text holds: a value, between spaces, and nothing
    else.  The decoder gets the length of the text, and one, as fuel. *)
Definition decode (s : string) : option json :=
  match parse (S (String.length s)) (skip_spaces (chars s)) with
  | Some (v, after) =>
      match skip_spaces after with
      | [] => Some v
      | _ :: _ => None
      end
  | None => None
  end.

(** [json.loads(s)]. *)
Definition loads (s : string) : result json :=
  match decode s with
  | Some v => Ok v
  | None => Raise (Exn JSONDecodeError (describe s))
  end.

(** *** Values that come from Python objects *)

(** [float(repr(x))] is [x], and [repr(x)] is a number token with a
    fraction or an exponent. *)
Definition float_literal (t : string) : bool :=
  match lex_number (chars t) with
  | Some (_, [], [], _) => false
  | Some (_, _, _, []) => true
  | _ => false
  end.

Definition float_reads_back (q : Q) : Prop :=
  float_literal (float_repr q) = true
  /\ float_of_literal (float_repr q) = FFinite q.

(** A value as the encoder gets it from Python objects: the keys of a
    dict are distinct, and a finite float reads back. *)
Fixpoint native (v : json) : Prop :=
  match v with
  | JFloat (FFinite q) => float_reads_back q
  | JArr items => fold_right (fun x P => native x /\ P) True items
  | JObj fields =>
      NoDup (map fst fields)
      /\ fold_right (fun kv P => native (snd kv) /\ P) True fields
  | _ => True
  end.

End Codec.

(** *** Notions used to state that a value reads back *)

(** A text that does not go on as a number: it is empty, or it starts
    with a character that no number holds. *)
Definition number_char (c : ascii) : bool :=
  is_digit c || Ascii.eqb c "." || Ascii.eqb c "e" || Ascii.eqb c "E"
  || Ascii.eqb c "+" || Ascii.eqb c "-".

Definition closed (rest : list ascii) : Prop :=
  match rest with
  | [] => True
  | c :: _ => number_char c = false
  end.

(** The number of nested calls that the decoder makes for a value. *)
Fixpoint size (v : json) : nat :=
  match v with
  | JArr items => S (list_sum (map (fun x => S (size x)) items))
  | JObj fields => S (list_sum (map (fun kv => S (size (snd kv))) fields))
  | _ => 1
  end.

End Json.

(** ** main.py *)

Module Main.

(** How a stage of [main] ends: it goes on with a value, or the
    process exits with a code. *)
Inductive outcome (A : Type) : Type :=
| Continue (a : A)
| Exit (code : Z).
Arguments Continue {A} a.
Arguments Exit {A} code.

(** The dictionaries of the fetcher as [json.dump] sees them: the keys
    in the order in which the fetcher writes them. *)
Definition json_of_comment (c : comment) : json :=
  JObj [("id", JStr (c_id c));
        ("author", JStr (c_author c));
        ("body", JStr (c_body c));
        ("score", JInt (c_score c));
        ("created_utc", JFloat (FFinite (c_created_utc c)));
        ("created_date", JStr (c_created_date c));
        ("parent_id", JStr (c_parent_id c));
        ("is_submitter", JBool (c_is_submitter c))].

Definition json_of_post (p : post) : json :=
  JObj [("id", JStr (p_id p));
        ("title", JStr (p_title p));
        ("author", JStr (p_author p));
        ("created_utc", JFloat (FFinite (p_created_utc p)));
        ("created_date", JStr (p_created_date p));
        ("score", JInt (p_score p));
        ("num_comments", JInt (p_num_comments p));
        ("selftext", JStr (p_selftext p));
        ("url", JStr (p_url p));
        ("permalink", JStr (p_permalink p));
        ("is_self", JBool (p_is_self p));
        ("comments", JArr (map json_of_comment (p_comments p)))].

Definition json_of_posts (posts : list post) : json :=
  JArr (map json_of_post posts).

(** What a reader of loaded data sees of a post: [post['id']] and
    [len(post['comments'])]. *)
Definition loaded_id (p : json) : result json := Py.getitem p "id".

Definition loaded_comment_count (p : json) : result Z :=
  cs <-! Py.getitem p "comments" ;; Py.len cs.

(** The loop that prints the first five entries of the report. *)
Fixpoint display_problems (problems : list json) : result unit :=
  match problems with
  | [] => Ok tt
  | problem :: rest =>
      _ <-! Py.get problem "title" (JStr "Unknown") ;;
      description <-! Py.get problem "description" (JStr "") ;;
      _ <-! Py.upto 150 description ;;
      display_problems rest
  end.

(** [if "top_problems" in analysis: for ... in analysis["top_problems"][:5]]. *)
Definition display_top_findings (analysis : json) : result unit :=
  present <-! Py.contains "top_problems" analysis ;;
  if (present : bool) then
    top <-! Py.getitem analysis "top_problems" ;;
    first_five <-! Py.upto 5 top ;;
    problems <-! Py.iter first_five ;;
    display_problems problems
  else Ok tt.

(** [validate_environment], with the environment ([os.getenv]) as a
    finite map and the printed lines as a result. *)
Definition required_vars : list string :=
  ["REDDIT_CLIENT_ID"; "REDDIT_CLIENT_SECRET"; "OPENAI_API_KEY"].

(** [not os.getenv(var)]: the variable is unset, or set to the empty
    string. *)
Definition not_set (env : gmap string string) (var : string) : bool :=
  match env !! var with
  | None => true
  | Some value => negb (PyStr.truthy value)
  end.

(** The loop [for var in required_vars]. *)
Fixpoint missing_loop (env : gmap string string) (vars missing_vars : list string)
  : list string :=
  match vars with
  | [] => missing_vars
  | var :: rest =>
      if not_set env var
      then missing_loop env rest (missing_vars ++ [var])
      else missing_loop env rest missing_vars
  end.

Definition validate_environment (env : gmap string string)
  : list string * outcome unit :=
  match missing_loop env required_vars [] with
  | [] => ([], Continue tt)
  | missing_vars =>
      ("Error: Missing required environment variables:"
         :: map (fun var => "  - " +:+ var) missing_vars
         ++ [OpenAIAnalyzer.newline
               +:+ "Please copy .env.example to .env and fill in your API credentials."],
       Exit 1)
  end.

(** An entry of [top_problems] that the display loop can show: a dict
    whose [description], when present, can be sliced. *)
Definition showable (problem : json) : Prop :=
  match problem with
  | JObj fields =>
      match Py.assoc "description" fields with
      | None | Some (JStr _) | Some (JArr _) => True
      | Some _ => False
      end
  | _ => False
  end.

(** A report that [display_top_findings] goes through without raising. *)
Definition displayable (analysis : json) : Prop :=
  match analysis with
  | JObj fields =>
      match Py.assoc "top_problems" fields with
      | None => True
      | Some (JArr items) => Forall showable (take 5 items)
      | Some (JStr s) => s = ""
      | Some _ => False
      end
  | JArr items =>
      Forall (fun x => x <> JStr "top_problems") items
  | JStr s => PyStr.contains "top_problems" s = false
  | _ => False
  end.

(** A value that has a length: a list, a dict or a string. *)
Definition sized (v : json) : Prop :=
  match v with
  | JArr _ | JObj _ | JStr _ => True
  | _ => False
  end.

(** The creation times of the posts and of their comments are floats
    that [float(repr(t))] reads back, as every finite float is. *)
Definition timestamps_read_back (float_repr : Q -> string)
           (float_of_literal : string -> pyfloat) (posts : list post) : Prop :=
  Forall (fun p =>
            Json.float_reads_back float_repr float_of_literal (p_created_utc p)
            /\ Forall (fun c => Json.float_reads_back float_repr float_of_literal
                                  (c_created_utc c))
                      (p_comments p))
         posts.

Section Main.

(** The calendar and the forum client, which can raise. *)
Variable Datetime : Type.
Variable minus_days : Datetime -> Z -> result Datetime.
Variable timestamp : Datetime -> result Q.
Variable isoformat : Q -> result string.
Variable Forum : Type.
Variable subreddit_new : Forum -> list (result submission) * Forum.
Variable submission_comments : Forum -> string -> result (list thing) * Forum.
Variable Client : Type.
Variable create :
  Client -> OpenAIAnalyzer.request -> result OpenAIAnalyzer.response * Client.
Variable json_loads : string -> result json.
Variable json_dumps : bool -> json -> string.

(** [datetime.now().strftime("%Y-%m-%d_%H-%M")]. *)
Variable strftime_minute : Datetime -> string.

Definition raw_filename (now : Datetime) : string :=
  "reddit_data_" +:+ strftime_minute now +:+ ".json".

(** The load path (lines 64-75): a missing file or text that is not
    JSON ends the process with code 1; so does any other exception,
    which is not caught. *)
Definition load_posts (fs : gmap string string) (load_from_file : string)
  : outcome json :=
  match fs !! load_from_file with
  | None => Exit 1
  | Some text =>
      match (posts <-! json_loads text ;; _ <-! Py.len posts ;; Ok posts) with
      | Ok posts => Continue posts
      | Raise _ => Exit 1
      end
  end.

(** The load path followed by the test [if not posts: exit(0)]
    (lines 100-102). *)
Definition load_stage (fs : gmap string string) (load_from_file : string)
  : outcome json :=
  match load_posts fs load_from_file with
  | Exit code => Exit code
  | Continue posts => if Py.truthy posts then Continue posts else Exit 0
  end.

(** The raw-save path (lines 93-98): [if save_raw and posts]. *)
Definition save_raw_data (fs : gmap string string) (now : Datetime) (save_raw : bool)
           (posts : list post) : gmap string string :=
  match save_raw, posts with
  | true, _ :: _ => <[raw_filename now := json_dumps false (json_of_posts posts)]> fs
  | _, _ => fs
  end.

(** Step 2 (lines 117-140): analyse, write the report, show the first
    findings; any exception ends the process with code 1. *)
Definition analyze_and_report (s : OpenAIAnalyzer.session Client)
           (fs : gmap string string) (posts : list post) (output : string)
  : outcome unit * OpenAIAnalyzer.session Client * gmap string string :=
  match OpenAIAnalyzer.analyze_recruitment_problems
          Client create json_loads json_dumps s posts 10 with
  | (Raise _, s1) => (Exit 1, s1, fs)
  | (Ok analysis, s1) =>
      let output_json := output +:+ ".json" in
      let fs1 := OpenAIAnalyzer.generate_report json_dumps fs analysis output_json in
      match display_top_findings analysis with
      | Raise _ => (Exit 1, s1, fs1)
      | Ok _ => (Continue tt, s1, fs1)
      end
  end.

(** [main] when no file is given.  The environment is checked first
    (line 61): a missing credential ends the process with code 1.  The
    fetch is in a [try] block (lines 81-90): any exception that leaves
    [fetch_all_content] ends the process with code 1, before anything is
    written.  Then the raw data are saved if asked (lines 93-98), the
    process stops with code 0 when nothing was fetched (lines 100-102),
    and the posts are analysed (lines 117-140).  The clock is read at
    [now] by the fetcher and at [later] by the raw-save path.  The
    statistics printed at lines 104-115 change no state; they read the
    posts just built and convert two of the timestamps that the fetcher
    converted. *)
Definition main_fetch (env : gmap string string) (now later : Datetime) (f : Forum)
           (s : OpenAIAnalyzer.session Client) (fs : gmap string string)
           (lookback : Z) (post_limit : option Z) (comments_per_post : Z)
           (save_raw : bool) (output : string)
  : outcome unit * OpenAIAnalyzer.session Client * gmap string string :=
  match snd (validate_environment env) with
  | Exit code => (Exit code, s, fs)
  | Continue _ =>
      match fst (RedditFetcher.try_fetch_all_content Datetime minus_days timestamp
                   isoformat Forum subreddit_new submission_comments now f
                   lookback post_limit comments_per_post) with
      | Raise _ => (Exit 1, s, fs)
      | Ok posts =>
          let fs1 := save_raw_data fs later save_raw posts in
          match posts with
          | [] => (Exit 0, s, fs1)
          | _ :: _ => analyze_and_report s fs1 posts output
          end
      end
  end.

End Main.
End Main.

(** ** Concrete collaborators and data, used in the examples *)

Module Sample.

(** A calendar in which a date-time is its own timestamp and a day has
    86400 seconds. *)
Definition minus_days (now : Q) (days : Z) : Q := (now - inject_Z (86400 * days))%Q.
Definition timestamp (now : Q) : Q := now.
Definition isoformat (t : Q) : string := "2023-11-14T22:13:20".

Definition sub (id : string) (created : Z) : submission :=
  {| s_id := id; s_title := "Ghosted after five rounds"; s_author := Some "jobseeker";
     s_created_utc := inject_Z created; s_score := 12; s_num_comments := 3;
     s_selftext := "No reply for a month."; s_url := "https://reddit.com/r/x";
     s_permalink := "/r/recruitinghell/comments/" +:+ id; s_is_self := true |}.

Definition forum_reply (id body : string) : forum_comment :=
  {| fc_id := id; fc_author := None; fc_body := body; fc_score := 1;
     fc_created_utc := inject_Z 1700000100; fc_parent_id := "t3_a1";
     fc_is_submitter := false |}.

(** A forum with two recent submissions and one old one; every
    submission has the same four entries in its comment forest. *)
Definition listing : list submission :=
  [sub "a1" 1700000000; sub "a2" 1699990000; sub "a3" 1600000000].

Definition forest : list thing :=
  [TComment (forum_reply "c1" "Same here.");
   TComment (forum_reply "c2" "[deleted]");
   TMoreComments;
   TComment (forum_reply "c3" "Name and shame.")].

Definition subreddit_new (f : unit) : list submission * unit := (listing, f).
Definition submission_comments (f : unit) (id : string) : list thing * unit :=
  (forest, f).

Definition now : Q := inject_Z 1700001000.

(** A completion client that plays a script: each call returns the
    next outcome of the script, and raises once the script is over. *)
Definition connection_error : exn := Exn APIError "Connection error.".

Definition scripted_create (script : list (result OpenAIAnalyzer.response))
           (r : OpenAIAnalyzer.request)
  : result OpenAIAnalyzer.response * list (result OpenAIAnalyzer.response) :=
  match script with
  | [] => (Raise connection_error, [])
  | out :: rest => (out, rest)
  end.

Definition reply (text : string) : result OpenAIAnalyzer.response :=
  Ok {| OpenAIAnalyzer.choices :=
          [ {| OpenAIAnalyzer.message_content := Some text |} ] |}.

(** A small JSON text codec, enough for the examples: compact output,
    integers, finite floats with denominator one (written with a
    trailing [.0]), strings in which the quote and the backslash are
    escaped.  Both directions ignore [ensure_ascii] and [indent]. *)
Definition quote : ascii := ascii_of_nat 34.
Definition backslash : ascii := ascii_of_nat 92.

Fixpoint escape (s : string) : string :=
  match s with
  | EmptyString => EmptyString
  | String c rest =>
      if Ascii.eqb c quote || Ascii.eqb c backslash
      then String backslash (String c (escape rest))
      else String c (escape rest)
  end.

Definition dump_string (s : string) : string :=
  String quote (escape s +:+ String quote EmptyString).

Definition dump_int (z : Z) : string := NilZero.string_of_int (Z.to_int z).

Definition dump_float (f : pyfloat) : string :=
  match f with
  | FFinite q => if (Qden q =? 1)%positive then dump_int (Qnum q) +:+ ".0" else "NaN"
  | FNan => "NaN"
  | FInf false => "Infinity"
  | FInf true => "-Infinity"
  end.

Fixpoint dump (v : json) : string :=
  match v with
  | JNull => "null"
  | JBool true => "true"
  | JBool false => "false"
  | JInt z => dump_int z
  | JFloat f => dump_float f
  | JStr s => dump_string s
  | JArr items => "[" +:+ PyStr.join "," (map dump items) +:+ "]"
  | JObj fields =>
      "{" +:+ PyStr.join ","
                (map (fun kv => dump_string (fst kv) +:+ ":" +:+ dump (snd kv)) fields)
          +:+ "}"
  end.

Definition dumps (ensure_ascii : bool) (v : json) : string := dump v.

(** [strip p s]: what follows [p] in [s], when [s] starts with [p]. *)
Fixpoint strip (p s : string) : option string :=
  match p, s with
  | EmptyString, _ => Some s
  | String a p', String b s' => if Ascii.eqb a b then strip p' s' else None
  | String _ _, EmptyString => None
  end.

(** The text of a string literal after its opening quote. *)
Fixpoint scan_string (s : string) : option (string * string) :=
  match s with
  | EmptyString => None
  | String c rest =>
      if Ascii.eqb c quote then Some (EmptyString, rest)
      else if Ascii.eqb c backslash then
        match rest with
        | EmptyString => None
        | String d rest' =>
            match scan_string rest' with
            | Some (body, after) => Some (String d body, after)
            | None => None
            end
        end
      else
        match scan_string rest with
        | Some (body, after) => Some (String c body, after)
        | None => None
        end
  end.

Definition is_digit (c : ascii) : bool :=
  let n := nat_of_ascii c in (Nat.leb 48 n && Nat.leb n 57) || Nat.eqb n 45.

Fixpoint scan_digits (s : string) : string * string :=
  match s with
  | EmptyString => (EmptyString, EmptyString)
  | String c rest =>
      if is_digit c
      then let '(ds, after) := scan_digits rest in (String c ds, after)
      else (EmptyString, s)
  end.

Definition scan_number (s : string) : option (json * string) :=
  let '(ds, after) := scan_digits s in
  match NilZero.int_of_string ds with
  | None => None
  | Some i =>
      match strip ".0" after with
      | Some after' => Some (JFloat (FFinite (inject_Z (Z.of_int i))), after')
      | None => Some (JInt (Z.of_int i), after)
      end
  end.

Definition scan_word (s : string) : option (json * string) :=
  match strip "null" s, strip "true" s, strip "false" s, strip "NaN" s with
  | Some r, _, _, _ => Some (JNull, r)
  | _, Some r, _, _ => Some (JBool true, r)
  | _, _, Some r, _ => Some (JBool false, r)
  | _, _, _, Some r => Some (JFloat FNan, r)
  | _, _, _, _ => scan_number s
  end.

Fixpoint parse (fuel : nat) (s : string) : option (json * string) :=
  match fuel with
  | O => None
  | S fuel' =>
      match s with
      | String c rest =>
          if Ascii.eqb c quote then
            match scan_string rest with
            | Some (body, after) => Some (JStr body, after)
            | None => None
            end
          else if Ascii.eqb c "[" then
            match strip "]" rest with
            | Some after => Some (JArr [], after)
            | None =>
                match parse_items fuel' rest with
                | Some (items, after) => Some (JArr items, after)
                | None => None
                end
            end
          else if Ascii.eqb c "{" then
            match strip "}" rest with
            | Some after => Some (JObj [], after)
            | None =>
                match parse_fields fuel' rest with
                | Some (fields, after) => Some (JObj fields, after)
                | None => None
                end
            end
          else scan_word s
      | EmptyString => None
      end
  end
with parse_items (fuel : nat) (s : string) : option (list json * string) :=
  match fuel with
  | O => None
  | S fuel' =>
      match parse fuel' s with
      | Some (v, String c after) =>
          if Ascii.eqb c "," then
            match parse_items fuel' after with
            | Some (vs, after') => Some (v :: vs, after')
            | None => None
            end
          else if Ascii.eqb c "]" then Some ([v], after)
          else None
      | _ => None
      end
  end
with parse_fields (fuel : nat) (s : string) : option (list (string * json) * string) :=
  match fuel with
  | O => None
  | S fuel' =>
      match strip (String quote EmptyString) s with
      | None => None
      | Some s1 =>
          match scan_string s1 with
          | None => None
          | Some (key, s2) =>
              match strip ":" s2 with
              | None => None
              | Some s3 =>
                  match parse fuel' s3 with
                  | Some (v, String c after) =>
                      if Ascii.eqb c "," then
                        match parse_fields fuel' after with
                        | Some (kvs, after') => Some ((key, v) :: kvs, after')
                        | None => None
                        end
                      else if Ascii.eqb c "}" then Some ([(key, v)], after)
                      else None
                  | _ => None
                  end
              end
          end
      end
  end.

Definition loads (text : string) : result json :=
  match parse (S (String.length text)) text with
  | Some (v, EmptyString) => Ok v
  | _ => Raise (Exn JSONDecodeError "Expecting value")
  end.

Definition strftime_minute (t : Q) : string := "2023-11-14_22-30".

(** The text of a float that is a whole number, as the creation times
    of the forum are: its digits and [.0]; and the float of such a
    text. *)
Definition float_repr (q : Q) : string :=
  Json.text (Json.dump_int (Qnum q) ++ Json.chars ".0").

Definition float_of_literal (t : string) : pyfloat :=
  match Json.lex_number (Json.chars t) with
  | Some (integer, fraction, [], []) =>
      if String.eqb (Json.text fraction) ".0"
      then FFinite (inject_Z (Json.int_of_literal integer))
      else FNan
  | _ => FNan
  end.

Definition describe (t : string) : string := "Expecting value".

(** Two posts as the fetcher returns them for the sample forum. *)
Definition posts : list post :=
  fst (RedditFetcher.fetch_all_content Q minus_days timestamp isoformat unit
         subreddit_new submission_comments now tt 30 None 50).


(** A session that starts with the given script and nothing sent. *)
Definition session_of (script : list (result OpenAIAnalyzer.response))
  : OpenAIAnalyzer.session (list (result OpenAIAnalyzer.response)) :=
  {| OpenAIAnalyzer.client := script; OpenAIAnalyzer.sent := [] |}.

(** The script used for a batch whose reply is not JSON, followed by a
    reply that is. *)
Definition unparsable_script : list (result OpenAIAnalyzer.response) :=
  [reply "not json"; reply "{}"].

(** The first batch of the sample posts when the batch size is 1. *)
Definition first_post_batch : list post := OpenAIAnalyzer.slice posts 0 (0 + 1).

(** A reply whose text is an object with the given value under
    [problems]. *)
Definition problems_reply (problems : json) : result OpenAIAnalyzer.response :=
  reply (dump (JObj [("problems", problems)])).

(** Twelve posts: two batches of the size that [main] uses. *)
Definition twelve_posts : list post := concat (replicate 6 posts).

(** Replies for two batches and the summary: text that is not JSON,
    then one problem, then a report. *)
Definition recovering_script : list (result OpenAIAnalyzer.response) :=
  [reply "not json";
   problems_reply (JArr [JStr "ghosting"]);
   reply (dump (JObj [("top_problems", JArr [])]))].

(** Replies for two batches: text that is not JSON, then a number under
    [problems]. *)
Definition scalar_script : list (result OpenAIAnalyzer.response) :=
  [reply "not json"; problems_reply (JInt 5)].

Definition output_prefix : string := "recruitment_problems_report".

(** The sample posts as another fetch could have returned them: other
    authors and scores, a sixth comment. *)
Definition extra_comment : comment :=
  {| c_id := "c9"; c_author := "latecomer"; c_body := "Late to the thread.";
     c_score := 0; c_created_utc := inject_Z 1700000900;
     c_created_date := "2023-11-14T22:28:20"; c_parent_id := "t3_a1";
     c_is_submitter := true |}.

Definition crowded (p : post) : post :=
  set_comments p (p_comments p ++ p_comments p ++ p_comments p ++ [extra_comment]).

Definition rescored (p : post) : post :=
  {| p_id := p_id p; p_title := p_title p; p_author := "[deleted]";
     p_created_utc := p_created_utc p; p_created_date := p_created_date p;
     p_score := p_score p + 100; p_num_comments := p_num_comments p;
     p_selftext := p_selftext p; p_url := p_url p; p_permalink := p_permalink p;
     p_is_self := p_is_self p;
     p_comments := take 5 (p_comments p) |}.

(** A completion service that is down: every call raises. *)
Definition down_create (c : unit) (r : OpenAIAnalyzer.request)
  : result OpenAIAnalyzer.response * unit :=
  (Raise connection_error, c).

(** A post whose body text has 9000 characters. *)
Fixpoint filler (n : nat) : string :=
  match n with
  | O => EmptyString
  | S k => String "x" (filler k)
  end.

Definition long_post : post :=
  {| p_id := "b1"; p_title := "My whole story"; p_author := "jobseeker";
     p_created_utc := inject_Z 1700000000; p_created_date := "2023-11-14T22:13:20";
     p_score := 1; p_num_comments := 0; p_selftext := filler (Z.to_nat 9000);
     p_url := "https://reddit.com/r/x"; p_permalink := "https://reddit.com/b1";
     p_is_self := true; p_comments := [] |}.

(** An environment with the three credentials, and one in which a
    credential is missing and another is empty. *)
Definition env_ready : gmap string string :=
  <["REDDIT_CLIENT_ID" := "id"]>
    (<["REDDIT_CLIENT_SECRET" := "secret"]> (<["OPENAI_API_KEY" := "sk"]> ∅)).

Definition env_lacking : gmap string string :=
  <["REDDIT_CLIENT_ID" := "id"]> (<["OPENAI_API_KEY" := ""]> ∅).

(** [now - timedelta(days=d)] with its range: [timedelta] takes at most
    999999999 days, and the date must not be before the year 1. *)
Definition minus_days_checked (now : Q) (days : Z) : result Q :=
  if (999999999 <? Z.abs days)%Z
  then Raise (Exn OverflowError
                ("days=" +:+ dump_int days +:+ "; must have magnitude <= 999999999"))
  else if Qle_bool (inject_Z (-62135596800)) (minus_days now days)
       then Ok (minus_days now days)
       else Raise (Exn OverflowError "date value out of range").

(** The sample forum, which never raises, and one whose listing fails
    at its second item. *)
Definition listing_checked : unit -> list (result submission) * unit :=
  RedditFetcher.listing_never_raises subreddit_new.

Definition comments_checked : unit -> string -> result (list thing) * unit :=
  RedditFetcher.comments_never_raise submission_comments.

Definition listing_interrupted (f : unit) : list (result submission) * unit :=
  ([Ok (sub "a1" 1700000000); Raise (Exn APIError "received 401 HTTP response")], f).

End Sample.

(** * Properties *)

(** ** Strings *)

Lemma str_length_take n s : String.length (PyStr.take n s) = Nat.min n (String.length s).
Proof.
  revert s; induction n as [|k IH]; intros [|c rest]; simpl; auto.
Qed.

Lemma length_upto n s : (0 <= n)%Z -> (Z.of_nat (String.length (PyStr.upto n s)) <= n)%Z.
Proof. intros Hn. unfold PyStr.upto. rewrite str_length_take. lia. Qed.

Lemma length_upto_exact n s :
  (0 <= n)%Z ->
  Z.of_nat (String.length (PyStr.upto n s)) = Z.min n (Z.of_nat (String.length s)).
Proof. intros Hn. unfold PyStr.upto. rewrite str_length_take. lia. Qed.

Lemma take_is_prefix n s : String.prefix (PyStr.take n s) s = true.
Proof.
  revert s; induction n as [|k IH]; intros [|c rest]; simpl; auto.
  rewrite IH. destruct (ascii_dec c c); congruence.
Qed.

Lemma str_app_cons (x : ascii) (a b : string) :
  String x a +:+ b = String x (a +:+ b).
Proof. reflexivity. Qed.

Lemma str_app_nil_l (a : string) : "" +:+ a = a.
Proof. reflexivity. Qed.

Lemma str_app_assoc (a b c : string) : (a +:+ b) +:+ c = a +:+ (b +:+ c).
Proof.
  induction a as [|x a IH]; [reflexivity|].
  now rewrite !str_app_cons, IH.
Qed.

Lemma str_app_nil_r (a : string) : a +:+ "" = a.
Proof.
  induction a as [|x a IH]; [reflexivity|].
  now rewrite str_app_cons, IH.
Qed.

Lemma upto_is_prefix n s : String.prefix (PyStr.upto n s) s = true.
Proof. apply take_is_prefix. Qed.

(** ** reddit_fetcher.py *)

Section FetcherFacts.

Variable Datetime : Type.
Variable minus_days : Datetime -> Z -> Datetime.
Variable timestamp : Datetime -> Q.
Variable isoformat : Q -> string.
Variable Forum : Type.
Variable subreddit_new : Forum -> list submission * Forum.
Variable submission_comments : Forum -> string -> list thing * Forum.

Abbreviation extract := (RedditFetcher._extract_post_data isoformat).
Abbreviation fetch_posts_loop := (RedditFetcher.fetch_posts_loop isoformat).
Abbreviation cutoff_timestamp :=
  (RedditFetcher.cutoff_timestamp Datetime minus_days timestamp).
Abbreviation fetch_posts_from :=
  (RedditFetcher.fetch_posts_from Datetime minus_days timestamp isoformat).
Abbreviation fetch_posts :=
  (RedditFetcher.fetch_posts Datetime minus_days timestamp isoformat Forum subreddit_new).
Abbreviation collect_comments := (RedditFetcher.collect_comments isoformat).
Abbreviation fetch_comments :=
  (RedditFetcher.fetch_comments isoformat Forum submission_comments).

Lemma Qltb_false x y : RedditFetcher.Qltb x y = false -> (y <= x)%Q.
Proof.
  unfold RedditFetcher.Qltb. intros H. apply negb_false_iff in H.
  now apply Qle_bool_iff.
Qed.

Lemma Qltb_true x y : RedditFetcher.Qltb x y = true -> (x < y)%Q.
Proof.
  unfold RedditFetcher.Qltb. intros H. apply negb_true_iff in H.
  apply Qnot_le_lt. intros Hle. apply Qle_bool_iff in Hle. congruence.
Qed.

(** The loop only appends submissions that passed the cutoff test. *)
Lemma fetch_posts_loop_window cutoff limit stream : forall posts,
  Forall (fun p => (cutoff <= p_created_utc p)%Q) posts ->
  Forall (fun p => (cutoff <= p_created_utc p)%Q)
         (fetch_posts_loop cutoff limit posts stream).
Proof.
  induction stream as [|s rest IH]; intros posts Hposts; simpl; [assumption|].
  destruct (RedditFetcher.Qltb (s_created_utc s) cutoff) eqn:Hold; [assumption|].
  destruct (RedditFetcher.limit_reached limit posts); [assumption|].
  apply IH. apply Forall_app. split; [assumption|].
  constructor; [|constructor]. simpl. now apply Qltb_false.
Qed.

(** The loop adds at most one post per submission read and stops as
    soon as a positive limit is reached. *)
Lemma fetch_posts_loop_limit cutoff n stream : forall posts,
  (0 < n)%Z -> (Z.of_nat (length posts) <= n)%Z ->
  (Z.of_nat (length (fetch_posts_loop cutoff (Some n) posts stream)) <= n)%Z.
Proof.
  induction stream as [|s rest IH]; intros posts Hn Hlen; simpl; [assumption|].
  destruct (RedditFetcher.Qltb (s_created_utc s) cutoff); [assumption|].
  destruct (negb (n =? 0)%Z && (n <=? Z.of_nat (length posts))%Z) eqn:Hhit;
    [assumption|].
  apply IH; [assumption|].
  rewrite length_app. simpl.
  apply andb_false_iff in Hhit. destruct Hhit as [H0|Hlt].
  - apply negb_false_iff, Z.eqb_eq in H0. lia.
  - apply Z.leb_gt in Hlt. lia.
Qed.

Lemma fetch_posts_limit_positive now lookback_days n stream :
  (0 < n)%Z ->
  (Z.of_nat (length (fetch_posts_from now lookback_days (Some n) stream)) <= n)%Z.
Proof.
  intros Hn. unfold RedditFetcher.fetch_posts_from.
  apply fetch_posts_loop_limit; simpl; lia.
Qed.

(** With no limit in force the loop returns what it had, followed by
    the submissions inside the window. *)
Lemma fetch_posts_loop_unlimited cutoff limit stream : forall posts,
  (forall ps, RedditFetcher.limit_reached limit ps = false) ->
  fetch_posts_loop cutoff limit posts stream
  = posts ++ map extract (RedditFetcher.within_window cutoff stream).
Proof.
  intros posts Hlim. revert posts.
  induction stream as [|s rest IH]; intros posts; simpl.
  - now rewrite app_nil_r.
  - destruct (RedditFetcher.Qltb (s_created_utc s) cutoff).
    + now rewrite app_nil_r.
    + rewrite Hlim, IH. simpl. now rewrite <- app_assoc.
Qed.

(** On a listing that is newest first, stopping at the first old
    submission loses nothing: the prefix inside the window is all of the
    listing that is inside the window. *)
Lemma within_window_newest_first cutoff stream :
  RedditFetcher.newest_first stream ->
  RedditFetcher.within_window cutoff stream = RedditFetcher.in_window cutoff stream.
Proof.
  unfold RedditFetcher.in_window.
  induction stream as [|s rest IH]; intros Hsorted; simpl; [reflexivity|].
  destruct Hsorted as [Hrest Hsorted].
  destruct (RedditFetcher.Qltb (s_created_utc s) cutoff) eqn:Hold; simpl.
  - apply Qltb_true in Hold. clear IH Hsorted.
    induction Hrest as [|s' rest' Hle _ IH]; simpl; [reflexivity|].
    destruct (RedditFetcher.Qltb (s_created_utc s') cutoff) eqn:Hold'; simpl;
      [exact IH|].
    apply Qltb_false in Hold'. exfalso.
    apply (Qlt_irrefl cutoff).
    eapply Qle_lt_trans; [exact Hold'|]. eapply Qle_lt_trans; eassumption.
  - f_equal. now apply IH.
Qed.

Lemma fetch_posts_unlimited_complete now lookback_days stream :
  RedditFetcher.newest_first stream ->
  fetch_posts_from now lookback_days None stream
  = map extract
      (RedditFetcher.in_window
         (cutoff_timestamp now lookback_days) stream).
Proof.
  intros Hsorted. unfold RedditFetcher.fetch_posts_from.
  rewrite fetch_posts_loop_unlimited by reflexivity.
  now rewrite within_window_newest_first.
Qed.

(** C3. For every lookback window, every post returned by
    [fetch_posts] was created at or after the cutoff [now - W days]:
    no older post is in the result.  The test that guards the append
    is enough; the order of the listing is not needed. *)
Theorem fetch_posts_within_lookback_window
        (now : Datetime) (f : Forum) (lookback_days : Z) (limit : option Z) :
  Forall (fun p =>
            (cutoff_timestamp now lookback_days <= p_created_utc p)%Q)
         (fst (fetch_posts now f lookback_days limit)).
Proof.
  unfold RedditFetcher.fetch_posts.
  destruct (subreddit_new f) as [stream f']. simpl.
  unfold RedditFetcher.fetch_posts_from.
  apply fetch_posts_loop_window. constructor.
Qed.

(** C10. A limit of 0 is not enforced: [fetch_posts] returns exactly
    what it returns with no limit, namely every submission of the
    listing up to the first one older than the cutoff; that result can
    be non-empty. *)
Theorem fetch_posts_limit_zero_is_no_limit :
  (forall (now : Datetime) (f : Forum) (lookback_days : Z),
      fetch_posts now f lookback_days (Some 0%Z)
      = fetch_posts now f lookback_days None
      /\ fst (fetch_posts now f lookback_days (Some 0%Z))
         = map extract
             (RedditFetcher.within_window
                (cutoff_timestamp now lookback_days)
                (fst (subreddit_new f))))
  /\ (forall (now : Datetime) (lookback_days : Z),
       exists stream : list submission,
         fetch_posts_from now lookback_days (Some 0%Z) stream <> []).
Proof.
  split.
  - intros now f lookback_days. unfold RedditFetcher.fetch_posts.
    destruct (subreddit_new f) as [stream f']. simpl.
    unfold RedditFetcher.fetch_posts_from.
    rewrite !fetch_posts_loop_unlimited by reflexivity. auto.
  - intros now lookback_days.
    exists [Submission "a1" "Ghosted" None (cutoff_timestamp now lookback_days)
              1 0 "" "" "" true].
    unfold RedditFetcher.fetch_posts_from. simpl.
    destruct (RedditFetcher.Qltb _ _) eqn:Hold; [|discriminate].
    apply Qltb_true in Hold. now apply Qlt_irrefl in Hold.
Qed.

(** The comment loop keeps the count equal to the number of comments
    kept, never goes past the cap, and never keeps a removed body. *)
Lemma collect_comments_capped cap things : forall comments count,
  (0 <= cap)%Z ->
  count = Z.of_nat (length comments) ->
  (count <= cap)%Z ->
  Forall (fun c => c_body c <> removed_sentinel) comments ->
  (Z.of_nat (length (collect_comments cap comments count things)) <= cap)%Z
  /\ Forall (fun c => c_body c <> removed_sentinel)
            (collect_comments cap comments count things).
Proof.
  induction things as [|t rest IH]; intros comments count Hcap Hcount Hle Hbody;
    simpl.
  - split; [lia|assumption].
  - destruct (cap <=? count)%Z eqn:Hfull.
    + split; [lia|assumption].
    + apply Z.leb_gt in Hfull.
      destruct t as [c|]; [|now apply IH].
      destruct (String.eqb (fc_body c) removed_sentinel) eqn:Hrem; simpl;
        [now apply IH|].
      apply IH; try assumption.
      * rewrite length_app. simpl. lia.
      * lia.
      * apply Forall_app. split; [assumption|].
        constructor; [|constructor]. simpl.
        now apply String.eqb_neq.
Qed.

(** A cap that is zero or negative stops the loop at once. *)
Lemma collect_comments_no_room cap things :
  (cap <= 0)%Z -> collect_comments cap [] 0 things = [].
Proof.
  intros Hcap. destruct things as [|t rest]; simpl; [reflexivity|].
  destruct (cap <=? 0)%Z eqn:Hfull; [reflexivity|].
  apply Z.leb_gt in Hfull. lia.
Qed.

(** C5. For every per-post cap C (a count, so not negative) and every
    post returned by [fetch_comments], the attached comments number at
    most C and none of them has the removed-sentinel as its body. *)
Theorem fetch_comments_capped_and_clean
        (f : Forum) (posts : list post) (max_comments_per_post : Z) :
  (0 <= max_comments_per_post)%Z ->
  Forall (fun p =>
            (Z.of_nat (length (p_comments p)) <= max_comments_per_post)%Z
            /\ Forall (fun c => c_body c <> removed_sentinel) (p_comments p))
         (fst (fetch_comments f posts max_comments_per_post)).
Proof.
  intros Hcap. revert f.
  induction posts as [|p rest IH]; intros f; simpl; [constructor|].
  destruct (submission_comments f (p_id p)) as [things f1].
  specialize (IH f1).
  destruct (fetch_comments f1 rest max_comments_per_post) as [rest' f2].
  simpl in *. constructor; [|assumption].
  simpl. apply collect_comments_capped; auto; simpl; lia.
Qed.

End FetcherFacts.

(** C5 at a cap of 2, on the sample forum. *)
Lemma fetch_comments_capped_and_clean_witness :
  (0 <= 2)%Z /\
  Forall (fun p =>
            (Z.of_nat (length (p_comments p)) <= 2)%Z
            /\ Forall (fun c => c_body c <> removed_sentinel) (p_comments p))
         (fst (RedditFetcher.fetch_comments Sample.isoformat unit
                 Sample.submission_comments tt
                 (RedditFetcher.fetch_posts_from Q Sample.minus_days Sample.timestamp
                    Sample.isoformat Sample.now 30 None
                    Sample.listing) 2)).
Proof.
  split; [lia|].
  apply (fetch_comments_capped_and_clean Sample.isoformat unit
           Sample.submission_comments tt _ 2).
  lia.
Defined.

(** C4. With a limit of 0 and two submissions inside the window,
    [fetch_posts] returns both: the result is longer than the limit. *)
Theorem fetch_posts_limit_zero_exceeds_limit :
  RedditFetcher.fetch_posts_from Q Sample.minus_days Sample.timestamp
                    Sample.isoformat Sample.now 30 (Some 0%Z)
    Sample.listing
  = map (RedditFetcher._extract_post_data Sample.isoformat)
        [Sample.sub "a1" 1700000000; Sample.sub "a2" 1699990000]
  /\ (0 < Z.of_nat (length (RedditFetcher.fetch_posts_from Q Sample.minus_days
                              Sample.timestamp Sample.isoformat
                              Sample.now 30 (Some 0%Z) Sample.listing)))%Z.
Proof. split; [reflexivity|]. vm_compute. reflexivity. Qed.

(** ** openai_analyzer.py: batching *)

Section Batching.

Import OpenAIAnalyzer.

Lemma range_count_done i stop step :
  (0 < step)%Z -> (stop <= i)%Z -> range_count i stop step = 0.
Proof.
  intros Hstep Hdone. unfold range_count.
  assert ((stop - i + step - 1) / step < 1)%Z; [|lia].
  apply Z.div_lt_upper_bound; lia.
Qed.

Lemma range_count_next i stop step :
  (0 < step)%Z -> (i < stop)%Z ->
  range_count i stop step = S (range_count (i + step) stop step).
Proof.
  intros Hstep Hlt. unfold range_count.
  replace (stop - i + step - 1)%Z with (stop - (i + step) + step - 1 + 1 * step)%Z
    by lia.
  rewrite Z.div_add by lia.
  assert (0 <= (stop - (i + step) + step - 1) / step)%Z; [|lia].
  apply Z.div_pos; lia.
Qed.

(** The fuel given by [py_range] is enough: the list has every
    multiple of the step below [stop]. *)
Lemma range_up_multiples fuel : forall i stop step,
  (0 < step)%Z -> (stop - i <= Z.of_nat fuel)%Z ->
  range_up fuel i stop step
  = map (fun k => (i + step * Z.of_nat k)%Z) (seq 0 (range_count i stop step)).
Proof.
  induction fuel as [|fuel IH]; intros i stop step Hstep Hfuel; simpl.
  - rewrite range_count_done by lia. reflexivity.
  - destruct (i <? stop)%Z eqn:Hlt.
    + apply Z.ltb_lt in Hlt.
      rewrite (range_count_next i) by assumption.
      rewrite IH by lia. simpl. f_equal; [lia|].
      rewrite <- seq_shift, map_map.
      apply map_ext. intros k. lia.
    + apply Z.ltb_ge in Hlt. rewrite range_count_done by lia. reflexivity.
Qed.

Lemma py_range_from_zero (len step : Z) :
  (0 < step)%Z ->
  py_range 0 len step
  = Ok (map (fun k => (step * Z.of_nat k)%Z) (seq 0 (range_count 0 len step))).
Proof.
  intros Hstep. unfold py_range.
  destruct (step =? 0)%Z eqn:H0; [apply Z.eqb_eq in H0; lia|].
  destruct (0 <? step)%Z eqn:Hpos; [|apply Z.ltb_ge in Hpos; lia].
  rewrite range_up_multiples by lia. reflexivity.
Qed.

(** A negative batch size gives no index, hence no batch; a batch size
    of zero is refused by [range]. *)
Lemma py_range_negative_step (len : nat) (step : Z) :
  (step < 0)%Z -> py_range 0 (Z.of_nat len) step = Ok [].
Proof.
  intros Hstep. unfold py_range.
  destruct (step =? 0)%Z eqn:H0; [apply Z.eqb_eq in H0; lia|].
  destruct (0 <? step)%Z eqn:Hpos; [apply Z.ltb_lt in Hpos; lia|].
  destruct (Z.to_nat (0 - Z.of_nat len)) as [|fuel]; simpl; [reflexivity|].
  destruct (Z.of_nat len <? 0)%Z eqn:Hneg; [apply Z.ltb_lt in Hneg; lia|reflexivity].
Qed.

Lemma py_range_zero_step (start stop : Z) :
  exists e, py_range start stop 0 = Raise e /\ exn_kind e = ValueError.
Proof. eexists. split; reflexivity. Qed.

(** The batch at a multiple of the batch size: a chunk of the list. *)
Lemma slice_chunk {A} (l : list A) (b k : nat) :
  slice l (Z.of_nat b * Z.of_nat k) (Z.of_nat b * Z.of_nat k + Z.of_nat b)
  = take b (drop (b * k) l).
Proof.
  unfold slice. f_equal; [lia|f_equal; lia].
Qed.

Lemma concat_chunks {A} (l : list A) (b n : nat) :
  concat (map (fun k => take b (drop (b * k) l)) (seq 0 n)) = take (b * n) l.
Proof.
  induction n as [|n IH].
  - simpl. now rewrite Nat.mul_0_r.
  - rewrite seq_S, map_app, concat_app, IH. simpl.
    rewrite app_nil_r, take_take_drop. f_equal. lia.
Qed.

Lemma length_chunk {A} (l : list A) (b k : nat) :
  length (take b (drop (b * k) l)) = Nat.min b (length l - b * k).
Proof. now rewrite length_take, length_drop. Qed.

Lemma range_count_ceil (len step : nat) :
  0 < step ->
  range_count 0 (Z.of_nat len) (Z.of_nat step) = (len + step - 1) / step.
Proof.
  intros Hstep. unfold range_count.
  replace (Z.of_nat len - 0 + Z.of_nat step - 1)%Z
    with (Z.of_nat (len + step - 1)) by lia.
  rewrite <- Nat2Z.inj_div. apply Nat2Z.id.
Qed.

End Batching.

(** ** openai_analyzer.py: the batch loop *)

Section AnalyzerFacts.

Import OpenAIAnalyzer.

Variable Client : Type.
Variable create : Client -> request -> result response * Client.
Variable json_loads : string -> result json.
Variable json_dumps : bool -> json -> string.

Abbreviation session := (OpenAIAnalyzer.session Client).
Abbreviation chat_create := (OpenAIAnalyzer.chat_create Client create).
Abbreviation batch_problems := (OpenAIAnalyzer.batch_problems json_loads).
Abbreviation _analyze_batch := (OpenAIAnalyzer._analyze_batch Client create json_loads).
Abbreviation analyze_loop := (OpenAIAnalyzer.analyze_loop Client create json_loads).
Abbreviation batch_results := (OpenAIAnalyzer.batch_results Client create json_loads).
Abbreviation _summarize_problems :=
  (OpenAIAnalyzer._summarize_problems Client create json_loads json_dumps).
Abbreviation analyze_recruitment_problems :=
  (OpenAIAnalyzer.analyze_recruitment_problems Client create json_loads json_dumps).

(** No exception escapes [_analyze_batch], and exactly one request is
    sent. *)
Lemma analyze_batch_returns (s : session) (posts : list post) :
  exists v, _analyze_batch s posts = (Ok v, after_call Client create s (batch_request posts)).
Proof.
  unfold OpenAIAnalyzer._analyze_batch, OpenAIAnalyzer.after_call.
  destruct (chat_create s (batch_request posts)) as [out s']. simpl.
  destruct (batch_problems out) as [v|e]; simpl; eauto.
Qed.

Lemma batch_results_returns (batches : list (list post)) : forall s,
  exists results s',
    batch_results s batches = (Ok results, s')
    /\ length results = length batches.
Proof.
  induction batches as [|b rest IH]; intros s; simpl; [eauto|].
  destruct (analyze_batch_returns s b) as [v Hv]. rewrite Hv.
  destruct (IH (after_call Client create s (batch_request b))) as (rs & s' & Hrs & Hlen).
  rewrite Hrs. exists (v :: rs), s'. simpl. auto.
Qed.

(** The loop adds to the accumulator the flattening of the per-batch
    results, in the order of the batches. *)
Lemma analyze_loop_flatten (posts : list post) (batch_size : Z) (indices : list Z) :
  forall s acc results s',
    batch_results s (batches_of posts batch_size indices) = (Ok results, s') ->
    fst (analyze_loop s acc posts batch_size indices)
    = (more <-! flatten results ;; Ok (acc ++ more))
    /\ (forall more, flatten results = Ok more ->
          analyze_loop s acc posts batch_size indices = (Ok (acc ++ more), s')).
Proof.
  induction indices as [|i rest IH]; intros s acc results s' Hres; simpl in *.
  - injection Hres as <- <-. simpl. rewrite app_nil_r. split; [reflexivity|].
    intros more [= <-]. now rewrite app_nil_r.
  - destruct (_analyze_batch s (slice posts i (i + batch_size))) as [[r|e] s1];
      [|discriminate].
    destruct (batch_results s1 (batches_of posts batch_size rest))
      as [[rs|e] s2] eqn:Hrest; [|discriminate].
    injection Hres as <- <-.
    destruct (IH s1 acc rs s2 Hrest) as [IHfst IHall].
    simpl. unfold extend_if_truthy, contribution.
    destruct (Py.truthy r); simpl.
    + destruct (Py.iter r) as [items|e]; simpl.
      * destruct (IH s1 (acc ++ items) rs s2 Hrest) as [IHfst' IHall'].
        rewrite IHfst'. split.
        -- destruct (flatten rs); simpl; [now rewrite app_assoc|reflexivity].
        -- intros more Hmore. destruct (flatten rs) as [more'|]; simpl in Hmore;
             [|discriminate].
           injection Hmore as <-. rewrite (IHall' more') by reflexivity.
           now rewrite app_assoc.
      * split; [reflexivity|]. intros more Hmore. discriminate.
    + rewrite IHfst. split; [destruct (flatten rs); reflexivity|].
      intros more Hmore. destruct (flatten rs) as [more'|]; simpl in Hmore;
        [|discriminate].
      injection Hmore as <-. now apply IHall.
Qed.

Lemma flatten_arrays (results : list json) :
  Forall is_array results ->
  flatten results = Ok (concat (map array_items results)).
Proof.
  induction 1 as [|r rest Hr _ IH]; simpl; [reflexivity|].
  destruct r as [| | | | |items|]; simpl in Hr; try contradiction.
  rewrite IH. unfold contribution. destruct items; reflexivity.
Qed.

(** The indices of the loop and its batches, for a positive batch
    size: consecutive chunks of the list. *)
Lemma batches_are_chunks (posts : list post) (b : nat) :
  0 < b ->
  exists indices,
    py_range 0 (Z.of_nat (length posts)) (Z.of_nat b) = Ok indices
    /\ batches_of posts (Z.of_nat b) indices
       = map (fun k => take b (drop (b * k) posts))
             (seq 0 ((length posts + b - 1) / b)).
Proof.
  intros Hb. eexists. split.
  - apply py_range_from_zero. lia.
  - unfold batches_of. rewrite map_map, range_count_ceil by assumption.
    apply map_ext. intros k. apply slice_chunk.
Qed.

(** C2. With a batch size of 10, the loop of
    [analyze_recruitment_problems] cuts the posts into consecutive
    chunks: there are ceil(P/10) batches, every batch but the last has
    10 posts, the last has P mod 10 posts (10 when that is 0), the
    batches put end to end give the posts back, and the accumulated
    problem list is the flattening of the per-batch results in batch
    order (their concatenation, when the results are lists). *)
Theorem batches_partition_posts (s : session) (posts : list post) :
  exists indices,
    py_range 0 (Z.of_nat (length posts)) 10 = Ok indices
    /\ let batches := batches_of posts 10 indices in
       length batches = (length posts + 9) / 10
       /\ length posts <= 10 * length batches < length posts + 10
       /\ (forall k b, batches !! k = Some b -> S k < length batches ->
                       length b = 10)
       /\ (forall b, last batches = Some b ->
                     length b = if Nat.eqb (length posts mod 10) 0 then 10
                                else length posts mod 10)
       /\ concat batches = posts
       /\ analyze_recruitment_problems s posts 10
          = match analyze_loop s [] posts 10 indices with
            | (Ok all_problems, s1) => _summarize_problems s1 all_problems
            | (Raise e, s1) => (Raise e, s1)
            end
       /\ exists results s',
            batch_results s batches = (Ok results, s')
            /\ length results = length batches
            /\ fst (analyze_loop s [] posts 10 indices) = flatten results
            /\ (Forall is_array results ->
                analyze_loop s [] posts 10 indices
                = (Ok (concat (map array_items results)), s')).
Proof.
  destruct (batches_are_chunks posts 10) as (indices & Hrange & Hbatches); [lia|].
  exists indices. split; [exact Hrange|].
  change (Z.of_nat 10) with 10%Z in Hbatches, Hrange. cbv zeta.
  destruct (batch_results_returns (batches_of posts 10 indices) s)
    as (results & s' & Hres & Hrlen).
  destruct (analyze_loop_flatten posts 10 indices s [] results s' Hres)
    as [Hfst Hall].
  assert (Hceil : (length posts + 10 - 1) / 10 = (length posts + 9) / 10)
    by (f_equal; lia).
  rewrite Hceil in Hbatches. rewrite Hbatches in *. clear Hceil Hbatches.
  set (P := length posts) in *.
  set (n := (P + 9) / 10) in *.
  assert (Hn : P <= 10 * n < P + 10).
  { pose proof (Nat.div_mod_eq (P + 9) 10) as Hdm.
    pose proof (Nat.mod_upper_bound (P + 9) 10). fold n in Hdm. lia. }
  assert (Hlen : length (map (fun k => take 10 (drop (10 * k) posts)) (seq 0 n)) = n)
    by now rewrite length_map, length_seq.
  rewrite Hlen in *.
  split; [reflexivity|]. split; [exact Hn|].
  split; [|split; [|split; [|split]]].
  - intros k b Hk Hlast.
    rewrite list_lookup_fmap in Hk.
    destruct (seq 0 n !! k) as [k'|] eqn:Hseq; [|discriminate].
    apply lookup_seq in Hseq as [-> _].
    change (Some (take 10 (drop (10 * k) posts)) = Some b) in Hk.
    assert (Hb : take 10 (drop (10 * k) posts) = b) by congruence.
    rewrite <- Hb, length_chunk. fold P. lia.
  - intros b Hb. destruct n as [|m].
    + discriminate.
    + rewrite seq_S, map_app in Hb.
      change (map _ [0 + m]) with [take 10 (drop (10 * m) posts)] in Hb.
      rewrite last_snoc in Hb.
      assert (Hb' : take 10 (drop (10 * m) posts) = b) by congruence.
      rewrite <- Hb', length_chunk. fold P.
      pose proof (Nat.div_mod_eq P 10) as Hdm.
      pose proof (Nat.mod_upper_bound P 10).
      destruct (Nat.eqb (P mod 10) 0) eqn:Hmod.
      * apply Nat.eqb_eq in Hmod. lia.
      * apply Nat.eqb_neq in Hmod. lia.
  - rewrite concat_chunks. apply take_ge. fold P. lia.
  - unfold OpenAIAnalyzer.analyze_recruitment_problems.
    fold P. rewrite Hrange.
    destruct (analyze_loop s [] posts 10 indices) as [[all_problems|e] s1];
      reflexivity.
  - exists results, s'. split; [exact Hres|].
    split; [exact Hrlen|].
    split.
    + rewrite Hfst. destruct (flatten results); reflexivity.
    + intros Harr. apply (Hall _ (flatten_arrays results Harr)).
Qed.


(** The loop over a list of indices in two parts. *)
Lemma analyze_loop_app (posts : list post) (batch_size : Z) (pre rest : list Z) :
  forall s acc,
    analyze_loop s acc posts batch_size (pre ++ rest)
    = match analyze_loop s acc posts batch_size pre with
      | (Ok acc1, s1) => analyze_loop s1 acc1 posts batch_size rest
      | (Raise e, s1) => (Raise e, s1)
      end.
Proof.
  induction pre as [|i pre IH]; intros s acc; simpl; [reflexivity|].
  destruct (_analyze_batch s (slice posts i (i + batch_size))) as [[r|e] s1];
    [|reflexivity].
  destruct (extend_if_truthy acc r); [apply IH|reflexivity].
Qed.

(** Whatever makes the [try] block of [_analyze_batch] raise, the
    batch result is the empty list. *)
Lemma analyze_batch_recovers (s : session) (posts : list post) out c' e :
  create (client Client s) (batch_request posts) = (out, c') ->
  batch_problems out = Raise e ->
  _analyze_batch s posts
  = (Ok (JArr []), {| client := c'; sent := sent Client s ++ [batch_request posts] |}).
Proof.
  intros Hcall Hbody.
  unfold OpenAIAnalyzer._analyze_batch, OpenAIAnalyzer.chat_create.
  rewrite Hcall, Hbody. reflexivity.
Qed.

Lemma failed_call_raises (c c' : Client) (r : request) :
  call_raises Client create c r c' \/ response_unparsable Client create json_loads c r c' ->
  exists out e, create c r = (out, c') /\ batch_problems out = Raise e.
Proof.
  intros [[e Hcall]|(resp & text & e & Hcall & Hcontent & Hloads)].
  - exists (Raise e), e. auto.
  - exists (Ok resp), e. split; [assumption|].
    unfold OpenAIAnalyzer.batch_problems. simpl.
    rewrite Hcontent. simpl. rewrite Hloads. reflexivity.
Qed.

(** No exception escapes [_summarize_problems]. *)
Lemma summarize_returns (s : session) (all_problems : list json) :
  exists report, fst (_summarize_problems s all_problems) = Ok report.
Proof.
  unfold OpenAIAnalyzer._summarize_problems.
  destruct all_problems as [|p rest]; simpl; [eauto|].
  destruct (chat_create s (summary_request json_dumps (p :: rest))) as [out s'].
  simpl. destruct (summary_of json_loads out); simpl; eauto.
Qed.

Lemma contribution_raises (r : json) :
  (exists e, contribution r = Raise e) <-> breaks_extend r.
Proof.
  unfold contribution, breaks_extend.
  destruct (Py.truthy r) eqn:Htruthy.
  - destruct r; simpl; split;
      try (intros [e He]; discriminate); try (intros [_ []]); eauto.
  - split; [intros [e He]; discriminate|intros [Hf _]; discriminate].
Qed.

Lemma contribution_raises_type_error (r : json) (e : exn) :
  contribution r = Raise e -> exn_kind e = TypeError.
Proof.
  unfold contribution. destruct (Py.truthy r); [|discriminate].
  destruct r; simpl; intros [= <-]; reflexivity.
Qed.

(** Flattening raises exactly when a result breaks [extend]. *)
Lemma flatten_raises_iff (results : list json) :
  (exists e, flatten results = Raise e) <-> Exists breaks_extend results.
Proof.
  induction results as [|r rest IH]; simpl.
  - split; [intros [e He]; discriminate|intros H; inversion H].
  - rewrite Exists_cons, <- IH, <- contribution_raises. clear IH.
    destruct (contribution r) as [items|e1]; simpl.
    + destruct (flatten rest) as [more|e2]; simpl.
      * split; [intros [e He]; discriminate|].
        intros [[e He]|[e He]]; discriminate.
      * split; eauto.
    + split; eauto.
Qed.

Lemma flatten_raises_type_error (results : list json) (e : exn) :
  flatten results = Raise e -> exn_kind e = TypeError.
Proof.
  induction results as [|r rest IH]; simpl; [discriminate|].
  destruct (contribution r) as [items|e1] eqn:Hr; simpl.
  - destruct (flatten rest) as [more|e2]; simpl; [discriminate|].
    intros [= <-]. now apply IH.
  - intros [= <-]. now apply contribution_raises_type_error in Hr.
Qed.

(** The per-batch results of two runs of batches, one after the other. *)
Lemma batch_results_app (a b : list (list post)) : forall s ra s1 rb s2,
  batch_results s a = (Ok ra, s1) ->
  batch_results s1 b = (Ok rb, s2) ->
  batch_results s (a ++ b) = (Ok (ra ++ rb), s2).
Proof.
  induction a as [|x a IH]; intros s ra s1 rb s2 Ha Hb; simpl in *.
  - injection Ha as <- <-. exact Hb.
  - destruct (_analyze_batch s x) as [[r|e] s'] eqn:Hx; [|discriminate].
    destruct (batch_results s' a) as [[rs|e] s''] eqn:Hrs; [|discriminate].
    injection Ha as <- <-.
    rewrite (IH s' rs s'' rb s2 Hrs Hb). reflexivity.
Qed.

(** An empty list among the per-batch results adds nothing. *)
Lemma flatten_skips_empty (before after : list json) :
  flatten (before ++ JArr [] :: after) = flatten (before ++ after).
Proof.
  induction before as [|r before IH]; simpl.
  - destruct (flatten after); reflexivity.
  - now rewrite IH.
Qed.


(** C7. For a non-empty problem list, when the completion call of the
    Summarizer raises, [_summarize_problems] returns (it does not
    raise) the error-tagged report that carries the description of the
    exception. *)
Theorem summarizer_reports_capability_error
        (s : session) (all_problems : list json) (e : exn) (c' : Client) :
  all_problems <> [] ->
  create (client Client s) (summary_request json_dumps all_problems) = (Raise e, c') ->
  _summarize_problems s all_problems
  = (Ok (error_report e),
     {| client := c';
        sent := sent Client s ++ [summary_request json_dumps all_problems] |})
  /\ error_report e = JObj [("error", JStr (exn_str e))]
  /\ Py.getitem (error_report e) "error" = Ok (JStr (exn_str e)).
Proof.
  intros Hne Hcall.
  destruct all_problems as [|p rest]; [contradiction|].
  unfold OpenAIAnalyzer._summarize_problems, OpenAIAnalyzer.chat_create.
  rewrite Hcall. simpl. auto.
Qed.


(** The loop that appends the comment lines, as one concatenation. *)
Lemma comment_lines_joined (cs : list comment) : forall text,
  fold_left (fun acc c => acc +:+ comment_line c) cs text
  = text +:+ PyStr.join "" (map comment_line cs).
Proof.
  induction cs as [|c rest IH]; intros text; simpl.
  - now rewrite str_app_nil_r.
  - rewrite IH, str_app_assoc. f_equal.
    destruct rest as [|c' rest']; simpl;
      [now rewrite str_app_nil_r|now rewrite str_app_nil_l].
Qed.

Lemma post_content_excerpt (p : post) : post_content p = excerpt_of_post p.
Proof.
  unfold post_content, excerpt_of_post.
  destruct (PyStr.truthy (p_selftext p)), (p_comments p) as [|c cs] eqn:Hcs.
  - now rewrite !str_app_nil_r.
  - rewrite comment_lines_joined. now rewrite !str_app_assoc.
  - now rewrite !str_app_nil_r.
  - rewrite comment_lines_joined. now rewrite !str_app_assoc.
Qed.

Lemma comment_line_truncated (c : comment) :
  exists body,
    comment_line c = "- " +:+ body +:+ "..." +:+ newline
    /\ Z.of_nat (String.length body) = Z.min 200 (Z.of_nat (String.length (c_body c)))
    /\ String.prefix body (c_body c) = true.
Proof.
  exists (PyStr.upto 200 (c_body c)). split; [reflexivity|].
  split; [apply length_upto_exact; lia|apply upto_is_prefix].
Qed.

(** C8. The text put in a completion request is cut to the budget of
    its stage, by a hard cut.  The batch request carries the first 8000
    characters of the combined excerpt (all of it when it is shorter),
    which is made, for each post, of its title, its body text and its
    first 5 comments (all of them when there are fewer), each comment
    body cut to its first 200 characters; the summary request carries
    the first 10000 characters of the serialized problem list (all of it
    when it is shorter).  These are the requests that the two stages
    send. *)
Theorem request_text_within_budget
        (s : session) (posts : list post) (all_problems : list json) :
  req_user (batch_request posts)
  = batch_prompt_head +:+ batch_excerpt posts +:+ batch_prompt_tail
  /\ Z.of_nat (String.length (batch_excerpt posts))
     = Z.min 8000 (Z.of_nat (String.length (_prepare_content_for_analysis posts)))
  /\ String.prefix (batch_excerpt posts) (_prepare_content_for_analysis posts) = true
  /\ _prepare_content_for_analysis posts
     = PyStr.join separator (map excerpt_of_post posts)
  /\ Forall (fun p =>
               top_comments p `prefix_of` p_comments p
               /\ length (top_comments p) = Nat.min 5 (length (p_comments p))
               /\ Forall (fun c =>
                            exists body,
                              comment_line c = "- " +:+ body +:+ "..." +:+ newline
                              /\ Z.of_nat (String.length body)
                                 = Z.min 200 (Z.of_nat (String.length (c_body c)))
                              /\ String.prefix body (c_body c) = true)
                         (top_comments p))
            posts
  /\ sent Client (snd (_analyze_batch s posts))
     = sent Client s ++ [batch_request posts]
  /\ req_user (summary_request json_dumps all_problems)
     = summary_prompt_head +:+ summary_excerpt json_dumps all_problems
         +:+ summary_prompt_tail
  /\ Z.of_nat (String.length (summary_excerpt json_dumps all_problems))
     = Z.min 10000 (Z.of_nat (String.length (json_dumps true (JArr all_problems))))
  /\ String.prefix (summary_excerpt json_dumps all_problems)
                   (json_dumps true (JArr all_problems)) = true
  /\ sent Client (snd (_summarize_problems s all_problems))
     = match all_problems with
       | [] => sent Client s
       | _ :: _ => sent Client s ++ [summary_request json_dumps all_problems]
       end.
Proof.
  split; [reflexivity|].
  split; [apply length_upto_exact; lia|].
  split; [apply upto_is_prefix|].
  split.
  { unfold _prepare_content_for_analysis. f_equal.
    apply map_ext. apply post_content_excerpt. }
  split.
  { apply Forall_forall. intros p _. split; [|split].
    - unfold top_comments. apply prefix_take.
    - unfold top_comments. apply length_take.
    - apply Forall_forall. intros c _. apply comment_line_truncated. }
  split.
  { unfold OpenAIAnalyzer._analyze_batch, OpenAIAnalyzer.chat_create.
    destruct (create (client Client s) (batch_request posts)). reflexivity. }
  split; [reflexivity|].
  split; [apply length_upto_exact; lia|].
  split; [apply upto_is_prefix|].
  unfold OpenAIAnalyzer._summarize_problems, OpenAIAnalyzer.chat_create.
  destruct all_problems as [|p rest]; [reflexivity|].
  destruct (create (client Client s) (summary_request json_dumps (p :: rest))).
  reflexivity.
Qed.

End AnalyzerFacts.

(** ** The json library: a value that was written reads back *)

Section JsonFacts.

Variable float_repr : Q -> string.
Variable float_of_literal : string -> pyfloat.
Variable describe : string -> string.

Abbreviation jdump := (Json.dump float_repr).
Abbreviation jparse := (Json.parse float_of_literal).
Abbreviation jparse_items := (Json.parse_items float_of_literal).
Abbreviation jparse_fields := (Json.parse_fields float_of_literal).
Abbreviation jscan_number := (Json.scan_number float_of_literal).
Abbreviation jnative := (Json.native float_repr float_of_literal).

Lemma chars_text (l : list ascii) : Json.chars (Json.text l) = l.
Proof. apply list_ascii_of_string_of_list_ascii. Qed.

Lemma text_chars (s : string) : Json.text (Json.chars s) = s.
Proof. apply string_of_list_ascii_of_string. Qed.

Lemma length_text (l : list ascii) : String.length (Json.text l) = length l.
Proof. induction l as [|c l IH]; simpl; [reflexivity|now rewrite IH]. Qed.

(** *** String literals *)

Lemma scan_escape_char (b : bool) (c : ascii) (t : list ascii) :
  Json.scan_string (Json.escape_char b c ++ t) = Json.push c (Json.scan_string t).
Proof.
  destruct c as [[] [] [] [] [] [] [] []]; destruct b; reflexivity.
Qed.

Lemma scan_escape (b : bool) (s t : list ascii) :
  Json.scan_string (Json.escape b s ++ Json.quote :: t) = Some (s, t).
Proof.
  unfold Json.escape. induction s as [|c s IH]; simpl; [reflexivity|].
  rewrite <- app_assoc, scan_escape_char, IH. reflexivity.
Qed.

Lemma scan_dump_string (b : bool) (s : string) (rest : list ascii) :
  exists tail,
    Json.dump_string b s ++ rest = Json.quote :: tail
    /\ Json.scan_string tail = Some (Json.chars s, rest).
Proof.
  exists (Json.escape b (Json.chars s) ++ Json.quote :: rest). split.
  - unfold Json.dump_string. simpl. now rewrite <- app_assoc.
  - apply scan_escape.
Qed.

(** *** Numbers *)

Abbreviation closed := Json.closed.

Lemma span_digits_app (s rest : list ascii) :
  closed rest ->
  Json.span_digits (s ++ rest)
  = (fst (Json.span_digits s), snd (Json.span_digits s) ++ rest).
Proof.
  intros Hrest. induction s as [|c s IH]; simpl.
  - destruct rest as [|c rest]; [reflexivity|]. simpl in *.
    unfold Json.number_char in Hrest.
    destruct (Json.is_digit c); [discriminate|reflexivity].
  - destruct (Json.is_digit c); [|reflexivity].
    rewrite IH. destruct (Json.span_digits s). reflexivity.
Qed.

Lemma span_digits_split (s : list ascii) :
  s = fst (Json.span_digits s) ++ snd (Json.span_digits s).
Proof.
  induction s as [|c s IH]; simpl; [reflexivity|].
  destruct (Json.is_digit c); [|reflexivity].
  destruct (Json.span_digits s). simpl in *. now f_equal.
Qed.

Lemma span_digits_digits (d : Decimal.uint) :
  Json.span_digits (Json.digits d) = (Json.digits d, []).
Proof.
  induction d; simpl; try reflexivity;
    change (Json.is_digit _) with true; cbv iota; rewrite IHd; reflexivity.
Qed.

Lemma uint_of_digits_digits (d : Decimal.uint) :
  Json.uint_of_digits (Json.digits d) = d.
Proof. induction d; simpl; try reflexivity; now rewrite IHd. Qed.

Lemma closed_chars (c : ascii) (rest : list ascii) :
  closed (c :: rest) ->
  Json.is_digit c = false /\ Ascii.eqb c "." = false
  /\ Ascii.eqb c "e" = false /\ Ascii.eqb c "E" = false
  /\ Json.is_sign c = false /\ Ascii.eqb c "0" = false.
Proof.
  simpl. unfold Json.number_char, Json.is_sign. intros Hc.
  repeat (apply orb_false_elim in Hc as [Hc ?]).
  repeat split; try assumption.
  - now apply orb_false_intro.
  - destruct (Ascii.eqb_spec c "0") as [->|]; [discriminate|reflexivity].
Qed.

Lemma lex_integer_app (s rest : list ascii) :
  closed rest ->
  Json.lex_integer (s ++ rest)
  = match Json.lex_integer s with
    | Some (integer, after) => Some (integer, after ++ rest)
    | None => None
    end.
Proof.
  intros Hrest. destruct s as [|c s]; simpl.
  - destruct rest as [|c rest]; [reflexivity|].
    destruct (closed_chars c rest Hrest) as (Hd & _ & _ & _ & _ & H0).
    simpl. now rewrite H0, Hd.
  - destruct (Ascii.eqb c "0"); [reflexivity|].
    destruct (Json.is_digit c); [|reflexivity].
    rewrite (span_digits_app s rest Hrest).
    destruct (Json.span_digits s). reflexivity.
Qed.

Lemma lex_fraction_app (s rest : list ascii) :
  closed rest ->
  Json.lex_fraction (s ++ rest)
  = (fst (Json.lex_fraction s), snd (Json.lex_fraction s) ++ rest).
Proof.
  intros Hrest. destruct s as [|p [|d s]]; simpl.
  - destruct rest as [|c [|d rest]]; try reflexivity.
    destruct (closed_chars c _ Hrest) as (_ & Hp & _). simpl. now rewrite Hp.
  - destruct rest as [|c rest]; [reflexivity|].
    destruct (closed_chars c _ Hrest) as (Hd & _). rewrite Hd.
    now rewrite andb_false_r.
  - destruct (Ascii.eqb p "." && Json.is_digit d); [|reflexivity].
    destruct (Json.is_digit d); [|reflexivity].
    rewrite (span_digits_app s rest Hrest).
    destruct (Json.span_digits s). reflexivity.
Qed.

Lemma lex_exponent_app (s rest : list ascii) :
  closed rest ->
  Json.lex_exponent (s ++ rest)
  = (fst (Json.lex_exponent s), snd (Json.lex_exponent s) ++ rest).
Proof.
  intros Hrest. destruct s as [|e [|c s]]; simpl.
  - destruct rest as [|c rest]; [reflexivity|].
    destruct (closed_chars c _ Hrest) as (_ & _ & He & HE & _).
    simpl. now rewrite He, HE.
  - destruct (Ascii.eqb e "e" || Ascii.eqb e "E"); [|reflexivity].
    destruct rest as [|c rest]; [reflexivity|].
    destruct (closed_chars c _ Hrest) as (Hd & _ & _ & _ & Hs & _).
    now rewrite Hs, Hd.
  - destruct (Ascii.eqb e "e" || Ascii.eqb e "E"); [|reflexivity].
    destruct (Json.is_sign c).
    + destruct s as [|d s]; simpl.
      * destruct rest as [|d rest]; [reflexivity|].
        destruct (closed_chars d _ Hrest) as (Hd & _). now rewrite Hd.
      * destruct (Json.is_digit d); [|reflexivity].
        rewrite (span_digits_app s rest Hrest).
        destruct (Json.span_digits s). reflexivity.
    + destruct (Json.is_digit c); [|reflexivity].
      rewrite (span_digits_app s rest Hrest).
      destruct (Json.span_digits s). reflexivity.
Qed.

(** What follows a number token does not change it, when it does not
    go on as a number. *)
Lemma lex_number_app (s rest : list ascii) :
  closed rest ->
  Json.lex_number (s ++ rest)
  = match Json.lex_number s with
    | Some (integer, fraction, exponent, after) =>
        Some (integer, fraction, exponent, after ++ rest)
    | None => None
    end.
Proof.
  intros Hrest. unfold Json.lex_number.
  assert (Hsign :
            forall s1, Json.lex_integer (s1 ++ rest)
                       = match Json.lex_integer s1 with
                         | Some (integer, after) => Some (integer, after ++ rest)
                         | None => None
                         end) by (intros; now apply lex_integer_app).
  assert (Htail : forall sign s1,
            match Json.lex_integer (s1 ++ rest) with
            | Some (integer, s2) =>
                let '(fraction, s3) := Json.lex_fraction s2 in
                let '(exponent, s4) := Json.lex_exponent s3 in
                Some (sign ++ integer, fraction, exponent, s4)
            | None => None
            end
            = match
                match Json.lex_integer s1 with
                | Some (integer, s2) =>
                    let '(fraction, s3) := Json.lex_fraction s2 in
                    let '(exponent, s4) := Json.lex_exponent s3 in
                    Some (sign ++ integer, fraction, exponent, s4)
                | None => None
                end
              with
              | Some (integer, fraction, exponent, after) =>
                  Some (integer, fraction, exponent, after ++ rest)
              | None => None
              end).
  { intros sign s1. rewrite Hsign.
    destruct (Json.lex_integer s1) as [[integer s2]|]; [|reflexivity].
    rewrite (lex_fraction_app s2 rest Hrest).
    destruct (Json.lex_fraction s2) as [fraction s3]. simpl.
    rewrite (lex_exponent_app s3 rest Hrest).
    destruct (Json.lex_exponent s3) as [exponent s4]. reflexivity. }
  destruct s as [|c s]; simpl.
  - destruct rest as [|c rest]; [reflexivity|].
    destruct (closed_chars c _ Hrest) as (Hd & _ & _ & _ & Hs & H0).
    unfold Json.is_sign in Hs. apply orb_false_elim in Hs as [_ Hminus].
    rewrite Hminus. simpl. now rewrite H0, Hd.
  - destruct (Ascii.eqb c "-").
    + apply Htail.
    + apply (Htail [] (c :: s)).
Qed.

(** A number token is the start of the text it was read from. *)
Lemma lex_number_split (s integer fraction exponent after : list ascii) :
  Json.lex_number s = Some (integer, fraction, exponent, after) ->
  s = integer ++ fraction ++ exponent ++ after.
Proof.
  unfold Json.lex_number.
  assert (Hint : forall s1 ds s2, Json.lex_integer s1 = Some (ds, s2) -> s1 = ds ++ s2).
  { intros [|c s1] ds s2; simpl; [discriminate|].
    destruct (Ascii.eqb c "0"); [now intros [= <- <-]|].
    destruct (Json.is_digit c) eqn:Hc; [|discriminate].
    pose proof (span_digits_split s1) as Hs.
    destruct (Json.span_digits s1) as [ds1 after1]. simpl in Hs.
    intros [= <- <-]. simpl. now f_equal. }
  assert (Hfrac : forall s2, s2 = fst (Json.lex_fraction s2) ++ snd (Json.lex_fraction s2)).
  { intros [|p [|d s2]]; simpl; try reflexivity.
    destruct (Ascii.eqb p "." && Json.is_digit d); [|reflexivity].
    destruct (Json.is_digit d); [|reflexivity].
    pose proof (span_digits_split s2) as Hs.
    destruct (Json.span_digits s2). simpl in *. now do 2 f_equal. }
  assert (Hexp : forall s3, s3 = fst (Json.lex_exponent s3) ++ snd (Json.lex_exponent s3)).
  { intros [|e [|c s3]]; simpl; try reflexivity.
    - now destruct (Ascii.eqb e "e" || Ascii.eqb e "E").
    - destruct (Ascii.eqb e "e" || Ascii.eqb e "E"); [|reflexivity].
      destruct (Json.is_sign c).
      + destruct s3 as [|d s3]; [reflexivity|].
        simpl. destruct (Json.is_digit d); [|reflexivity].
        pose proof (span_digits_split s3) as Hs.
        destruct (Json.span_digits s3). simpl in *. now do 3 f_equal.
      + destruct (Json.is_digit c); [|reflexivity].
        pose proof (span_digits_split s3) as Hs.
        destruct (Json.span_digits s3). simpl in *. now do 2 f_equal. }
  assert (Htail : forall sign s1,
            match Json.lex_integer s1 with
            | Some (ds, s2) =>
                let '(fraction, s3) := Json.lex_fraction s2 in
                let '(exponent, s4) := Json.lex_exponent s3 in
                Some (sign ++ ds, fraction, exponent, s4)
            | None => None
            end = Some (integer, fraction, exponent, after) ->
            sign ++ s1 = integer ++ fraction ++ exponent ++ after).
  { intros sign s1.
    destruct (Json.lex_integer s1) as [[ds s2]|] eqn:Hds; [|discriminate].
    apply Hint in Hds. specialize (Hfrac s2).
    destruct (Json.lex_fraction s2) as [fr s3]. specialize (Hexp s3).
    destruct (Json.lex_exponent s3) as [ex s4]. simpl in *.
    intros [= <- <- <- <-]. rewrite <- app_assoc. congruence. }
  destruct s as [|c s].
  - intros H. apply (Htail [] []) in H. exact H.
  - destruct (Ascii.eqb c "-").
    + intros H. apply (Htail [c] s) in H. exact H.
    + intros H. apply (Htail [] (c :: s)) in H. exact H.
Qed.

(** A number token starts with a digit or with the minus sign. *)
Lemma lex_number_head (s : list ascii) :
  Json.lex_number s <> None ->
  exists c tail, s = c :: tail /\ (Json.is_digit c || Ascii.eqb c "-") = true.
Proof.
  destruct s as [|c s]; [intros H; now contradiction H|].
  intros H. exists c, s. split; [reflexivity|].
  unfold Json.lex_number in H.
  destruct (Ascii.eqb c "-"); [now rewrite orb_true_r|].
  simpl in H. destruct (Ascii.eqb_spec c "0") as [->|_]; [reflexivity|].
  destruct (Json.is_digit c); [reflexivity|]. now contradiction H.
Qed.

Lemma nzhead_not_zero (d d' : Decimal.uint) : Decimal.nzhead d <> Decimal.D0 d'.
Proof. induction d; simpl; try discriminate. exact IHd. Qed.

(** The digits of a positive number start with a digit that is not 0. *)
Lemma digits_of_positive (p : positive) :
  exists c tail,
    Json.digits (Pos.to_uint p) = c :: tail
    /\ Json.is_digit c = true /\ Ascii.eqb c "0" = false.
Proof.
  pose proof (DecimalPos.Unsigned.to_of (Pos.to_uint p)) as Hnorm.
  rewrite DecimalPos.Unsigned.of_to in Hnorm. simpl in Hnorm.
  pose proof (DecimalPos.Unsigned.to_uint_nonnil p) as Hnil.
  destruct (Pos.to_uint p) as [|d|d|d|d|d|d|d|d|d|d] eqn:Hp;
    try (now contradiction Hnil);
    try (simpl; do 2 eexists; split; [reflexivity|split; reflexivity]).
  exfalso. unfold Decimal.unorm in Hnorm. simpl in Hnorm.
  destruct (Decimal.nzhead d) eqn:Hd; try discriminate.
  - injection Hnorm as ->.
    apply (DecimalPos.Unsigned.to_uint_nonzero p). exact Hp.
  - now apply nzhead_not_zero in Hd.
Qed.

Lemma lex_digits_of_positive (p : positive) (sign : list ascii) :
  match Json.lex_integer (Json.digits (Pos.to_uint p)) with
  | Some (integer, s2) =>
      let '(fraction, s3) := Json.lex_fraction s2 in
      let '(exponent, s4) := Json.lex_exponent s3 in
      Some (sign ++ integer, fraction, exponent, s4)
  | None => None
  end = Some (sign ++ Json.digits (Pos.to_uint p), [], [], []).
Proof.
  destruct (digits_of_positive p) as (c & tail & Hd & Hc & H0).
  unfold Json.lex_integer. rewrite Hd, H0, Hc, <- Hd, span_digits_digits.
  reflexivity.
Qed.

(** An integer is written as one number token, without fraction or
    exponent, and reads back. *)
Lemma lex_dump_int (z : Z) :
  Json.lex_number (Json.dump_int z) = Some (Json.dump_int z, [], [], [])
  /\ Json.int_of_literal (Json.dump_int z) = z.
Proof.
  destruct z as [|p|p].
  - split; reflexivity.
  - unfold Json.dump_int. simpl Z.to_int. cbv iota. split.
    + unfold Json.lex_number.
      destruct (digits_of_positive p) as (c & tail & Hd & Hc & H0).
      assert (Hminus : Ascii.eqb c "-" = false).
      { destruct (Ascii.eqb_spec c "-") as [->|]; [discriminate|reflexivity]. }
      rewrite Hd, Hminus, <- Hd. apply (lex_digits_of_positive p []).
    + unfold Json.int_of_literal.
      destruct (digits_of_positive p) as (c & tail & Hd & Hc & H0).
      assert (Hminus : Ascii.eqb c "-" = false).
      { destruct (Ascii.eqb_spec c "-") as [->|]; [discriminate|reflexivity]. }
      rewrite Hd, Hminus, <- Hd, uint_of_digits_digits.
      apply (DecimalZ.of_to (Z.pos p)).
  - unfold Json.dump_int. simpl Z.to_int. cbv iota. split.
    + unfold Json.lex_number. change (Ascii.eqb "-" "-") with true. cbv iota.
      apply (lex_digits_of_positive p ["-"%char]).
    + unfold Json.int_of_literal. change (Ascii.eqb "-" "-") with true. cbv iota.
      rewrite uint_of_digits_digits. apply (DecimalZ.of_to (Z.neg p)).
Qed.

Lemma scan_dump_int (z : Z) (rest : list ascii) :
  closed rest ->
  jscan_number (Json.dump_int z ++ rest) = Some (JInt z, rest).
Proof.
  intros Hrest. destruct (lex_dump_int z) as [Hlex Hint].
  unfold Json.scan_number. rewrite (lex_number_app _ rest Hrest), Hlex.
  simpl. now rewrite Hint.
Qed.

(** The text of a finite float is read as the float of that text. *)
Lemma scan_float_literal (t : string) (rest : list ascii) :
  Json.float_literal t = true ->
  closed rest ->
  jscan_number (Json.chars t ++ rest) = Some (JFloat (float_of_literal t), rest).
Proof.
  unfold Json.float_literal. intros Hlit Hrest.
  unfold Json.scan_number. rewrite (lex_number_app _ rest Hrest).
  destruct (Json.lex_number (Json.chars t))
    as [[[[integer fraction] exponent] after]|] eqn:Hlex; [|discriminate].
  pose proof (lex_number_split _ _ _ _ _ Hlex) as Hsplit.
  destruct fraction as [|f fraction].
  - destruct exponent as [|e exponent]; [discriminate|].
    destruct after; [|discriminate].
    rewrite app_nil_r in Hsplit. simpl in *.
    now rewrite <- Hsplit, text_chars.
  - destruct after; [|destruct exponent; discriminate].
    rewrite app_nil_r in Hsplit. simpl in *.
    now rewrite <- Hsplit, text_chars.
Qed.

(** *** Values *)

Lemma parse_unfold (fuel : nat) (c : ascii) (tail : list ascii) :
  (Json.is_digit c || Ascii.eqb c "-") = true ->
  jparse (S fuel) (c :: tail) = jscan_number (c :: tail).
Proof.
  destruct c as [[] [] [] [] [] [] [] []]; try discriminate; reflexivity.
Qed.

Lemma number_head_opens (c : ascii) :
  (Json.is_digit c || Ascii.eqb c "-") = true ->
  Json.is_space c = false /\ Ascii.eqb c "]" = false /\ Ascii.eqb c "}" = false.
Proof.
  destruct c as [[] [] [] [] [] [] [] []]; try discriminate;
    repeat split; reflexivity.
Qed.

Lemma dump_int_head (z : Z) :
  exists c tail,
    Json.dump_int z = c :: tail /\ (Json.is_digit c || Ascii.eqb c "-") = true.
Proof.
  apply lex_number_head. destruct (lex_dump_int z) as [-> _]. discriminate.
Qed.

Lemma float_literal_head (t : string) :
  Json.float_literal t = true ->
  exists c tail,
    Json.chars t = c :: tail /\ (Json.is_digit c || Ascii.eqb c "-") = true.
Proof.
  unfold Json.float_literal. intros Hlit. apply lex_number_head.
  destruct (Json.lex_number (Json.chars t)); [discriminate|discriminate Hlit].
Qed.

Lemma skip_newline_indent (level : nat) (s : list ascii) :
  Json.skip_spaces (Json.newline_indent level ++ s) = Json.skip_spaces s.
Proof.
  unfold Json.newline_indent. simpl.
  induction (level + (level + 0)) as [|k IH]; simpl; [reflexivity|exact IH].
Qed.

Lemma skip_spaces_none (c : ascii) (s : list ascii) :
  Json.is_space c = false -> Json.skip_spaces (c :: s) = c :: s.
Proof. intros Hc. simpl. now rewrite Hc. Qed.

Lemma closed_newline_indent (level : nat) (s : list ascii) :
  closed (Json.newline_indent level ++ s).
Proof. reflexivity. Qed.

(** A value is written with a first character that is not a space and
    that closes no list or dict. *)
Lemma dump_head (b : bool) (level : nat) (v : json) :
  jnative v ->
  exists c tail,
    jdump b level v = c :: tail
    /\ Json.is_space c = false
    /\ Ascii.eqb c "]" = false /\ Ascii.eqb c "}" = false.
Proof.
  intros Hv. destruct v as [|[]|z|[q| |[]]|s|[|x items]|[|kv fields]];
    try (simpl; do 2 eexists; split; [reflexivity|repeat split; reflexivity]).
  - destruct (dump_int_head z) as (c & tail & Hz & Hc).
    exists c, tail. split; [exact Hz|]. now apply number_head_opens.
  - destruct Hv as [Hlit _].
    destruct (float_literal_head _ Hlit) as (c & tail & Hq & Hc).
    exists c, tail. split; [exact Hq|]. now apply number_head_opens.
Qed.

Lemma native_items (items : list json) :
  jnative (JArr items) <-> Forall jnative items.
Proof.
  simpl. induction items as [|x items IH]; simpl.
  - split; [constructor|constructor].
  - rewrite Forall_cons, IH. reflexivity.
Qed.

Lemma native_fields (fields : list (string * json)) :
  jnative (JObj fields)
  <-> NoDup (map fst fields) /\ Forall (fun kv => jnative (snd kv)) fields.
Proof.
  simpl. apply and_iff_compat_l.
  induction fields as [|kv fields IH]; simpl.
  - split; constructor.
  - rewrite Forall_cons, IH. reflexivity.
Qed.

(** Pairs with distinct keys make the dict that lists them. *)
Lemma update_fresh (key : string) (v : json) (fields : list (string * json)) :
  key ∉ map fst fields -> Json.update key v fields = fields ++ [(key, v)].
Proof.
  induction fields as [|[k w] fields IH]; simpl; intros Hfresh; [reflexivity|].
  apply not_elem_of_cons in Hfresh as [Hne Hfresh].
  destruct (String.eqb_spec k key) as [->|_]; [contradiction|].
  now rewrite IH.
Qed.

Lemma dict_of_distinct_pairs (pairs : list (string * json)) :
  NoDup (map fst pairs) -> Json.dict_of_pairs pairs = pairs.
Proof.
  unfold Json.dict_of_pairs.
  enough (Hgen : forall done,
             NoDup (map fst (done ++ pairs)) ->
             fold_left (fun fields kv => Json.update (fst kv) (snd kv) fields)
                       pairs done
             = done ++ pairs) by apply (Hgen []).
  induction pairs as [|[k v] pairs IH]; intros done Hnodup; simpl.
  - now rewrite app_nil_r.
  - rewrite update_fresh.
    + rewrite IH; rewrite <- app_assoc; [reflexivity|exact Hnodup].
    + rewrite map_app in Hnodup. apply NoDup_app in Hnodup as (_ & Hdisj & _).
      intros Hin. apply (Hdisj k Hin). simpl. left.
Qed.

Lemma size_positive (v : json) : 1 <= Json.size v.
Proof. destruct v; simpl; lia. Qed.

Lemma parse_items_step (fuel : nat) (s : list ascii) :
  jparse_items (S fuel) s
  = match jparse fuel s with
    | None => None
    | Some (v, after) =>
        match Json.skip_spaces after with
        | [] => None
        | c :: rest =>
            if Ascii.eqb c "]" then Some ([v], rest)
            else if Ascii.eqb c "," then
              match jparse_items fuel (Json.skip_spaces rest) with
              | Some (vs, after') => Some (v :: vs, after')
              | None => None
              end
            else None
        end
    end.
Proof. reflexivity. Qed.

Lemma parse_fields_step (fuel : nat) (tail : list ascii) :
  jparse_fields (S fuel) (Json.quote :: tail)
  = match Json.scan_string tail with
    | None => None
    | Some (key, s1) =>
        match Json.skip_spaces s1 with
        | [] => None
        | c1 :: s2 =>
            if Ascii.eqb c1 ":" then
              match jparse fuel (Json.skip_spaces s2) with
              | None => None
              | Some (v, after) =>
                  match Json.skip_spaces after with
                  | [] => None
                  | c2 :: rest2 =>
                      if Ascii.eqb c2 "}" then Some ([(Json.text key, v)], rest2)
                      else if Ascii.eqb c2 "," then
                        match jparse_fields fuel (Json.skip_spaces rest2) with
                        | Some (kvs, after') =>
                            Some ((Json.text key, v) :: kvs, after')
                        | None => None
                        end
                      else None
                  end
              end
            else None
        end
    end.
Proof. reflexivity. Qed.

Lemma skip_comma (s : list ascii) :
  Json.skip_spaces (","%char :: s) = ","%char :: s.
Proof. reflexivity. Qed.

Section Nested.

(** The values that the decoder is known to read back: those of size
    at most [n]. *)
Variable n : nat.
Hypothesis parse_smaller :
  forall v, Json.size v <= n -> jnative v ->
  forall b level fuel rest,
    Json.size v <= fuel -> closed rest ->
    jparse fuel (jdump b level v ++ rest) = Some (v, rest).

Lemma parse_items_dump (b : bool) (level : nat) (rest : list ascii) :
  forall items fuel,
    items <> [] ->
    Forall jnative items ->
    list_sum (map (fun x => S (Json.size x)) items) <= n ->
    list_sum (map (fun x => S (Json.size x)) items) <= fuel ->
    jparse_items fuel
      (Json.join ("," :: Json.newline_indent (S level))%char
                 (map (jdump b (S level)) items)
         ++ Json.newline_indent level ++ "]"%char :: rest)
    = Some (items, rest).
Proof.
  induction items as [|x items IH]; intros fuel Hne Hnative Hn Hfuel;
    [contradiction|].
  apply Forall_cons in Hnative as [Hx Hitems].
  simpl in Hn, Hfuel. destruct fuel as [|fuel]; [lia|].
  destruct items as [|y items].
  - simpl Json.join. rewrite parse_items_step.
    rewrite parse_smaller; try assumption; try lia;
      [|apply closed_newline_indent].
    rewrite skip_newline_indent. reflexivity.
  - change (Json.join ?sep (map ?f (x :: y :: items)))
      with (f x ++ sep ++ Json.join sep (map f (y :: items))).
    rewrite <- !app_assoc. rewrite parse_items_step.
    rewrite parse_smaller; try assumption; try lia; [|reflexivity].
    rewrite <- app_comm_cons, skip_comma.
    change (Ascii.eqb "," "]") with false.
    change (Ascii.eqb "," ",") with true. cbv iota.
    rewrite skip_newline_indent.
    assert (Hhead : Json.skip_spaces
                      (Json.join ("," :: Json.newline_indent (S level))%char
                                 (map (jdump b (S level)) (y :: items))
                         ++ Json.newline_indent level ++ "]"%char :: rest)
                    = Json.join ("," :: Json.newline_indent (S level))%char
                                (map (jdump b (S level)) (y :: items))
                        ++ Json.newline_indent level ++ "]"%char :: rest).
    { apply Forall_cons in Hitems as [Hy _].
      destruct (dump_head b (S level) y Hy) as (c & tail & Hdump & Hc & _).
      destruct items as [|z items]; simpl Json.join; simpl map; rewrite Hdump;
        apply skip_spaces_none; exact Hc. }
    rewrite Hhead, IH; try assumption; try discriminate; [reflexivity| |];
      simpl in *; lia.
Qed.

(** The decoder on a key, its colon and its value. *)
Lemma parse_entry (b : bool) (level fuel : nat) (key : string) (v : json)
      (more : list ascii) :
  jnative v -> Json.size v <= n -> Json.size v <= fuel -> closed more ->
  exists tail,
    (Json.dump_string b key ++ Json.chars ": " ++ jdump b (S level) v) ++ more
    = Json.quote :: tail
    /\ match Json.scan_string tail with
       | None => None
       | Some (key', s1) =>
           match Json.skip_spaces s1 with
           | [] => None
           | c1 :: s2 =>
               if Ascii.eqb c1 ":" then
                 match jparse fuel (Json.skip_spaces s2) with
                 | None => None
                 | Some (v', after) => Some (Json.text key', v', after)
                 end
               else None
           end
       end = Some (key, v, more).
Proof.
  intros Hv Hn Hfuel Hmore.
  destruct (scan_dump_string b key
              (Json.chars ": " ++ jdump b (S level) v ++ more))
    as (tail & Htail & Hscan).
  exists tail. split; [now rewrite <- !app_assoc|].
  rewrite Hscan. simpl Json.skip_spaces at 1. cbv iota.
  change (Ascii.eqb ":" ":") with true. cbv iota.
  destruct (dump_head b (S level) v Hv) as (c & body & Hdump & Hc & _).
  assert (Hskip : Json.skip_spaces (" "%char :: jdump b (S level) v ++ more)
                  = jdump b (S level) v ++ more).
  { simpl. rewrite Hdump. simpl. now rewrite Hc. }
  rewrite Hskip, parse_smaller, text_chars by assumption. reflexivity.
Qed.

Lemma parse_fields_dump (b : bool) (level : nat) (rest : list ascii) :
  forall fields fuel,
    fields <> [] ->
    Forall (fun kv => jnative (snd kv)) fields ->
    list_sum (map (fun kv => S (Json.size (snd kv))) fields) <= n ->
    list_sum (map (fun kv => S (Json.size (snd kv))) fields) <= fuel ->
    jparse_fields fuel
      (Json.join ("," :: Json.newline_indent (S level))%char
                 (map (fun kv => Json.dump_string b (fst kv) ++ Json.chars ": "
                                   ++ jdump b (S level) (snd kv))
                      fields)
         ++ Json.newline_indent level ++ "}"%char :: rest)
    = Some (fields, rest).
Proof.
  induction fields as [|[key v] fields IH]; intros fuel Hne Hnative Hn Hfuel;
    [contradiction|].
  apply Forall_cons in Hnative as [Hv Hfields].
  simpl in Hv, Hn, Hfuel. destruct fuel as [|fuel]; [lia|].
  destruct fields as [|[key' v'] fields].
  - change (Json.join ?sep (map ?f [(key, v)])) with (f (key, v)).
    cbv beta. simpl fst. simpl snd.
    assert (Hclosed : closed (Json.newline_indent level ++ "}"%char :: rest))
      by apply closed_newline_indent.
    remember (Json.newline_indent level ++ "}"%char :: rest) as more eqn:Hmore.
    destruct (parse_entry b level fuel key v more)
      as (tail & -> & Hentry); try assumption; try lia.
    rewrite parse_fields_step.
    destruct (Json.scan_string tail) as [[k s1]|]; [|discriminate].
    destruct (Json.skip_spaces s1) as [|c1 s2]; [discriminate|].
    destruct (Ascii.eqb c1 ":"); [|discriminate].
    destruct (jparse fuel (Json.skip_spaces s2)) as [[w after]|]; [|discriminate].
    injection Hentry as -> -> ->. subst more.
    rewrite skip_newline_indent. reflexivity.
  - change (Json.join ?sep (map ?f ((key, v) :: (key', v') :: fields)))
      with (f (key, v) ++ sep ++ Json.join sep (map f ((key', v') :: fields))).
    cbv beta. simpl fst. simpl snd.
    set (others := Json.join ("," :: Json.newline_indent (S level))%char
                     (map (fun kv => Json.dump_string b (fst kv)
                                       ++ Json.chars ": "
                                       ++ jdump b (S level) (snd kv))
                          ((key', v') :: fields))).
    assert (Hothers : forall more, Json.skip_spaces (others ++ more) = others ++ more)
      by (intros more; unfold others; destruct fields; reflexivity).
    remember (Json.newline_indent (S level) ++ others
                ++ Json.newline_indent level ++ "}"%char :: rest)
      as more eqn:Hmore.
    replace (((Json.dump_string b key ++ Json.chars ": " ++ jdump b (S level) v)
                ++ ("," :: Json.newline_indent (S level))%char ++ others)
               ++ Json.newline_indent level ++ "}"%char :: rest)
      with ((Json.dump_string b key ++ Json.chars ": " ++ jdump b (S level) v)
              ++ ","%char :: more)
      by (subst more; rewrite <- !app_assoc; reflexivity).
    destruct (parse_entry b level fuel key v (","%char :: more))
      as (tail & -> & Hentry); try assumption; try lia; [reflexivity|].
    rewrite parse_fields_step.
    destruct (Json.scan_string tail) as [[k s1]|]; [|discriminate].
    destruct (Json.skip_spaces s1) as [|c1 s2]; [discriminate|].
    destruct (Ascii.eqb c1 ":"); [|discriminate].
    destruct (jparse fuel (Json.skip_spaces s2)) as [[w after]|]; [|discriminate].
    injection Hentry as -> -> ->.
    rewrite skip_comma.
    change (Ascii.eqb "," "}") with false.
    change (Ascii.eqb "," ",") with true. cbv iota.
    subst more. rewrite skip_newline_indent, Hothers. unfold others.
    rewrite IH; try assumption; try discriminate; [reflexivity| |];
      simpl in *; lia.
Qed.

End Nested.

(** The decoder reads back what the encoder wrote for a value, given
    fuel for its nested calls, when what follows does not go on as a
    number. *)
Lemma parse_dump :
  forall n v, Json.size v <= n -> jnative v ->
  forall b level fuel rest,
    Json.size v <= fuel -> closed rest ->
    jparse fuel (jdump b level v ++ rest) = Some (v, rest).
Proof.
  induction n as [|n IH]; intros v Hn Hv b level fuel rest Hfuel Hrest.
  { pose proof (size_positive v). lia. }
  destruct fuel as [|fuel]; [pose proof (size_positive v); lia|].
  destruct v as [|[]|z|[q| |[]]|s|[|x items]|[|kv fields]];
    try reflexivity.
  - destruct (dump_int_head z) as (c & tail & Hz & Hc).
    simpl jdump. rewrite Hz. simpl app. rewrite (parse_unfold _ _ _ Hc).
    change (c :: tail ++ rest) with ((c :: tail) ++ rest).
    rewrite <- Hz. now apply scan_dump_int.
  - destruct Hv as [Hlit Hfloat].
    destruct (float_literal_head _ Hlit) as (c & tail & Hq & Hc).
    simpl jdump. rewrite Hq. simpl app. rewrite (parse_unfold _ _ _ Hc).
    change (c :: tail ++ rest) with ((c :: tail) ++ rest).
    rewrite <- Hq, (scan_float_literal _ _ Hlit Hrest), Hfloat. reflexivity.
  - destruct (scan_dump_string b s rest) as (tail & Htail & Hscan).
    simpl jdump. rewrite Htail. simpl. rewrite Hscan, text_chars. reflexivity.
  - apply native_items in Hv.
    assert (Hitems :
              jparse_items fuel
                (Json.join ("," :: Json.newline_indent (S level))%char
                           (map (jdump b (S level)) (x :: items))
                   ++ Json.newline_indent level ++ "]"%char :: rest)
              = Some (x :: items, rest)).
    { apply (parse_items_dump n IH); try assumption; try discriminate;
        simpl in Hn, Hfuel; simpl; lia. }
    assert (Hx : jnative x) by now apply Forall_cons in Hv as [? _].
    destruct (dump_head b (S level) x Hx) as (c & tail & Hdump & Hc & Hclose & _).
    assert (Hstart :
              exists more,
                Json.join ("," :: Json.newline_indent (S level))%char
                          (map (jdump b (S level)) (x :: items))
                  ++ Json.newline_indent level ++ "]"%char :: rest
                = c :: more).
    { destruct items; simpl Json.join; simpl map; rewrite Hdump; eexists;
        reflexivity. }
    destruct Hstart as [more Hstart].
    assert (Hshape :
              jdump b level (JArr (x :: items)) ++ rest
              = "["%char :: Json.newline_indent (S level)
                  ++ Json.join ("," :: Json.newline_indent (S level))%char
                               (map (jdump b (S level)) (x :: items))
                  ++ Json.newline_indent level ++ "]"%char :: rest).
    { change (jdump b level (JArr (x :: items)))
        with ("["%char :: Json.newline_indent (S level)
                ++ Json.join ("," :: Json.newline_indent (S level))%char
                             (map (jdump b (S level)) (x :: items))
                ++ Json.newline_indent level ++ ["]"%char]).
      rewrite <- app_comm_cons, <- !app_assoc. reflexivity. }
    rewrite Hshape.
    change (jparse (S fuel) ("["%char :: ?s))
      with (match Json.skip_spaces s with
            | [] => None
            | c1 :: rest1 =>
                if Ascii.eqb c1 "]" then Some (JArr [], rest1)
                else match jparse_items fuel (c1 :: rest1) with
                     | Some (items', after) => Some (JArr items', after)
                     | None => None
                     end
            end).
    rewrite skip_newline_indent, Hstart, (skip_spaces_none _ _ Hc), Hclose,
      <- Hstart, Hitems.
    reflexivity.
  - apply native_fields in Hv as [Hkeys Hv].
    assert (Hfields :
              jparse_fields fuel
                (Json.join ("," :: Json.newline_indent (S level))%char
                           (map (fun kv => Json.dump_string b (fst kv)
                                             ++ Json.chars ": "
                                             ++ jdump b (S level) (snd kv))
                                (kv :: fields))
                   ++ Json.newline_indent level ++ "}"%char :: rest)
              = Some (kv :: fields, rest)).
    { apply (parse_fields_dump n IH); try assumption; try discriminate;
        simpl in Hn, Hfuel; simpl; lia. }
    assert (Hstart :
              exists more,
                Json.join ("," :: Json.newline_indent (S level))%char
                          (map (fun kv => Json.dump_string b (fst kv)
                                            ++ Json.chars ": "
                                            ++ jdump b (S level) (snd kv))
                               (kv :: fields))
                  ++ Json.newline_indent level ++ "}"%char :: rest
                = Json.quote :: more).
    { destruct fields; eexists; reflexivity. }
    destruct Hstart as [more Hstart].
    assert (Hshape :
              jdump b level (JObj (kv :: fields)) ++ rest
              = "{"%char :: Json.newline_indent (S level)
                  ++ Json.join ("," :: Json.newline_indent (S level))%char
                               (map (fun kv => Json.dump_string b (fst kv)
                                                 ++ Json.chars ": "
                                                 ++ jdump b (S level) (snd kv))
                                    (kv :: fields))
                  ++ Json.newline_indent level ++ "}"%char :: rest).
    { change (jdump b level (JObj (kv :: fields)))
        with ("{"%char :: Json.newline_indent (S level)
                ++ Json.join ("," :: Json.newline_indent (S level))%char
                             (map (fun kv => Json.dump_string b (fst kv)
                                               ++ Json.chars ": "
                                               ++ jdump b (S level) (snd kv))
                                  (kv :: fields))
                ++ Json.newline_indent level ++ ["}"%char]).
      rewrite <- app_comm_cons, <- !app_assoc. reflexivity. }
    rewrite Hshape.
    change (jparse (S fuel) ("{"%char :: ?s))
      with (match Json.skip_spaces s with
            | [] => None
            | c1 :: rest1 =>
                if Ascii.eqb c1 "}" then Some (JObj [], rest1)
                else match jparse_fields fuel (c1 :: rest1) with
                     | Some (pairs, after) =>
                         Some (JObj (Json.dict_of_pairs pairs), after)
                     | None => None
                     end
            end).
    rewrite skip_newline_indent, Hstart.
    change (Json.skip_spaces (Json.quote :: more)) with (Json.quote :: more).
    change (Ascii.eqb Json.quote "}") with false. cbv iota.
    rewrite <- Hstart, Hfields, (dict_of_distinct_pairs _ Hkeys).
    reflexivity.
Qed.

(** The length of the text is fuel enough. *)
Lemma weight_member {A} (w : A -> nat) (l : list A) (a : A) :
  a ∈ l -> S (w a) <= list_sum (map (fun a => S (w a)) l).
Proof.
  induction l as [|a' l IH]; intros Ha; [now apply elem_of_nil in Ha|].
  apply elem_of_cons in Ha as [->|Ha]; simpl; [lia|].
  specialize (IH Ha). lia.
Qed.

Lemma weight_le_join {A} (w : A -> nat) (f : A -> list ascii) (sep : list ascii)
      (l : list A) :
  2 <= length sep ->
  Forall (fun a => w a <= S (length (f a))) l ->
  list_sum (map (fun a => S (w a)) l) <= 2 + length (Json.join sep (map f l)).
Proof.
  intros Hsep. induction l as [|a l IH]; intros Hl; simpl; [lia|].
  apply Forall_cons in Hl as [Ha Hl]. specialize (IH Hl).
  destruct l as [|a' l]; simpl in *; [lia|].
  rewrite !length_app. simpl in *. lia.
Qed.

Lemma size_le_length :
  forall n v, Json.size v <= n ->
  forall b level, Json.size v <= S (length (jdump b level v)).
Proof.
  induction n as [|n IH]; intros v Hn b level.
  { pose proof (size_positive v). lia. }
  destruct v as [| | | | |[|x items]|[|kv fields]]; try (simpl; lia).
  - assert (Hitems : Forall (fun y => Json.size y <= S (length (jdump b (S level) y)))
                            (x :: items)).
    { apply Forall_forall. intros y Hy. apply IH.
      apply (weight_member Json.size) in Hy. simpl in Hn, Hy. lia. }
    apply (weight_le_join Json.size (jdump b (S level))
             ("," :: Json.newline_indent (S level))%char) in Hitems;
      [|simpl; lia].
    change (jdump b level (JArr (x :: items)))
      with ("["%char :: Json.newline_indent (S level)
              ++ Json.join ("," :: Json.newline_indent (S level))%char
                           (map (jdump b (S level)) (x :: items))
              ++ Json.newline_indent level ++ ["]"%char]).
    change (Json.size (JArr (x :: items)))
      with (S (list_sum (map (fun y => S (Json.size y)) (x :: items)))).
    rewrite length_cons, !length_app, (length_cons _ []). lia.
  - assert (Hfields :
              Forall (fun kv => Json.size (snd kv)
                                <= S (length (Json.dump_string b (fst kv)
                                                ++ Json.chars ": "
                                                ++ jdump b (S level) (snd kv))))
                     (kv :: fields)).
    { apply Forall_forall. intros [k y] Hy. cbn [fst snd].
      apply (weight_member (fun kv => Json.size (snd kv))) in Hy.
      simpl in Hn, Hy.
      pose proof (IH y ltac:(lia) b (S level)) as Hsize.
      rewrite !length_app. lia. }
    apply (weight_le_join (fun kv => Json.size (snd kv)) _
             ("," :: Json.newline_indent (S level))%char) in Hfields;
      [|simpl; lia].
    change (jdump b level (JObj (kv :: fields)))
      with ("{"%char :: Json.newline_indent (S level)
              ++ Json.join ("," :: Json.newline_indent (S level))%char
                           (map (fun kv => Json.dump_string b (fst kv)
                                             ++ Json.chars ": "
                                             ++ jdump b (S level) (snd kv))
                                (kv :: fields))
              ++ Json.newline_indent level ++ ["}"%char]).
    change (Json.size (JObj (kv :: fields)))
      with (S (list_sum (map (fun kv => S (Json.size (snd kv))) (kv :: fields)))).
    rewrite length_cons, !length_app, (length_cons _ []). lia.
Qed.

(** The round trip of the codec: [json.loads(json.dumps(v, indent=2,
    ensure_ascii=b))] is [v], for every value that comes from Python
    objects. *)
Lemma loads_dumps (b : bool) (v : json) :
  jnative v ->
  Json.loads float_of_literal describe (Json.dumps float_repr b v) = Ok v.
Proof.
  intros Hv. unfold Json.loads, Json.decode, Json.dumps.
  rewrite chars_text, length_text.
  destruct (dump_head b 0 v Hv) as (c & tail & Hdump & Hc & _).
  assert (Hskip : Json.skip_spaces (jdump b 0 v) = jdump b 0 v)
    by (rewrite Hdump; now apply skip_spaces_none).
  pose proof (parse_dump (Json.size v) v (le_n _) Hv b 0
                (S (length (jdump b 0 v))) []
                (size_le_length (Json.size v) v (le_n _) b 0) I) as Hparse.
  rewrite app_nil_r in Hparse. rewrite Hskip, Hparse. reflexivity.
Qed.

End JsonFacts.

(** ** main.py *)

Section MainFacts.

Import OpenAIAnalyzer.

Variable Client : Type.
Variable create : Client -> request -> result response * Client.
Variable json_loads : string -> result json.
Variable json_dumps : bool -> json -> string.
Variable Datetime : Type.
Variable strftime_minute : Datetime -> string.

Abbreviation analyze_and_report :=
  (Main.analyze_and_report Client create json_loads json_dumps).
Abbreviation load_posts := (Main.load_posts json_loads).
Abbreviation save_raw_data := (Main.save_raw_data Datetime json_dumps strftime_minute).
Abbreviation raw_filename := (Main.raw_filename Datetime strftime_minute).

Lemma display_no_problems_report :
  Main.display_top_findings no_problems_report = Ok tt.
Proof. reflexivity. Qed.

(** C6. Given an empty problem sequence, the Summarizer returns the
    report [{error: No problems identified}]: it does not raise and it
    sends no request (the session, with its record of requests, is
    unchanged).  The Report Writer then writes that report at
    [<output>.json]: when the batches of a run gave no problem, [main]
    ends normally with the report in that file. *)
Theorem empty_problems_error_report_written
        (s : OpenAIAnalyzer.session Client) (fs : gmap string string)
        (posts : list post) (output : string) :
  OpenAIAnalyzer._summarize_problems Client create json_loads json_dumps s []
  = (Ok no_problems_report, s)
  /\ Py.contains "error" no_problems_report = Ok true
  /\ generate_report json_dumps fs no_problems_report (output +:+ ".json")
       !! (output +:+ ".json")
     = Some (json_dumps false no_problems_report)
  /\ (forall indices s1,
        py_range 0 (Z.of_nat (length posts)) 10 = Ok indices ->
        OpenAIAnalyzer.analyze_loop Client create json_loads s [] posts 10 indices
        = (Ok [], s1) ->
        analyze_and_report s fs posts output
        = (Main.Continue tt, s1,
           <[output +:+ ".json" := json_dumps false no_problems_report]> fs)).
Proof.
  split; [reflexivity|]. split; [reflexivity|].
  split; [apply lookup_insert_eq|].
  intros indices s1 Hrange Hloop.
  unfold Main.analyze_and_report, OpenAIAnalyzer.analyze_recruitment_problems.
  rewrite Hrange, Hloop. simpl. reflexivity.
Qed.

Lemma loaded_fields (p : post) :
  Main.loaded_id (Main.json_of_post p) = Ok (JStr (p_id p))
  /\ Main.loaded_comment_count (Main.json_of_post p)
     = Ok (Z.of_nat (length (p_comments p))).
Proof.
  split; [reflexivity|].
  unfold Main.loaded_comment_count. simpl. now rewrite length_map.
Qed.

(** What the raw-save path wrote is what the load path reads, for a
    codec that reads back the text it writes for these posts. *)
Lemma saved_posts_load_back
      (fs : gmap string string) (now : Datetime) (posts : list post) :
  posts <> [] ->
  json_loads (json_dumps false (Main.json_of_posts posts))
  = Ok (Main.json_of_posts posts) ->
  load_posts (save_raw_data fs now true posts) (raw_filename now)
  = Main.Continue (Main.json_of_posts posts).
Proof.
  intros Hne Hcodec.
  unfold Main.load_posts, Main.save_raw_data.
  destruct posts as [|p rest]; [contradiction|].
  rewrite lookup_insert_eq, Hcodec. reflexivity.
Qed.

Lemma loaded_posts_fields (posts : list post) :
  Forall2 (fun loaded_post p =>
             Main.loaded_id loaded_post = Ok (JStr (p_id p))
             /\ Main.loaded_comment_count loaded_post
                = Ok (Z.of_nat (length (p_comments p))))
          (array_items (Main.json_of_posts posts)) posts.
Proof.
  simpl. induction posts as [|p rest IH]; simpl; constructor;
    [apply loaded_fields|assumption].
Qed.

End MainFacts.

(** ** main.py: the raw data, saved and loaded *)

Section RoundTrip.

Import OpenAIAnalyzer.

Variable float_repr : Q -> string.
Variable float_of_literal : string -> pyfloat.
Variable describe : string -> string.
Variable Datetime : Type.
Variable strftime_minute : Datetime -> string.

Lemma distinct_post_keys (p : post) :
  NoDup (map fst match Main.json_of_post p with JObj fields => fields | _ => [] end).
Proof. simpl. apply (bool_decide_unpack _). vm_compute. exact I. Qed.

Lemma distinct_comment_keys (c : comment) :
  NoDup (map fst match Main.json_of_comment c with JObj fields => fields | _ => [] end).
Proof. simpl. apply (bool_decide_unpack _). vm_compute. exact I. Qed.

(** The posts of the fetcher, as [json.dump] gets them, are values that
    the codec reads back. *)
Lemma native_posts (posts : list post) :
  Main.timestamps_read_back float_repr float_of_literal posts ->
  Json.native float_repr float_of_literal (Main.json_of_posts posts).
Proof.
  intros Hposts. unfold Main.json_of_posts. apply native_items.
  apply Forall_map. eapply Forall_impl; [exact Hposts|].
  intros p [Hcreated Hcomments]. apply native_fields.
  split; [apply distinct_post_keys|].
  repeat (apply Forall_cons; split); try apply Forall_nil; try exact I.
  - exact Hcreated.
  - simpl snd. apply native_items. apply Forall_map.
    eapply Forall_impl; [exact Hcomments|].
    intros c Hc. apply native_fields. split; [apply distinct_comment_keys|].
    repeat (apply Forall_cons; split); try apply Forall_nil; try exact I.
    exact Hc.
Qed.

(** C9, amended. For every non-empty post sequence, once the raw-save
    path has written it ([json.dump] with [indent=2] and
    [ensure_ascii=False]), the load path ([json.load]) reads back the
    same sequence of post records, with the same identifiers and the
    same comment counts.  The creation times are floats that
    [float(repr(t))] reads back, as every finite float is. *)
Theorem raw_data_round_trip
        (fs : gmap string string) (now : Datetime) (posts : list post) :
  posts <> [] ->
  Main.timestamps_read_back float_repr float_of_literal posts ->
  exists loaded,
    Main.load_posts (Json.loads float_of_literal describe)
      (Main.save_raw_data Datetime (Json.dumps float_repr) strftime_minute
         fs now true posts)
      (Main.raw_filename Datetime strftime_minute now)
    = Main.Continue loaded
    /\ loaded = Main.json_of_posts posts
    /\ Forall2 (fun loaded_post p =>
                  Main.loaded_id loaded_post = Ok (JStr (p_id p))
                  /\ Main.loaded_comment_count loaded_post
                     = Ok (Z.of_nat (length (p_comments p))))
               (array_items loaded) posts.
Proof.
  intros Hne Hfloats. exists (Main.json_of_posts posts).
  split; [|split; [reflexivity|apply loaded_posts_fields]].
  apply saved_posts_load_back; [exact Hne|].
  apply loads_dumps. now apply native_posts.
Qed.

End RoundTrip.

(** ** Examples on the sample collaborators *)

Section Examples.

Import OpenAIAnalyzer.

Abbreviation Script := (list (result response)).

(** C2 on the two sample posts: one batch. *)
Lemma batches_partition_posts_witness :
  exists indices,
    py_range 0 (Z.of_nat (length Sample.posts)) 10 = Ok indices
    /\ length (batches_of Sample.posts 10 indices) = 1
    /\ concat (batches_of Sample.posts 10 indices) = Sample.posts.
Proof.
  destruct (batches_partition_posts Script Sample.scripted_create Sample.loads
              Sample.dumps (Sample.session_of []) Sample.posts)
    as (indices & Hrange & Hlen & _ & _ & _ & Hconcat & _).
  exists indices. split; [exact Hrange|]. split; [exact Hlen|exact Hconcat].
Defined.



(** C7 on a client whose call raises. *)
Lemma summarizer_reports_capability_error_witness :
  [JStr "ghosting"] <> []
  /\ Sample.scripted_create [] (summary_request Sample.dumps [JStr "ghosting"])
     = (Raise Sample.connection_error, [])
  /\ fst (_summarize_problems Script Sample.scripted_create Sample.loads
            Sample.dumps (Sample.session_of []) [JStr "ghosting"])
     = Ok (JObj [("error", JStr "Connection error.")]).
Proof.
  assert (Hne : [JStr "ghosting"] <> []) by discriminate.
  assert (Hcall : Sample.scripted_create (client Script (Sample.session_of []))
                    (summary_request Sample.dumps [JStr "ghosting"])
                  = (Raise Sample.connection_error, [])) by reflexivity.
  split; [exact Hne|]. split; [exact Hcall|].
  destruct (summarizer_reports_capability_error Script Sample.scripted_create
              Sample.loads Sample.dumps (Sample.session_of []) [JStr "ghosting"]
              Sample.connection_error [] Hne Hcall) as (Hsum & _ & _).
  rewrite Hsum. reflexivity.
Defined.

(** C6 on a run in which the only batch fails: the error report is
    written at the output path. *)
Lemma empty_problems_error_report_written_witness :
  py_range 0 (Z.of_nat (length Sample.posts)) 10 = Ok [0%Z]
  /\ fst (analyze_loop Script Sample.scripted_create Sample.loads
            (Sample.session_of []) [] Sample.posts 10 [0%Z]) = Ok []
  /\ fst (fst (Main.analyze_and_report Script Sample.scripted_create Sample.loads
                 Sample.dumps (Sample.session_of []) ∅ Sample.posts
                 Sample.output_prefix))
     = Main.Continue tt
  /\ snd (Main.analyze_and_report Script Sample.scripted_create Sample.loads
            Sample.dumps (Sample.session_of []) ∅ Sample.posts Sample.output_prefix)
       !! "recruitment_problems_report.json"
     = Some (Sample.dumps false no_problems_report).
Proof.
  assert (Hrange : py_range 0 (Z.of_nat (length Sample.posts)) 10 = Ok [0%Z])
    by reflexivity.
  assert (Hloop : analyze_loop Script Sample.scripted_create Sample.loads
                    (Sample.session_of []) [] Sample.posts 10 [0%Z]
                  = (Ok [], snd (analyze_loop Script Sample.scripted_create
                                   Sample.loads (Sample.session_of []) []
                                   Sample.posts 10 [0%Z])))
    by (vm_compute; reflexivity).
  split; [exact Hrange|]. split; [now rewrite Hloop|].
  destruct (empty_problems_error_report_written Script Sample.scripted_create
              Sample.loads Sample.dumps (Sample.session_of []) ∅ Sample.posts
              Sample.output_prefix)
    as (_ & _ & _ & Hmain).
  rewrite (Hmain _ _ Hrange Hloop). split; [reflexivity|].
  apply lookup_insert_eq.
Defined.

(** C9, amended, on the two sample posts. *)
Lemma raw_data_round_trip_witness :
  Sample.posts <> []
  /\ Main.timestamps_read_back Sample.float_repr Sample.float_of_literal
       Sample.posts
  /\ Main.load_posts (Json.loads Sample.float_of_literal Sample.describe)
       (Main.save_raw_data Q (Json.dumps Sample.float_repr)
          Sample.strftime_minute ∅ Sample.now true Sample.posts)
       (Main.raw_filename Q Sample.strftime_minute Sample.now)
     = Main.Continue (Main.json_of_posts Sample.posts).
Proof.
  assert (Hne : Sample.posts <> []) by (vm_compute; discriminate).
  assert (Hfloats : Main.timestamps_read_back Sample.float_repr
                      Sample.float_of_literal Sample.posts).
  { unfold Main.timestamps_read_back.
    repeat (apply Forall_cons; split; [|]); try apply Forall_nil;
      repeat split; try (vm_compute; reflexivity);
      repeat (apply Forall_cons; split; [|]); try apply Forall_nil;
      split; vm_compute; reflexivity. }
  split; [exact Hne|]. split; [exact Hfloats|].
  destruct (raw_data_round_trip Sample.float_repr Sample.float_of_literal
              Sample.describe Q Sample.strftime_minute ∅ Sample.now
              Sample.posts Hne Hfloats)
    as (loaded & Hload & -> & _).
  exact Hload.
Defined.

(** C9 as stated fails on the empty sequence.  Whatever the files are,
    the raw-save path writes nothing for it ([if save_raw and posts]),
    so the load path reads what was at that name before: with no such
    file the process exits with code 1, although the codec reads back
    what it writes for the empty list. *)
Lemma raw_data_round_trip_fails_on_empty :
  (forall fs : gmap string string,
     Main.save_raw_data Q (Json.dumps Sample.float_repr) Sample.strftime_minute
       fs Sample.now true []
     = fs)
  /\ Json.loads Sample.float_of_literal Sample.describe
       (Json.dumps Sample.float_repr false (Main.json_of_posts []))
     = Ok (Main.json_of_posts [])
  /\ Main.load_posts (Json.loads Sample.float_of_literal Sample.describe)
       (Main.save_raw_data Q (Json.dumps Sample.float_repr)
          Sample.strftime_minute ∅ Sample.now true [])
       (Main.raw_filename Q Sample.strftime_minute Sample.now)
     = Main.Exit 1
  /\ Main.load_posts (Json.loads Sample.float_of_literal Sample.describe)
       (Main.save_raw_data Q (Json.dumps Sample.float_repr)
          Sample.strftime_minute ∅ Sample.now true [])
       (Main.raw_filename Q Sample.strftime_minute Sample.now)
     <> Main.Continue (Main.json_of_posts []).
Proof.
  split; [reflexivity|]. split; [vm_compute; reflexivity|].
  assert (Hload : Main.load_posts
                    (Json.loads Sample.float_of_literal Sample.describe)
                    (Main.save_raw_data Q (Json.dumps Sample.float_repr)
                       Sample.strftime_minute ∅ Sample.now true [])
                    (Main.raw_filename Q Sample.strftime_minute Sample.now)
                  = Main.Exit 1).
  { unfold Main.load_posts, Main.save_raw_data. now rewrite lookup_empty. }
  split; [exact Hload|]. rewrite Hload. discriminate.
Qed.

(** *** The pipeline on small inputs *)

Example range_of_25_posts : py_range 0 25 10 = Ok [0%Z; 10%Z; 20%Z].
Proof. reflexivity. Qed.

Example batch_sizes_of_25_posts :
  map length (batches_of (repeat (RedditFetcher._extract_post_data Sample.isoformat
                                    (Sample.sub "a1" 1700000000)) 25)
                10 [0%Z; 10%Z; 20%Z])
  = [10; 10; 5].
Proof. reflexivity. Qed.

(** Two batches of one post whose replies carry one and two problems:
    the three problems come out in batch order, and the summary request
    is the third request sent. *)
Example problems_are_accumulated :
  analyze_loop Script Sample.scripted_create Sample.loads
    (Sample.session_of
       [Sample.problems_reply (JArr [JStr "ghosting"]);
        Sample.problems_reply (JArr [JStr "lowball offer"; JStr "fake posting"])])
    [] Sample.posts 1 [0%Z; 1%Z]
  = (Ok [JStr "ghosting"; JStr "lowball offer"; JStr "fake posting"],
     {| client := [];
        sent := [batch_request (slice Sample.posts 0 1);
                 batch_request (slice Sample.posts 1 2)] |}).
Proof. vm_compute. reflexivity. Qed.

(** A reply that is a bare array parses, but has no [get]: the batch
    contributes nothing. *)
Example bare_array_reply_is_dropped :
  fst (_analyze_batch Script Sample.scripted_create Sample.loads
         (Sample.session_of [Sample.reply (Sample.dump (JArr [JStr "ghosting"]))])
         Sample.posts)
  = Ok (JArr []).
Proof. vm_compute. reflexivity. Qed.

(** A reply whose [problems] is a non-zero number is returned as it is
    by [_analyze_batch]; [extend] then raises, and the exception leaves
    [analyze_recruitment_problems]. *)
Example number_of_problems_raises :
  fst (_analyze_batch Script Sample.scripted_create Sample.loads
         (Sample.session_of [Sample.problems_reply (JInt 5)]) Sample.posts)
  = Ok (JInt 5)
  /\ fst (analyze_recruitment_problems Script Sample.scripted_create Sample.loads
            Sample.dumps (Sample.session_of [Sample.problems_reply (JInt 5)])
            Sample.posts 10)
     = Raise (Py.type_error "object is not iterable").
Proof. split; vm_compute; reflexivity. Qed.

End Examples.

(** * Further properties of the code *)

(** ** reddit_fetcher.py *)

Section FetcherMore.

Variable Datetime : Type.
Variable minus_days : Datetime -> Z -> Datetime.
Variable timestamp : Datetime -> Q.
Variable isoformat : Q -> string.
Variable Forum : Type.
Variable subreddit_new : Forum -> list submission * Forum.
Variable submission_comments : Forum -> string -> list thing * Forum.

Abbreviation extract_post := (RedditFetcher._extract_post_data isoformat).
Abbreviation extract_comment := (RedditFetcher.extract_comment isoformat).
Abbreviation posts_loop := (RedditFetcher.fetch_posts_loop isoformat).
Abbreviation cutoff_of :=
  (RedditFetcher.cutoff_timestamp Datetime minus_days timestamp).
Abbreviation fetch_posts' :=
  (RedditFetcher.fetch_posts Datetime minus_days timestamp isoformat Forum subreddit_new).
Abbreviation collect := (RedditFetcher.collect_comments isoformat).
Abbreviation fetch_comments' :=
  (RedditFetcher.fetch_comments isoformat Forum submission_comments).
Abbreviation fetch_all_content' :=
  (RedditFetcher.fetch_all_content Datetime minus_days timestamp isoformat
     Forum subreddit_new submission_comments).

(** With a limit other than zero, the loop fills the list up to the
    limit from the submissions inside the window. *)
Lemma fetch_posts_loop_limited cutoff n stream : forall posts,
  n <> 0%Z ->
  posts_loop cutoff (Some n) posts stream
  = posts ++ map extract_post
               (take (Z.to_nat n - length posts)
                     (RedditFetcher.within_window cutoff stream)).
Proof.
  intros posts Hn. revert posts.
  induction stream as [|s rest IH]; intros posts; simpl.
  - now rewrite take_nil, app_nil_r.
  - destruct (RedditFetcher.Qltb (s_created_utc s) cutoff).
    + now rewrite take_nil, app_nil_r.
    + destruct (n =? 0)%Z eqn:H0; [apply Z.eqb_eq in H0; contradiction|]. simpl.
      destruct (n <=? Z.of_nat (length posts))%Z eqn:Hfull.
      * apply Z.leb_le in Hfull.
        replace (Z.to_nat n - length posts) with 0 by lia.
        now rewrite app_nil_r.
      * apply Z.leb_gt in Hfull. rewrite IH, length_app. simpl.
        replace (Z.to_nat n - length posts)
          with (S (Z.to_nat n - (length posts + 1))) by lia.
        simpl. now rewrite <- app_assoc.
Qed.

(** X1. With a limit N other than 0, [fetch_posts] returns the first N
    submissions of the listing that come before the first one older than
    the cutoff, in listing order (none when N is negative). *)
Theorem fetch_posts_takes_first_in_window
        (now : Datetime) (f : Forum) (lookback_days n : Z) :
  n <> 0%Z ->
  fst (fetch_posts' now f lookback_days (Some n))
  = map extract_post
      (take (Z.to_nat n)
            (RedditFetcher.within_window (cutoff_of now lookback_days)
               (fst (subreddit_new f)))).
Proof.
  intros Hn. unfold RedditFetcher.fetch_posts.
  destruct (subreddit_new f) as [stream f']. simpl.
  unfold RedditFetcher.fetch_posts_from.
  rewrite fetch_posts_loop_limited by assumption. simpl.
  now rewrite Nat.sub_0_r.
Qed.

(** X2. On a listing that is newest first and with no limit,
    [fetch_posts] returns every submission of the listing that is not
    older than the cutoff: stopping at the first old one loses none. *)
Theorem fetch_posts_complete_when_newest_first
        (now : Datetime) (f : Forum) (lookback_days : Z) :
  RedditFetcher.newest_first (fst (subreddit_new f)) ->
  fst (fetch_posts' now f lookback_days None)
  = map extract_post
      (RedditFetcher.in_window (cutoff_of now lookback_days) (fst (subreddit_new f))).
Proof.
  intros Hsorted. unfold RedditFetcher.fetch_posts.
  destruct (subreddit_new f) as [stream f']. simpl in *.
  unfold RedditFetcher.fetch_posts_from.
  rewrite (fetch_posts_loop_unlimited isoformat) by reflexivity. simpl.
  now rewrite within_window_newest_first.
Qed.

(** The comment loop, from any point: it completes the list with the
    live comments that follow, as far as the cap allows. *)
Lemma collect_comments_live cap things : forall comments,
  collect cap comments (Z.of_nat (length comments)) things
  = comments ++ map extract_comment
                  (take (Z.to_nat cap - length comments)
                        (RedditFetcher.live_comments things)).
Proof.
  induction things as [|t rest IH]; intros comments; simpl.
  - now rewrite take_nil, app_nil_r.
  - destruct (cap <=? Z.of_nat (length comments))%Z eqn:Hfull.
    + apply Z.leb_le in Hfull.
      replace (Z.to_nat cap - length comments) with 0 by lia.
      now rewrite app_nil_r.
    + apply Z.leb_gt in Hfull.
      unfold RedditFetcher.live_comments. simpl.
      destruct t as [c|]; simpl; [|apply IH].
      destruct (String.eqb (fc_body c) removed_sentinel); simpl; [apply IH|].
      replace (Z.of_nat (length comments) + 1)%Z
        with (Z.of_nat (length (comments ++ [extract_comment c])))
        by (rewrite length_app; simpl; lia).
      rewrite IH, length_app. simpl.
      replace (Z.to_nat cap - length comments)
        with (S (Z.to_nat cap - (length comments + 1))) by lia.
      simpl. now rewrite <- app_assoc.
Qed.

Lemma fetch_comments_attaches_first_live_step
      (f : Forum) (p : post) (rest : list post) (cap : Z) :
  fst (fetch_comments' f (p :: rest) cap)
  = set_comments p
      (map extract_comment
         (take (Z.to_nat cap)
               (RedditFetcher.live_comments (fst (submission_comments f (p_id p))))))
    :: fst (fetch_comments' (snd (submission_comments f (p_id p))) rest cap).
Proof.
  simpl. destruct (submission_comments f (p_id p)) as [things f1]. simpl.
  destruct (fetch_comments' f1 rest cap) as [rest' f2]. simpl.
  f_equal. f_equal.
  pose proof (collect_comments_live cap things []) as Hlive.
  change (Z.of_nat (length [])) with 0%Z in Hlive.
  rewrite Hlive. simpl. now rewrite Nat.sub_0_r.
Qed.

(** X3. The comments that [fetch_comments] attaches to a post are the
    first [max_comments_per_post] entries of its comment forest that
    are comments with a body other than [[deleted]], in forest order
    (none when the cap is zero or negative); placeholders and removed
    comments do not count towards the cap. *)
Theorem fetch_comments_attaches_first_live
        (f : Forum) (p : post) (rest : list post) (max_comments_per_post : Z) :
  fst (fetch_comments' f (p :: rest) max_comments_per_post)
  = set_comments p
      (map extract_comment
         (take (Z.to_nat max_comments_per_post)
               (RedditFetcher.live_comments (fst (submission_comments f (p_id p))))))
    :: fst (fetch_comments' (snd (submission_comments f (p_id p))) rest
              max_comments_per_post).
Proof. apply fetch_comments_attaches_first_live_step. Qed.

Lemma without_comments_set (p : post) (cs : list comment) :
  RedditFetcher.without_comments (set_comments p cs) = RedditFetcher.without_comments p.
Proof. reflexivity. Qed.

(** X4. [fetch_comments] returns the posts it was given, in the same
    order and number, changed in their comments only; the comments a post
    had before are replaced, not kept. *)
Theorem fetch_comments_replaces_comments_only
        (f : Forum) (posts : list post) (max_comments_per_post : Z) :
  map RedditFetcher.without_comments (fst (fetch_comments' f posts max_comments_per_post))
  = map RedditFetcher.without_comments posts
  /\ fetch_comments' f (map RedditFetcher.without_comments posts) max_comments_per_post
     = fetch_comments' f posts max_comments_per_post.
Proof.
  split.
  - revert f. induction posts as [|p rest IH]; intros f; simpl; [reflexivity|].
    destruct (submission_comments f (p_id p)) as [things f1].
    specialize (IH f1).
    destruct (fetch_comments' f1 rest max_comments_per_post) as [rest' f2].
    simpl in *. now rewrite IH.
  - revert f. induction posts as [|p rest IH]; intros f; simpl; [reflexivity|].
    destruct (submission_comments f (p_id p)) as [things f1].
    now rewrite IH.
Qed.

(** Every post that comes out of [fetch_comments] is the post that went
    in, with the first live comments of some forest attached. *)
Lemma fetch_comments_shape (posts : list post) (cap : Z) : forall f,
  Forall2 (fun p p' =>
             exists things,
               p' = set_comments p
                      (map extract_comment
                         (take (Z.to_nat cap) (RedditFetcher.live_comments things))))
          posts (fst (fetch_comments' f posts cap)).
Proof.
  induction posts as [|p rest IH]; intros f; [constructor|].
  rewrite fetch_comments_attaches_first_live_step. constructor; [eauto|apply IH].
Qed.

Lemma live_comments_clean (things : list thing) :
  Forall (fun c => fc_body c <> removed_sentinel) (RedditFetcher.live_comments things).
Proof.
  unfold RedditFetcher.live_comments.
  induction things as [|t rest IH]; simpl; [constructor|].
  destruct t as [c|]; simpl; [|exact IH].
  destruct (String.eqb (fc_body c) removed_sentinel) eqn:Hbody; [exact IH|].
  constructor; [now apply String.eqb_neq|exact IH].
Qed.

(** X5. What [fetch_all_content] returns keeps the guarantees of its two
    steps together: every post is inside the lookback window, carries at
    most [max_comments_per_post] comments, none of them removed, and
    there are at most [post_limit] posts when that limit is positive. *)
Theorem fetch_all_content_guarantees
        (now : Datetime) (f : Forum) (lookback_days : Z) (post_limit : option Z)
        (max_comments_per_post : Z) :
  (0 <= max_comments_per_post)%Z ->
  Forall (fun p =>
            (cutoff_of now lookback_days <= p_created_utc p)%Q
            /\ (Z.of_nat (length (p_comments p)) <= max_comments_per_post)%Z
            /\ Forall (fun c => c_body c <> removed_sentinel) (p_comments p))
         (fst (fetch_all_content' now f lookback_days post_limit max_comments_per_post))
  /\ (forall n, post_limit = Some n -> (0 < n)%Z ->
        (Z.of_nat (length (fst (fetch_all_content' now f lookback_days post_limit
                                   max_comments_per_post))) <= n)%Z).
Proof.
  intros Hcap. unfold RedditFetcher.fetch_all_content, RedditFetcher.fetch_posts.
  destruct (subreddit_new f) as [stream f1].
  unfold RedditFetcher.fetch_posts_from.
  set (cutoff := cutoff_of now lookback_days).
  pose proof (fetch_posts_loop_window isoformat cutoff post_limit stream []
                (Forall_nil_2 _)) as Hwindow.
  assert (Hlimit : forall n, post_limit = Some n -> (0 < n)%Z ->
            (Z.of_nat (length (posts_loop cutoff post_limit [] stream)) <= n)%Z).
  { intros n -> Hn. apply fetch_posts_loop_limit; simpl; lia. }
  destruct (posts_loop cutoff post_limit [] stream) as [|p posts] eqn:Hposts.
  { simpl. split; [constructor|exact Hlimit]. }
  pose proof (fetch_comments_shape (p :: posts) max_comments_per_post f1) as Hshape.
  destruct (fetch_comments' f1 (p :: posts) max_comments_per_post) as [posts' f2].
  simpl fst in *. split.
  - clear Hlimit Hposts. revert Hwindow.
    induction Hshape as [|q q' qs qs' (things & ->) _ IH]; intros Hwindow;
      [constructor|].
    apply Forall_cons in Hwindow as [Hq Hqs].
    constructor; [|now apply IH]. simpl. split; [exact Hq|].
    split.
    + rewrite length_map, length_take. lia.
    + apply Forall_forall. intros c Hc.
      apply list_elem_of_In, in_map_iff in Hc as (fc & <- & Hfc). simpl.
      apply list_elem_of_In, elem_of_take in Hfc as (i & Hfc & _).
      pose proof (live_comments_clean things) as Hclean.
      rewrite Forall_forall in Hclean. apply Hclean.
      now apply list_elem_of_lookup_2 in Hfc.
  - intros n Hn Hpos. rewrite <- (Forall2_length _ _ _ Hshape).
    now apply Hlimit.
Qed.

End FetcherMore.

(** ** openai_analyzer.py *)

Section AnalyzerMore.

Import OpenAIAnalyzer.

Variable Client : Type.
Variable create : Client -> request -> result response * Client.
Variable json_loads : string -> result json.
Variable json_dumps : bool -> json -> string.

Abbreviation session' := (OpenAIAnalyzer.session Client).
Abbreviation analyze_batch' := (OpenAIAnalyzer._analyze_batch Client create json_loads).
Abbreviation loop' := (OpenAIAnalyzer.analyze_loop Client create json_loads).
Abbreviation results_of := (OpenAIAnalyzer.batch_results Client create json_loads).
Abbreviation summarize' :=
  (OpenAIAnalyzer._summarize_problems Client create json_loads json_dumps).
Abbreviation analyze' :=
  (OpenAIAnalyzer.analyze_recruitment_problems Client create json_loads json_dumps).

(** X6. For every positive batch size B, the loop of
    [analyze_recruitment_problems] cuts the posts into ceil(P/B)
    batches, none of them empty and none longer than B, which put end to
    end give the posts back. *)
Theorem batches_partition_any_size (posts : list post) (batch_size : Z) :
  (0 < batch_size)%Z ->
  exists indices,
    py_range 0 (Z.of_nat (length posts)) batch_size = Ok indices
    /\ Z.of_nat (length (batches_of posts batch_size indices))
       = ((Z.of_nat (length posts) + batch_size - 1) / batch_size)%Z
    /\ Forall (fun b => 0 < length b /\ (Z.of_nat (length b) <= batch_size)%Z)
              (batches_of posts batch_size indices)
    /\ concat (batches_of posts batch_size indices) = posts.
Proof.
  intros Hpos.
  destruct (batches_are_chunks posts (Z.to_nat batch_size)) as (indices & Hrange & Hb);
    [lia|].
  rewrite Z2Nat.id in Hrange, Hb by lia.
  exists indices. split; [exact Hrange|]. rewrite Hb.
  set (b := Z.to_nat batch_size) in *. set (P := length posts) in *.
  set (n := (P + b - 1) / b) in *.
  assert (Hb0 : 0 < b) by (unfold b; lia).
  assert (Hn : P <= b * n /\ (0 < n -> b * (n - 1) < P)).
  { pose proof (Nat.div_mod_eq (P + b - 1) b) as Hdm. fold n in Hdm.
    pose proof (Nat.mod_upper_bound (P + b - 1) b ltac:(lia)) as Hr.
    split; [lia|]. intros Hn0.
    replace (b * n) with (b * (n - 1) + b) in Hdm by nia. lia. }
  split; [|split].
  - rewrite length_map, length_seq. unfold n, P, b.
    rewrite Nat2Z.inj_div. f_equal; lia.
  - apply Forall_forall. intros chunk Hchunk.
    apply list_elem_of_In, in_map_iff in Hchunk as (k & <- & Hk).
    apply in_seq in Hk. rewrite length_chunk. fold P.
    assert (b * k <= b * (n - 1)) by (apply Nat.mul_le_mono_l; lia).
    destruct Hn as [_ Hn]. specialize (Hn ltac:(lia)). lia.
  - rewrite concat_chunks. apply take_ge. fold P. lia.
Qed.

(** X7. When there is no batch, [analyze_recruitment_problems] sends no
    request: a batch size of zero raises [ValueError] at once; a
    negative batch size, or an empty list of posts, gives the report
    [No problems identified]. *)
Theorem analysis_without_batches (s : session') (posts : list post) (batch_size : Z) :
  (batch_size = 0%Z ->
   exists e, analyze' s posts batch_size = (Raise e, s) /\ exn_kind e = ValueError)
  /\ ((batch_size < 0)%Z -> analyze' s posts batch_size = (Ok no_problems_report, s))
  /\ (batch_size <> 0%Z -> analyze' s [] batch_size = (Ok no_problems_report, s)).
Proof.
  unfold OpenAIAnalyzer.analyze_recruitment_problems. split; [|split].
  - intros ->. eexists. split; reflexivity.
  - intros Hneg. now rewrite py_range_negative_step.
  - intros Hne. destruct (Z.lt_ge_cases batch_size 0) as [Hneg|Hpos].
    + now rewrite (py_range_negative_step 0).
    + rewrite py_range_from_zero by lia.
      rewrite range_count_done by (simpl; lia). reflexivity.
Qed.

Lemma sent_after_call (s : session') (r : request) :
  sent Client (after_call Client create s r) = sent Client s ++ [r].
Proof.
  unfold after_call, chat_create. destruct (create (client Client s) r). reflexivity.
Qed.

(** The requests sent by the loop: one for each batch it reached. *)
Lemma analyze_loop_requests (posts : list post) (batch_size : Z) (indices : list Z) :
  forall s acc,
    exists k,
      k <= length indices
      /\ sent Client (snd (loop' s acc posts batch_size indices))
         = sent Client s
           ++ map batch_request (take k (batches_of posts batch_size indices))
      /\ ((exists all, fst (loop' s acc posts batch_size indices) = Ok all) ->
          k = length indices).
Proof.
  induction indices as [|i rest IH]; intros s acc; simpl.
  - exists 0. simpl. rewrite app_nil_r. auto.
  - destruct (analyze_batch_returns Client create json_loads s
                (slice posts i (i + batch_size))) as [v Hv].
    rewrite Hv.
    destruct (extend_if_truthy acc v) as [acc'|e]; simpl.
    + destruct (IH (after_call Client create s
                      (batch_request (slice posts i (i + batch_size)))) acc')
        as (k & Hk & Hsent & Hall).
      exists (S k). split; [lia|]. split.
      * rewrite Hsent, sent_after_call. simpl. now rewrite <- app_assoc.
      * intros Hok. f_equal. now apply Hall.
    + exists 1. split; [lia|]. split.
      * rewrite sent_after_call. reflexivity.
      * intros [all Hall]. discriminate.
Qed.

(** X8. [analyze_recruitment_problems] sends one request for each batch
    it reaches, in batch order, and after them at most one request, the
    summary request; no batch is sent twice.  When it returns a report,
    every batch was sent. *)
Theorem one_request_per_batch (s : session') (posts : list post) (batch_size : Z) :
  match py_range 0 (Z.of_nat (length posts)) batch_size with
  | Raise _ => snd (analyze' s posts batch_size) = s
  | Ok indices =>
      exists k tail,
        k <= length indices
        /\ sent Client (snd (analyze' s posts batch_size))
           = sent Client s
             ++ map batch_request (take k (batches_of posts batch_size indices))
             ++ tail
        /\ (tail = []
            \/ exists all, all <> [] /\ tail = [summary_request json_dumps all])
        /\ ((exists report, fst (analyze' s posts batch_size) = Ok report) ->
            k = length indices)
  end.
Proof.
  unfold OpenAIAnalyzer.analyze_recruitment_problems.
  destruct (py_range 0 (Z.of_nat (length posts)) batch_size) as [indices|e];
    [|reflexivity].
  destruct (analyze_loop_requests posts batch_size indices s [])
    as (k & Hk & Hsent & Hall).
  destruct (loop' s [] posts batch_size indices) as [[all|e] s1] eqn:Hloop;
    simpl in *.
  - specialize (Hall ltac:(eauto)).
    unfold OpenAIAnalyzer._summarize_problems.
    destruct all as [|p rest].
    + exists k, []. rewrite app_nil_r. simpl. auto.
    + exists k, [summary_request json_dumps (p :: rest)].
      unfold chat_create.
      destruct (create (client Client s1) (summary_request json_dumps (p :: rest)))
        as [out c']. simpl.
      split; [exact Hk|]. split; [now rewrite Hsent, <- app_assoc|].
      split; [|auto]. right. exists (p :: rest). split; [discriminate|reflexivity].
  - exists k, []. rewrite app_nil_r. split; [exact Hk|]. split; [exact Hsent|].
    split; [now left|]. intros [report Hreport]. discriminate.
Qed.

(** X9. As [main] calls it (batches of 10), [analyze_recruitment_problems]
    raises exactly when the result of some batch counts as true and
    cannot be iterated (the reply has a number other than zero, or
    [true], under [problems]); the exception is then a [TypeError].  In
    every other case it returns a report. *)
Theorem analysis_raises_on_scalar_result_only (s : session') (posts : list post) :
  exists indices results s1,
    py_range 0 (Z.of_nat (length posts)) 10 = Ok indices
    /\ results_of s (batches_of posts 10 indices) = (Ok results, s1)
    /\ ((exists e, fst (analyze' s posts 10) = Raise e)
        <-> Exists breaks_extend results)
    /\ (forall e, fst (analyze' s posts 10) = Raise e -> exn_kind e = TypeError)
    /\ (~ Exists breaks_extend results ->
        exists report, fst (analyze' s posts 10) = Ok report).
Proof.
  destruct (batches_are_chunks posts 10) as (indices & Hrange & _); [lia|].
  change (Z.of_nat 10) with 10%Z in Hrange.
  destruct (batch_results_returns Client create json_loads
              (batches_of posts 10 indices) s) as (results & s1 & Hres & _).
  exists indices, results, s1. split; [exact Hrange|]. split; [exact Hres|].
  destruct (analyze_loop_flatten Client create json_loads posts 10 indices
              s [] results s1 Hres) as [Hfst Hall].
  assert (Hshape :
            fst (analyze' s posts 10)
            = match flatten results with
              | Ok all => fst (summarize' s1 all)
              | Raise e => Raise e
              end).
  { unfold OpenAIAnalyzer.analyze_recruitment_problems. rewrite Hrange.
    destruct (flatten results) as [all|e] eqn:Hflat.
    - now rewrite (Hall all eq_refl).
    - simpl in Hfst.
      destruct (loop' s [] posts 10 indices) as [[all|e'] s2]; simpl in *;
        [discriminate|congruence]. }
  rewrite Hshape. rewrite <- flatten_raises_iff.
  destruct (flatten results) as [all|e] eqn:Hflat.
  - destruct (summarize_returns Client create json_loads json_dumps s1 all)
      as [report Hreport].
    rewrite Hreport. split; [|split].
    + split; intros [e He]; discriminate.
    + intros e He. discriminate.
    + eauto.
  - split; [|split].
    + split; eauto.
    + intros e' [= <-]. now apply flatten_raises_type_error in Hflat.
    + intros Hno. exfalso. apply Hno. eauto.
Qed.

(** X10. What a batch contributes depends on the shape of the reply
    that parsed: the value under [problems] when the reply is an object
    that has the key, the empty list when the object lacks the key, and
    the empty list too when the reply is not an object (a bare array of
    problems is dropped). *)
Theorem batch_result_by_reply_shape
        (s : session') (posts : list post) (resp : response) (c' : Client)
        (text : string) (v : json) :
  create (client Client s) (batch_request posts) = (Ok resp, c') ->
  first_content resp = Ok (Some text) ->
  json_loads text = Ok v ->
  fst (analyze_batch' s posts)
  = Ok match v with
       | JObj fields =>
           match Py.assoc "problems" fields with
           | Some problems => problems
           | None => JArr []
           end
       | _ => JArr []
       end.
Proof.
  intros Hcall Hcontent Hloads.
  unfold OpenAIAnalyzer._analyze_batch, chat_create, batch_problems.
  rewrite Hcall. simpl. rewrite Hcontent. simpl. rewrite Hloads. simpl.
  destruct v; reflexivity.
Qed.

(** The cut at a budget keeps a text that fits. *)
Lemma upto_short (n : Z) (text : string) :
  (Z.of_nat (String.length text) <= n)%Z -> PyStr.upto n text = text.
Proof.
  unfold PyStr.upto. intros Hlen.
  assert (Hnat : String.length text <= Z.to_nat n) by lia. clear Hlen.
  revert text Hnat. induction (Z.to_nat n) as [|k IH]; intros [|c rest]; simpl;
    intros Hlen; try reflexivity; try lia.
  f_equal. apply IH. lia.
Qed.

(** X11. The cut at the budget loses nothing of a text that fits: a
    combined excerpt of at most 8000 characters is sent whole, and so is
    a serialized problem list of at most 10000 characters; a longer text
    is cut to exactly the budget. *)
Theorem excerpts_cut_only_beyond_budget (posts : list post) (all_problems : list json) :
  ((Z.of_nat (String.length (_prepare_content_for_analysis posts)) <= 8000)%Z ->
   batch_excerpt posts = _prepare_content_for_analysis posts)
  /\ ((8000 < Z.of_nat (String.length (_prepare_content_for_analysis posts)))%Z ->
      Z.of_nat (String.length (batch_excerpt posts)) = 8000%Z)
  /\ ((Z.of_nat (String.length (json_dumps true (JArr all_problems))) <= 10000)%Z ->
      summary_excerpt json_dumps all_problems = json_dumps true (JArr all_problems))
  /\ ((10000 < Z.of_nat (String.length (json_dumps true (JArr all_problems))))%Z ->
      Z.of_nat (String.length (summary_excerpt json_dumps all_problems)) = 10000%Z).
Proof.
  unfold batch_excerpt, summary_excerpt.
  split; [apply upto_short|]. split; [|split; [apply upto_short|]].
  - intros Hlong. unfold PyStr.upto. rewrite str_length_take. lia.
  - intros Hlong. unfold PyStr.upto. rewrite str_length_take. lia.
Qed.

Lemma comment_lines_of_view (cs : list comment) :
  map comment_line cs
  = map (fun body => "- " +:+ body +:+ "..." +:+ newline)
        (map (fun c => PyStr.upto 200 (c_body c)) cs).
Proof. rewrite map_map. reflexivity. Qed.

(** X12. The text built for a post depends on its title, its body text
    and the first 200 characters of the bodies of its first five
    comments, and on nothing else: author, score, dates, links, later
    comments and the rest of a long comment never reach the prompt. *)
Theorem prompt_depends_on_view_only (posts posts' : list post) :
  map prompt_view posts = map prompt_view posts' ->
  _prepare_content_for_analysis posts = _prepare_content_for_analysis posts'
  /\ batch_request posts = batch_request posts'.
Proof.
  intros Hview.
  assert (Hcontent : map post_content posts = map post_content posts').
  { revert posts' Hview. induction posts as [|p rest IH]; intros [|p' rest'] Hview;
      simpl in Hview; try discriminate; [reflexivity|].
    injection Hview as Htitle Hbody Hcomments Hrest.
    simpl. f_equal; [|now apply IH].
    rewrite !post_content_excerpt. unfold excerpt_of_post.
    rewrite Htitle, Hbody. f_equal. f_equal.
    rewrite !comment_lines_of_view, Hcomments.
    unfold top_comments in Hcomments.
    destruct (p_comments p) as [|c cs], (p_comments p') as [|c' cs'];
      simpl in Hcomments; try discriminate; reflexivity. }
  assert (Heq : _prepare_content_for_analysis posts
                = _prepare_content_for_analysis posts')
    by (unfold _prepare_content_for_analysis; now rewrite Hcontent).
  split; [exact Heq|].
  unfold batch_request, batch_excerpt. now rewrite Heq.
Qed.

End AnalyzerMore.

(** ** main.py *)

Section MainMore.

Import OpenAIAnalyzer.

Variable Datetime : Type.
Variable Client : Type.
Variable create : Client -> request -> result response * Client.
Variable json_loads : string -> result json.
Variable json_dumps : bool -> json -> string.
Variable strftime_minute : Datetime -> string.

Abbreviation analysis_of :=
  (OpenAIAnalyzer.analyze_recruitment_problems Client create json_loads json_dumps).
Abbreviation report_step :=
  (Main.analyze_and_report Client create json_loads json_dumps).
Abbreviation raw_name := (Main.raw_filename Datetime strftime_minute).
Abbreviation load_posts' := (Main.load_posts json_loads).
Abbreviation load_stage' := (Main.load_stage json_loads).

Lemma display_problems_ok (problems : list json) :
  Main.display_problems problems = Ok tt <-> Forall Main.showable problems.
Proof.
  induction problems as [|problem rest IH]; simpl.
  - split; [constructor|reflexivity].
  - rewrite Forall_cons, <- IH. clear IH. unfold Main.showable.
    destruct problem as [| | | | | |fields]; simpl;
      try (split; [discriminate|intros [[] _]]).
    destruct (Py.assoc "description" fields) as [[| | | | | |]|]; simpl;
      try (split; [discriminate|intros [[] _]]);
      (split; [intros H; split; [exact I|exact H]|intros [_ H]; exact H]).
Qed.

Lemma display_chars_ok (text : string) :
  Main.display_problems (Py.chars text) = Ok tt <-> text = "".
Proof.
  destruct text as [|c rest]; simpl; [split; reflexivity|].
  split; discriminate.
Qed.

Lemma upto_empty_iff (text : string) : PyStr.upto 5 text = "" <-> text = "".
Proof.
  destruct text as [|c rest]; [split; reflexivity|].
  split; discriminate.
Qed.

Lemma no_top_problems_item (items : list json) :
  existsb (fun x => match x with
                    | JStr s => String.eqb s "top_problems"
                    | _ => false
                    end) items = false
  <-> Forall (fun x => x <> JStr "top_problems") items.
Proof.
  induction items as [|x rest IH]; simpl.
  - split; [constructor|reflexivity].
  - rewrite Forall_cons, <- IH, orb_false_iff. clear IH.
    destruct x as [| | | |s| |]; simpl;
      try (split; [intros [_ H]; split; [discriminate|exact H]
                  |intros [_ H]; split; [reflexivity|exact H]]).
    destruct (String.eqb_spec s "top_problems") as [->|Hne].
    + split; [intros [H _]; discriminate|intros [H _]; now contradiction H].
    + split; [intros [_ H]; split; [congruence|exact H]|intros [_ H]; auto].
Qed.

Lemma display_top_findings_ok (analysis : json) :
  Main.display_top_findings analysis = Ok tt <-> Main.displayable analysis.
Proof.
  unfold Main.display_top_findings, Main.displayable.
  destruct analysis as [| | | |s|items|fields]; simpl;
    try (split; [discriminate|intros []]).
  - destruct (PyStr.contains "top_problems" s); simpl;
      split; try discriminate; reflexivity.
  - rewrite <- no_top_problems_item.
    destruct (existsb _ items); simpl; split; try discriminate; reflexivity.
  - destruct (Py.assoc "top_problems" fields) as [top|] eqn:Htop; simpl;
      [|split; reflexivity].
    destruct top as [| | | |s|items|]; simpl;
      try (split; [discriminate|intros []]).
    + rewrite display_chars_ok. apply upto_empty_iff.
    + apply display_problems_ok.
Qed.

(** X13. [main] shows the findings without raising exactly for these
    reports: an object without [top_problems]; an object whose
    [top_problems] is a list in which each of the first five entries is
    a dict with a [description] that is absent, a string or a list (the
    entries after the fifth are not looked at); an object whose
    [top_problems] is the empty string; a list or a string in which
    [top_problems] does not occur.  For any other report the display
    raises. *)
Theorem display_top_findings_ok_iff (analysis : json) :
  Main.display_top_findings analysis = Ok tt <-> Main.displayable analysis.
Proof. apply display_top_findings_ok. Qed.

(** X14. When the batches gave problems and the Summarizer fails (its
    call raises, or the reply has no choice, no text, or text that does
    not parse), the run is not aborted: the report [{error: str(e)}] is
    written at [<output>.json] and [main] ends normally. *)
Theorem summary_failure_is_reported
        (s : OpenAIAnalyzer.session Client) (fs : gmap string string)
        (posts : list post) (output : string) (indices : list Z)
        (all_problems : list json) (s1 : OpenAIAnalyzer.session Client)
        (out : result response) (c2 : Client) (e : exn) :
  py_range 0 (Z.of_nat (length posts)) 10 = Ok indices ->
  analyze_loop Client create json_loads s [] posts 10 indices = (Ok all_problems, s1) ->
  all_problems <> [] ->
  create (client Client s1) (summary_request json_dumps all_problems) = (out, c2) ->
  summary_of json_loads out = Raise e ->
  report_step s fs posts output
  = (Main.Continue tt,
     {| client := c2;
        sent := sent Client s1 ++ [summary_request json_dumps all_problems] |},
     <[output +:+ ".json" := json_dumps false (JObj [("error", JStr (exn_str e))])]> fs).
Proof.
  intros Hrange Hloop Hne Hcall Hfail.
  unfold Main.analyze_and_report, OpenAIAnalyzer.analyze_recruitment_problems.
  rewrite Hrange, Hloop.
  destruct all_problems as [|p rest]; [contradiction|].
  unfold OpenAIAnalyzer._summarize_problems, chat_create.
  rewrite Hcall. simpl. rewrite Hfail. reflexivity.
Qed.

(** With a completion service whose every call raises, the loop keeps
    its problem list as it is. *)
Lemma analyze_loop_all_calls_raise (posts : list post) (batch_size : Z)
      (indices : list Z) :
  (forall c r, exists e c', create c r = (Raise e, c')) ->
  forall s acc,
    fst (analyze_loop Client create json_loads s acc posts batch_size indices) = Ok acc.
Proof.
  intros Hdown. induction indices as [|i rest IH]; intros s acc; simpl; [reflexivity|].
  destruct (Hdown (client Client s) (batch_request (slice posts i (i + batch_size))))
    as (e & c' & Hcall).
  rewrite (analyze_batch_recovers Client create json_loads s _ (Raise e) c' e Hcall
             eq_refl).
  simpl. apply IH.
Qed.

(** X19. When every call to the completion service raises, the run on
    fetched posts still ends normally: each batch is tried once, no
    summary is asked for, and the report [No problems identified] is
    written at [<output>.json]. *)
Theorem service_down_still_reports
        (s : OpenAIAnalyzer.session Client) (fs : gmap string string)
        (posts : list post) (output : string) :
  (forall c r, exists e c', create c r = (Raise e, c')) ->
  exists indices s1,
    py_range 0 (Z.of_nat (length posts)) 10 = Ok indices
    /\ report_step s fs posts output
       = (Main.Continue tt, s1,
          <[output +:+ ".json" := json_dumps false no_problems_report]> fs)
    /\ sent Client s1
       = sent Client s ++ map batch_request (batches_of posts 10 indices).
Proof.
  intros Hdown.
  destruct (batches_are_chunks posts 10) as (indices & Hrange & _); [lia|].
  change (Z.of_nat 10) with 10%Z in Hrange.
  pose proof (analyze_loop_all_calls_raise posts 10 indices Hdown s []) as Hloop.
  destruct (analyze_loop_requests Client create json_loads posts 10 indices s [])
    as (k & Hk & Hsent & Hall).
  destruct (analyze_loop Client create json_loads s [] posts 10 indices)
    as [all s1] eqn:Hrun.
  simpl in Hloop, Hsent, Hall. subst all.
  rewrite (Hall ltac:(eauto)) in Hsent.
  exists indices, s1. split; [exact Hrange|]. split.
  - unfold Main.analyze_and_report, OpenAIAnalyzer.analyze_recruitment_problems.
    rewrite Hrange, Hrun. reflexivity.
  - rewrite Hsent. f_equal. f_equal. apply take_ge.
    unfold batches_of. now rewrite length_map.
Qed.

(** The loop over the required variables keeps, in order, those that
    are not set. *)
Lemma missing_loop_filter (env : gmap string string) (vars : list string) :
  forall missing_vars,
    Main.missing_loop env vars missing_vars
    = missing_vars ++ List.filter (Main.not_set env) vars.
Proof.
  induction vars as [|var rest IH]; intros missing_vars; simpl.
  - now rewrite app_nil_r.
  - destruct (Main.not_set env var); rewrite IH; [|reflexivity].
    now rewrite <- app_assoc.
Qed.

Lemma not_set_false (env : gmap string string) (var : string) :
  Main.not_set env var = false <-> exists value, env !! var = Some value /\ value <> "".
Proof.
  unfold Main.not_set. destruct (env !! var) as [value|].
  - destruct value as [|c rest]; simpl.
    + split; [discriminate|]. intros (v & [= <-] & Hne). contradiction.
    + split; [|reflexivity]. intros _. eexists. split; [reflexivity|discriminate].
  - split; [discriminate|]. intros (v & Hv & _). discriminate.
Qed.

(** X17. [validate_environment] lets the run go on exactly when each of
    [REDDIT_CLIENT_ID], [REDDIT_CLIENT_SECRET] and [OPENAI_API_KEY] is
    set to a non-empty value (a variable set to the empty string counts
    as missing).  Otherwise it exits with code 1 after printing, between
    a heading and a hint, one line for each missing variable and for no
    other, in the order of that list. *)
Theorem validate_environment_checks_credentials (env : gmap string string) :
  (snd (Main.validate_environment env) = Main.Continue tt
   <-> Forall (fun var => exists value, env !! var = Some value /\ value <> "")
              Main.required_vars)
  /\ (snd (Main.validate_environment env) = Main.Continue tt
      /\ fst (Main.validate_environment env) = []
      \/ snd (Main.validate_environment env) = Main.Exit 1
         /\ List.filter (Main.not_set env) Main.required_vars <> []
         /\ fst (Main.validate_environment env)
            = "Error: Missing required environment variables:"
                :: map (fun var => "  - " +:+ var)
                       (List.filter (Main.not_set env) Main.required_vars)
                ++ [newline +:+
                    "Please copy .env.example to .env and fill in your API credentials."]).
Proof.
  unfold Main.validate_environment.
  rewrite missing_loop_filter. rewrite app_nil_l.
  assert (Hall : List.filter (Main.not_set env) Main.required_vars = []
                 <-> Forall (fun var => exists value,
                                env !! var = Some value /\ value <> "")
                            Main.required_vars).
  { induction Main.required_vars as [|var rest IH]; simpl.
    - split; [constructor|reflexivity].
    - rewrite Forall_cons, <- IH, <- not_set_false.
      destruct (Main.not_set env var); split;
        [discriminate|intros [? _]; discriminate|auto|intros [_ ?]; assumption]. }
  destruct (List.filter (Main.not_set env) Main.required_vars) as [|var rest];
    simpl.
  - split; [|left; auto]. split; [intros _; now apply Hall|reflexivity].
  - split; [|right; split; [reflexivity|split; [discriminate|reflexivity]]].
    split; [discriminate|]. intros Hset. apply Hall in Hset. discriminate.
Qed.

Ltac destruct_hyps :=
  repeat match goal with
         | H : exists _, _ |- _ => destruct H
         | H : _ /\ _ |- _ => destruct H
         | H : _ \/ _ |- _ => destruct H
         end.

Ltac load_back :=
  intros; destruct_hyps; simplify_eq;
  try match goal with
      | Hloads : json_loads ?text = _, H : json_loads ?text = _ |- _ =>
          rewrite Hloads in H
      end;
  simplify_eq; simpl in *;
  first [ done
        | exfalso; match goal with H : ~ _ |- _ => apply H; exact I end ].

Ltac load_there :=
  first [ left; reflexivity
        | eexists; split; [reflexivity|];
          first [ solve [repeat split; auto] | solve [auto] ]
        | right; eexists; split; [reflexivity|];
          first [ solve [left; eauto]
                | solve [right; eexists; split; [eassumption|intros []]] ] ].

Ltac load_case := split; [intros Heq; simplify_eq; load_there | load_back].

(** X18. The load path lets the run go on exactly when the file exists
    and its text parses to a non-empty list, dict or string.  The
    process exits with code 0 when the text parses to an empty list,
    dict or string, and with code 1 when the file is missing, the text
    does not parse, or it parses to a value that has no length. *)
Theorem load_stage_outcomes (fs : gmap string string) (load_from_file : string) :
  (forall posts,
      load_stage' fs load_from_file = Main.Continue posts
      <-> exists text,
            fs !! load_from_file = Some text
            /\ json_loads text = Ok posts
            /\ Main.sized posts /\ Py.truthy posts = true)
  /\ (load_stage' fs load_from_file = Main.Exit 0
      <-> exists text,
            fs !! load_from_file = Some text
            /\ (json_loads text = Ok (JArr [])
                \/ json_loads text = Ok (JObj [])
                \/ json_loads text = Ok (JStr "")))
  /\ (load_stage' fs load_from_file = Main.Exit 1
      <-> fs !! load_from_file = None
          \/ exists text,
               fs !! load_from_file = Some text
               /\ ((exists e, json_loads text = Raise e)
                   \/ exists v, json_loads text = Ok v /\ ~ Main.sized v)).
Proof.
  unfold Main.load_stage, Main.load_posts.
  destruct (fs !! load_from_file) as [text|] eqn:Hfile.
  2:{ split; [|split]; [intros posts|..]; load_case. }
  destruct (json_loads text) as [v|e] eqn:Hloads; simpl.
  2:{ split; [|split]; [intros posts|..]; load_case. }
  destruct v as [|b|z|x|str|items|fields];
    [| | | |destruct str|destruct items|destruct fields]; simpl;
    (split; [|split]; [intros posts|..]); load_case.
Qed.

End MainMore.

(** ** main.py, the run in fetch mode *)

Section FetcherFaults.

Variable Datetime : Type.
Variable minus_days : Datetime -> Z -> Datetime.
Variable timestamp : Datetime -> Q.
Variable isoformat : Q -> string.
Variable Forum : Type.
Variable subreddit_new : Forum -> list submission * Forum.
Variable submission_comments : Forum -> string -> list thing * Forum.

(** With collaborators that never raise, each loop of the fetcher
    returns what it returns when exceptions are left out of the
    picture. *)
Lemma try_fetch_posts_loop_never_raises cutoff limit stream : forall posts,
  RedditFetcher.try_fetch_posts_loop (RedditFetcher.never_raises isoformat)
    cutoff limit posts (map Ok stream)
  = Ok (RedditFetcher.fetch_posts_loop isoformat cutoff limit posts stream).
Proof.
  induction stream as [|x rest IH]; intros posts; simpl; [reflexivity|].
  destruct (RedditFetcher.Qltb (s_created_utc x) cutoff); [reflexivity|].
  destruct (RedditFetcher.limit_reached limit posts); [reflexivity|].
  apply IH.
Qed.

Lemma try_collect_comments_never_raises cap things : forall comments count,
  RedditFetcher.try_collect_comments (RedditFetcher.never_raises isoformat)
    cap comments count things
  = Ok (RedditFetcher.collect_comments isoformat cap comments count things).
Proof.
  induction things as [|t rest IH]; intros comments count; simpl; [reflexivity|].
  destruct (cap <=? count)%Z; [reflexivity|].
  destruct t as [c|]; [|apply IH].
  destruct (negb (String.eqb (fc_body c) removed_sentinel)); apply IH.
Qed.

Lemma try_fetch_comments_never_raises cap posts : forall f,
  RedditFetcher.try_fetch_comments (RedditFetcher.never_raises isoformat) Forum
    (RedditFetcher.comments_never_raise submission_comments) f posts cap
  = (Ok (fst (RedditFetcher.fetch_comments isoformat Forum submission_comments
                f posts cap)),
     snd (RedditFetcher.fetch_comments isoformat Forum submission_comments
            f posts cap)).
Proof.
  induction posts as [|p rest IH]; intros f; simpl; [reflexivity|].
  unfold RedditFetcher.comments_never_raise at 1.
  destruct (submission_comments f (p_id p)) as [things f1].
  rewrite try_collect_comments_never_raises, IH.
  destruct (RedditFetcher.fetch_comments isoformat Forum submission_comments
              f1 rest cap) as [rest' f2].
  reflexivity.
Qed.

(** X20. The fetcher raises no exception of its own: with a calendar
    and a forum client that do not raise, [fetch_all_content] returns,
    and what it returns and the state it leaves the forum client in are
    those of the reading without exceptions. *)
Theorem try_fetch_all_content_never_raises now f lookback_days post_limit cap :
  RedditFetcher.try_fetch_all_content Datetime
    (fun start days => Ok (minus_days start days))
    (RedditFetcher.never_raises timestamp)
    (RedditFetcher.never_raises isoformat) Forum
    (RedditFetcher.listing_never_raises subreddit_new)
    (RedditFetcher.comments_never_raise submission_comments)
    now f lookback_days post_limit cap
  = (Ok (fst (RedditFetcher.fetch_all_content Datetime minus_days timestamp
                isoformat Forum subreddit_new submission_comments
                now f lookback_days post_limit cap)),
     snd (RedditFetcher.fetch_all_content Datetime minus_days timestamp
            isoformat Forum subreddit_new submission_comments
            now f lookback_days post_limit cap)).
Proof.
  unfold RedditFetcher.try_fetch_all_content, RedditFetcher.fetch_all_content,
    RedditFetcher.try_fetch_posts, RedditFetcher.fetch_posts,
    RedditFetcher.fetch_posts_from, RedditFetcher.listing_never_raises.
  simpl.
  destruct (subreddit_new f) as [stream f1].
  rewrite try_fetch_posts_loop_never_raises.
  fold (RedditFetcher.cutoff_timestamp Datetime minus_days timestamp now lookback_days).
  destruct (RedditFetcher.fetch_posts_loop isoformat
              (RedditFetcher.cutoff_timestamp Datetime minus_days timestamp
                 now lookback_days) post_limit [] stream) as [|p rest];
    [reflexivity|].
  apply try_fetch_comments_never_raises.
Qed.

End FetcherFaults.

Section MainRun.

Import OpenAIAnalyzer.

Variable Datetime : Type.
Variable minus_days : Datetime -> Z -> result Datetime.
Variable timestamp : Datetime -> result Q.
Variable isoformat : Q -> result string.
Variable Forum : Type.
Variable subreddit_new : Forum -> list (result submission) * Forum.
Variable submission_comments : Forum -> string -> result (list thing) * Forum.
Variable Client : Type.
Variable create : Client -> request -> result response * Client.
Variable json_loads : string -> result json.
Variable json_dumps : bool -> json -> string.
Variable strftime_minute : Datetime -> string.

Abbreviation fetched :=
  (RedditFetcher.try_fetch_all_content Datetime minus_days timestamp isoformat
     Forum subreddit_new submission_comments).
Abbreviation analysis :=
  (OpenAIAnalyzer.analyze_recruitment_problems Client create json_loads json_dumps).
Abbreviation main_fetch' :=
  (Main.main_fetch Datetime minus_days timestamp isoformat Forum subreddit_new
     submission_comments Client create json_loads json_dumps strftime_minute).
Abbreviation saved := (Main.save_raw_data Datetime json_dumps strftime_minute).

(** [validate_environment] goes on, or exits with code 1. *)
Lemma validate_environment_outcome (env : gmap string string) :
  snd (Main.validate_environment env) = Main.Continue tt
  \/ snd (Main.validate_environment env) = Main.Exit 1.
Proof.
  unfold Main.validate_environment.
  destruct (Main.missing_loop env Main.required_vars []); simpl; auto.
Qed.

(** An overflow in the computation of the cutoff leaves the fetcher
    before the forum is asked anything. *)
Lemma try_fetch_all_content_overflow now f lookback_days post_limit cap e :
  minus_days now lookback_days = Raise e ->
  fetched now f lookback_days post_limit cap = (Raise e, f).
Proof.
  intros Hraise.
  unfold RedditFetcher.try_fetch_all_content, RedditFetcher.try_fetch_posts,
    RedditFetcher.try_cutoff_timestamp.
  rewrite Hraise. reflexivity.
Qed.



End MainRun.

(** ** Examples for the further properties *)

Section MoreExamples.

Import OpenAIAnalyzer.

Abbreviation Script' := (list (result response)).

(** X1 with a limit of 1 on the sample forum. *)
Lemma fetch_posts_takes_first_in_window_witness :
  1%Z <> 0%Z
  /\ fst (RedditFetcher.fetch_posts Q Sample.minus_days Sample.timestamp
            Sample.isoformat unit Sample.subreddit_new Sample.now tt 30 (Some 1%Z))
     = [RedditFetcher._extract_post_data Sample.isoformat (Sample.sub "a1" 1700000000)].
Proof.
  split; [discriminate|].
  rewrite (fetch_posts_takes_first_in_window Q Sample.minus_days Sample.timestamp
             Sample.isoformat unit Sample.subreddit_new Sample.now tt 30 1)
    by discriminate.
  reflexivity.
Defined.

Lemma sample_listing_newest_first : RedditFetcher.newest_first Sample.listing.
Proof.
  simpl. repeat split; repeat constructor; unfold Qle; simpl; lia.
Qed.

(** X2 on the sample forum, whose listing is newest first. *)
Lemma fetch_posts_complete_when_newest_first_witness :
  RedditFetcher.newest_first (fst (Sample.subreddit_new tt))
  /\ fst (RedditFetcher.fetch_posts Q Sample.minus_days Sample.timestamp
            Sample.isoformat unit Sample.subreddit_new Sample.now tt 30 None)
     = map (RedditFetcher._extract_post_data Sample.isoformat)
           (RedditFetcher.in_window
              (RedditFetcher.cutoff_timestamp Q Sample.minus_days Sample.timestamp
                 Sample.now 30)
              (fst (Sample.subreddit_new tt))).
Proof.
  split; [exact sample_listing_newest_first|].
  apply (fetch_posts_complete_when_newest_first Q Sample.minus_days Sample.timestamp
           Sample.isoformat unit Sample.subreddit_new Sample.now tt 30).
  exact sample_listing_newest_first.
Defined.

(** X5 on the sample forum with a cap of 1 comment and a limit of 1
    post. *)
Lemma fetch_all_content_guarantees_witness :
  (0 <= 1)%Z
  /\ length (fst (RedditFetcher.fetch_all_content Q Sample.minus_days
                    Sample.timestamp Sample.isoformat unit Sample.subreddit_new
                    Sample.submission_comments Sample.now tt 30 (Some 1%Z) 1))
     <= 1.
Proof.
  split; [lia|].
  destruct (fetch_all_content_guarantees Q Sample.minus_days Sample.timestamp
              Sample.isoformat unit Sample.subreddit_new Sample.submission_comments
              Sample.now tt 30 (Some 1%Z) 1 ltac:(lia)) as [_ Hlimit].
  specialize (Hlimit 1%Z eq_refl ltac:(lia)). lia.
Defined.

(** X6 with batches of 3 on the two sample posts. *)
Lemma batches_partition_any_size_witness :
  (0 < 3)%Z
  /\ exists indices,
       py_range 0 (Z.of_nat (length Sample.posts)) 3 = Ok indices
       /\ concat (batches_of Sample.posts 3 indices) = Sample.posts.
Proof.
  split; [lia|].
  destruct (batches_partition_any_size Sample.posts 3 ltac:(lia))
    as (indices & Hrange & _ & _ & Hconcat).
  exists indices. split; [exact Hrange|exact Hconcat].
Defined.

(** X10 on a reply that is a bare array. *)
Lemma batch_result_by_reply_shape_witness :
  Sample.scripted_create [Sample.reply (Sample.dump (JArr [JStr "ghosting"]))]
    (batch_request Sample.posts)
  = (Sample.reply (Sample.dump (JArr [JStr "ghosting"])), [])
  /\ Sample.loads (Sample.dump (JArr [JStr "ghosting"])) = Ok (JArr [JStr "ghosting"])
  /\ fst (_analyze_batch Script' Sample.scripted_create Sample.loads
            (Sample.session_of [Sample.reply (Sample.dump (JArr [JStr "ghosting"]))])
            Sample.posts)
     = Ok (JArr []).
Proof.
  assert (Hloads : Sample.loads (Sample.dump (JArr [JStr "ghosting"]))
                   = Ok (JArr [JStr "ghosting"])) by (vm_compute; reflexivity).
  split; [reflexivity|]. split; [exact Hloads|].
  apply (batch_result_by_reply_shape Script' Sample.scripted_create Sample.loads
           (Sample.session_of [Sample.reply (Sample.dump (JArr [JStr "ghosting"]))])
           Sample.posts
           {| choices := [ {| message_content :=
                                Some (Sample.dump (JArr [JStr "ghosting"])) |} ] |}
           [] (Sample.dump (JArr [JStr "ghosting"])) (JArr [JStr "ghosting"]));
    [reflexivity|reflexivity|exact Hloads].
Defined.

(** X12 on the sample posts and on the same posts with other authors
    and scores, and with more comments than five. *)
Lemma prompt_depends_on_view_only_witness :
  map prompt_view (map Sample.crowded Sample.posts)
  = map prompt_view (map Sample.rescored (map Sample.crowded Sample.posts))
  /\ map Sample.crowded Sample.posts
     <> map Sample.rescored (map Sample.crowded Sample.posts)
  /\ batch_request (map Sample.crowded Sample.posts)
     = batch_request (map Sample.rescored (map Sample.crowded Sample.posts)).
Proof.
  assert (Hview : map prompt_view (map Sample.crowded Sample.posts)
                  = map prompt_view
                      (map Sample.rescored (map Sample.crowded Sample.posts)))
    by (vm_compute; reflexivity).
  split; [exact Hview|]. split; [vm_compute; discriminate|].
  exact (proj2 (prompt_depends_on_view_only _ _ Hview)).
Defined.

(** X14 on a run whose only batch gives one problem and whose summary
    call raises. *)
Lemma summary_failure_is_reported_witness :
  py_range 0 (Z.of_nat (length Sample.posts)) 10 = Ok [0%Z]
  /\ fst (analyze_loop Script' Sample.scripted_create Sample.loads
            (Sample.session_of [Sample.problems_reply (JArr [JStr "ghosting"])])
            [] Sample.posts 10 [0%Z])
     = Ok [JStr "ghosting"]
  /\ fst (fst (Main.analyze_and_report Script' Sample.scripted_create Sample.loads
                 Sample.dumps
                 (Sample.session_of [Sample.problems_reply (JArr [JStr "ghosting"])])
                 ∅ Sample.posts Sample.output_prefix))
     = Main.Continue tt
  /\ snd (Main.analyze_and_report Script' Sample.scripted_create Sample.loads
            Sample.dumps
            (Sample.session_of [Sample.problems_reply (JArr [JStr "ghosting"])])
            ∅ Sample.posts Sample.output_prefix)
       !! "recruitment_problems_report.json"
     = Some (Sample.dumps false (JObj [("error", JStr "Connection error.")])).
Proof.
  assert (Hrange : py_range 0 (Z.of_nat (length Sample.posts)) 10 = Ok [0%Z])
    by reflexivity.
  assert (Hloop :
            analyze_loop Script' Sample.scripted_create Sample.loads
              (Sample.session_of [Sample.problems_reply (JArr [JStr "ghosting"])])
              [] Sample.posts 10 [0%Z]
            = (Ok [JStr "ghosting"],
               {| client := []; sent := [batch_request (slice Sample.posts 0 10)] |}))
    by (vm_compute; reflexivity).
  split; [exact Hrange|]. split; [now rewrite Hloop|].
  rewrite (summary_failure_is_reported Script' Sample.scripted_create Sample.loads
             Sample.dumps
             (Sample.session_of [Sample.problems_reply (JArr [JStr "ghosting"])])
             ∅ Sample.posts Sample.output_prefix [0%Z] [JStr "ghosting"]
             {| client := []; sent := [batch_request (slice Sample.posts 0 10)] |}
             (Raise Sample.connection_error) [] Sample.connection_error
             Hrange Hloop ltac:(discriminate) eq_refl eq_refl).
  split; [reflexivity|]. apply lookup_insert_eq.
Defined.

(** X7 on the sample posts: a batch size of zero, a negative one, and
    no posts. *)
Lemma analysis_without_batches_witness :
  (exists e,
      analyze_recruitment_problems Script' Sample.scripted_create Sample.loads
        Sample.dumps (Sample.session_of []) Sample.posts 0
      = (Raise e, Sample.session_of []) /\ exn_kind e = ValueError)
  /\ analyze_recruitment_problems Script' Sample.scripted_create Sample.loads
       Sample.dumps (Sample.session_of []) Sample.posts (-3)
     = (Ok no_problems_report, Sample.session_of [])
  /\ analyze_recruitment_problems Script' Sample.scripted_create Sample.loads
       Sample.dumps (Sample.session_of []) [] 10
     = (Ok no_problems_report, Sample.session_of []).
Proof.
  split; [|split].
  - apply (analysis_without_batches Script' Sample.scripted_create Sample.loads
             Sample.dumps (Sample.session_of []) Sample.posts 0). reflexivity.
  - apply (analysis_without_batches Script' Sample.scripted_create Sample.loads
             Sample.dumps (Sample.session_of []) Sample.posts (-3)). lia.
  - apply (analysis_without_batches Script' Sample.scripted_create Sample.loads
             Sample.dumps (Sample.session_of []) Sample.posts 10). discriminate.
Defined.

(** X11 on the sample posts, whose excerpt fits, and on a post with a
    body of 9000 characters, whose excerpt is cut. *)
Lemma excerpts_cut_only_beyond_budget_witness :
  (Z.of_nat (String.length (_prepare_content_for_analysis Sample.posts)) <= 8000)%Z
  /\ batch_excerpt Sample.posts = _prepare_content_for_analysis Sample.posts
  /\ (8000 < Z.of_nat (String.length
                         (_prepare_content_for_analysis [Sample.long_post])))%Z
  /\ Z.of_nat (String.length (batch_excerpt [Sample.long_post])) = 8000%Z.
Proof.
  assert (Hshort : (Z.of_nat (String.length
                                (_prepare_content_for_analysis Sample.posts))
                    <= 8000)%Z) by (vm_compute; discriminate).
  assert (Hlong : (8000 < Z.of_nat (String.length
                                      (_prepare_content_for_analysis
                                         [Sample.long_post])))%Z)
    by (vm_compute; reflexivity).
  split; [exact Hshort|]. split.
  - apply (excerpts_cut_only_beyond_budget Sample.dumps Sample.posts []). exact Hshort.
  - split; [exact Hlong|].
    apply (excerpts_cut_only_beyond_budget Sample.dumps [Sample.long_post] []).
    exact Hlong.
Defined.

(** X19 on the sample posts with a service that is down. *)
Lemma service_down_still_reports_witness :
  (forall c r, exists e c', Sample.down_create c r = (Raise e, c'))
  /\ fst (fst (Main.analyze_and_report unit Sample.down_create Sample.loads
                 Sample.dumps {| client := tt; sent := [] |} ∅ Sample.posts
                 Sample.output_prefix))
     = Main.Continue tt.
Proof.
  assert (Hdown : forall c r, exists e c', Sample.down_create c r = (Raise e, c'))
    by (intros c r; do 2 eexists; reflexivity).
  split; [exact Hdown|].
  destruct (service_down_still_reports unit Sample.down_create Sample.loads
              Sample.dumps {| client := tt; sent := [] |} ∅ Sample.posts
              Sample.output_prefix Hdown) as (indices & s1 & _ & Hrun & _).
  now rewrite Hrun.
Defined.

(** The environment check on the two sample environments. *)
Example environment_ready :
  Main.validate_environment Sample.env_ready = ([], Main.Continue tt).
Proof. vm_compute. reflexivity. Qed.

Example environment_lacking :
  snd (Main.validate_environment Sample.env_lacking) = Main.Exit 1
  /\ List.filter (Main.not_set Sample.env_lacking) Main.required_vars
     = ["REDDIT_CLIENT_SECRET"; "OPENAI_API_KEY"].
Proof. split; vm_compute; reflexivity. Qed.

(** [main] in fetch mode on the sample forum. *)
Abbreviation sample_main listing :=
  (Main.main_fetch Q Sample.minus_days_checked
     (RedditFetcher.never_raises Sample.timestamp)
     (RedditFetcher.never_raises Sample.isoformat) unit
     listing Sample.comments_checked
     Script' Sample.scripted_create Sample.loads Sample.dumps
     Sample.strftime_minute).

(** A lookback of 1000000000 days: [timedelta] overflows, and the run
    stops with code 1 before it asks or writes anything. *)
Example lookback_overflow_exits_one :
  sample_main Sample.listing_checked Sample.env_ready Sample.now Sample.now tt
    (Sample.session_of Sample.recovering_script) ∅ 1000000000 None 50 true
    Sample.output_prefix
  = (Main.Exit 1, Sample.session_of Sample.recovering_script, ∅).
Proof. vm_compute. reflexivity. Qed.

(** The listing fails at its second item: code 1, the first post is not
    saved. *)
Example listing_failure_exits_one :
  sample_main Sample.listing_interrupted Sample.env_ready Sample.now Sample.now tt
    (Sample.session_of Sample.recovering_script) ∅ 30 None 50 true
    Sample.output_prefix
  = (Main.Exit 1, Sample.session_of Sample.recovering_script, ∅).
Proof. vm_compute. reflexivity. Qed.

(** A credential is missing: code 1, whatever the forum holds. *)
Example missing_credential_exits_one :
  sample_main Sample.listing_checked Sample.env_lacking Sample.now Sample.now tt
    (Sample.session_of Sample.recovering_script) ∅ 30 None 50 true
    Sample.output_prefix
  = (Main.Exit 1, Sample.session_of Sample.recovering_script, ∅).
Proof. vm_compute. reflexivity. Qed.

(** With nothing fetched, [main] exits with code 0: no request is sent
    and no file is written, even when raw data was to be saved. *)
Example nothing_fetched_exits_zero :
  sample_main (fun f => ([], f)) Sample.env_ready Sample.now Sample.now tt
    (Sample.session_of []) ∅ 30 None 50 true Sample.output_prefix
  = (Main.Exit 0, Sample.session_of [], ∅).
Proof. vm_compute. reflexivity. Qed.

(** The sample forum with a service that answers: the run reaches its
    end, with the raw data and the report written. *)
Example sample_run_completes :
  fst (fst (sample_main Sample.listing_checked Sample.env_ready Sample.now
              Sample.now tt
              (Sample.session_of (tail Sample.recovering_script)) ∅ 30 None 50
              true Sample.output_prefix))
  = Main.Continue tt
  /\ snd (sample_main Sample.listing_checked Sample.env_ready Sample.now
            Sample.now tt
            (Sample.session_of (tail Sample.recovering_script)) ∅ 30 None 50
            true Sample.output_prefix)
     = <["recruitment_problems_report.json"
         := Sample.dumps false (JObj [("top_problems", JArr [])])]>
         (<["reddit_data_2023-11-14_22-30.json"
            := Sample.dumps false (Main.json_of_posts Sample.posts)]> ∅).
Proof. split; vm_compute; reflexivity. Qed.

End MoreExamples.
